(* ===================================================================== *)
(*  ph-plotter: the incremental refresh engine of src/main.py             *)
(*                                                                       *)
(*  A shallow embedding of read_csv_data, update_dropdown and            *)
(*  update_graph, and the properties of the refresh cycle.               *)
(*                                                                       *)
(*  Conventions of the embedding                                         *)
(*   - A Python float is a binary64 number: a finite value is the        *)
(*     rational it stands for, and every arithmetic operation rounds     *)
(*     its exact result to the nearest binary64 number, ties to even,    *)
(*     overflowing to an infinity. The sign of zero, which no            *)
(*     operation of the callbacks can observe, is not kept.              *)
(*   - A cell of a numeric column is NaN or a rational: an int64 or a    *)
(*     finite float64 value. Infinite cells are not represented.         *)
(*   - The file modification time, only ever compared for equality,      *)
(*     is a Z. Column names and dict keys are ASCII strings.             *)
(*   - pandas and plotly are external collaborators. The table           *)
(*     pd.read_csv returns for a file, or the exception it raises, is    *)
(*     part of the file's description; pd.to_datetime, Series.quantile   *)
(*     and the behaviour of pandas on columns that hold no numbers are   *)
(*     parameters of the development (Library).                          *)
(*   - Callbacks run in a state-and-exception monad over a World         *)
(*     that holds the file system, the clock, stdout, the module         *)
(*     globals and a log of the library calls made.                      *)
(*   - Purely cosmetic figure attributes (marker, line, legend,          *)
(*     margin dictionaries) are not represented.                         *)
(* ===================================================================== *)

From Stdlib Require Import ZArith QArith Qround Qpower String Ascii List Bool Lia Lqa.
From stdpp Require Import gmap strings list fin_maps.
Import ListNotations.

Local Close Scope Q_scope.
Local Open Scope string_scope.
Local Open Scope list_scope.

(* --------------------------------------------------------------------- *)
(*  Python strings                                                       *)
(* --------------------------------------------------------------------- *)

Module Py.

(* str.lower() on ASCII text *)
Definition lower_ascii (c : ascii) : ascii :=
  let n := nat_of_ascii c in
  if (65 <=? n)%nat && (n <=? 90)%nat then ascii_of_nat (n + 32) else c.

Fixpoint lower (s : string) : string :=
  match s with
  | EmptyString => EmptyString
  | String c s' => String (lower_ascii c) (lower s')
  end.

(* [sub in s] on strings: substring test *)
Fixpoint contains (sub s : string) : bool :=
  match s with
  | EmptyString => String.prefix sub s
  | String _ s' => String.prefix sub s || contains sub s'
  end.

(* truthiness of an optional string: None and the empty string are falsy *)
Definition truthy_str (o : option string) : bool :=
  match o with
  | Some (String _ _) => true
  | _ => false
  end.

(* [a or b] on optional strings *)
Definition or_str (a b : option string) : option string :=
  if truthy_str a then a else b.

(* str() of an optional string inside an f-string *)
Definition fmt (o : option string) : string :=
  match o with
  | Some s => s
  | None => "None"
  end.

End Py.

(* --------------------------------------------------------------------- *)
(*  Python floats: binary64                                              *)
(* --------------------------------------------------------------------- *)

Definition pow2 (e : Z) : Q := Qpower 2 e.

(* floor(log2 a) for a > 0 *)
Definition ilog2 (a : Q) : Z :=
  let l := (Z.log2 (Qnum a) - Z.log2 (Zpos (Qden a)))%Z in
  if Qle_bool (pow2 l) a then l else (l - 1)%Z.

(* the nearest integer, ties to even *)
Definition rne (q : Q) : Z :=
  let f := Qfloor q in
  match Qcompare (Qminus q (inject_Z f)) (1 # 2) with
  | Lt => f
  | Gt => (f + 1)%Z
  | Eq => if Z.even f then f else (f + 1)%Z
  end.

(* the exponent of the last of the 53 bits of a >= 0; subnormal numbers
   share the exponent -1074 *)
Definition ulp_exp (a : Q) : Z := Z.max (ilog2 a - 52) (-1074).

(* a >= 0 rounded to 53 significant bits *)
Definition round_mag (a : Q) : Q :=
  Qmult (inject_Z (rne (Qdiv a (pow2 (ulp_exp a))))) (pow2 (ulp_exp a)).

Definition round_finite (q : Q) : Q :=
  if Qle_bool 0 q then round_mag q else Qopp (round_mag (Qopp q)).

Inductive float : Type :=
| Fin (q : Q)
| PosInf
| NegInf
| NaN.

(* the binary64 number an exact result q is rounded to *)
Definition round64 (q : Q) : float :=
  let r := round_finite q in
  if Qle_bool (pow2 1024) r then PosInf
  else if Qle_bool r (Qopp (pow2 1024)) then NegInf
  else Fin r.

(* a + b *)
Definition fadd (a b : float) : float :=
  match a, b with
  | NaN, _ | _, NaN => NaN
  | Fin x, Fin y => round64 (Qplus x y)
  | PosInf, NegInf | NegInf, PosInf => NaN
  | PosInf, _ | _, PosInf => PosInf
  | NegInf, _ | _, NegInf => NegInf
  end.

(* a - b *)
Definition fsub (a b : float) : float :=
  match a, b with
  | NaN, _ | _, NaN => NaN
  | Fin x, Fin y => round64 (Qminus x y)
  | PosInf, PosInf | NegInf, NegInf => NaN
  | PosInf, _ | _, NegInf => PosInf
  | NegInf, _ | _, PosInf => NegInf
  end.

(* x * inf *)
Definition inf_times (x : Q) : float :=
  match Qcompare x 0 with
  | Gt => PosInf
  | Lt => NegInf
  | Eq => NaN
  end.

(* a * b *)
Definition fmul (a b : float) : float :=
  match a, b with
  | NaN, _ | _, NaN => NaN
  | Fin x, Fin y => round64 (Qmult x y)
  | Fin x, PosInf | PosInf, Fin x => inf_times x
  | Fin x, NegInf | NegInf, Fin x => inf_times (Qopp x)
  | PosInf, PosInf | NegInf, NegInf => PosInf
  | PosInf, NegInf | NegInf, PosInf => NegInf
  end.

(* a <= b; False when one of them is NaN *)
Definition fle (a b : float) : bool :=
  match a, b with
  | NaN, _ | _, NaN => false
  | NegInf, _ | _, PosInf => true
  | PosInf, _ | _, NegInf => false
  | Fin x, Fin y => Qle_bool x y
  end.

(* a == b; False when one of them is NaN *)
Definition feqb (a b : float) : bool :=
  match a, b with
  | Fin x, Fin y => Qeq_bool x y
  | PosInf, PosInf | NegInf, NegInf => true
  | _, _ => false
  end.

(* --------------------------------------------------------------------- *)
(*  JSON values carried by the dcc.Store / relayoutData payloads          *)
(* --------------------------------------------------------------------- *)

#[local] Set Warnings "-register-all".
Inductive json : Type :=
| JNull
| JBool (b : bool)
| JNum (q : Q)
| JStr (s : string)
| JArr (l : list json).

(* A Python dict with string keys *)
Abbreviation dict := (gmap string json).

(* truthiness of a dict that may be None *)
Definition truthy_dict (o : option dict) : bool :=
  match o with
  | Some d => negb (bool_decide (dom d = ∅))
  | None => false
  end.

(* --------------------------------------------------------------------- *)
(*  pandas: Series and DataFrame                                         *)
(* --------------------------------------------------------------------- *)

Inductive Series : Type :=
| Numeric (v : list (option Q))        (* int64/float64; None is NaN *)
| Datetime64 (v : list (option Z))     (* None is NaT *)
| Object (v : list (option string)).   (* text; None is NaN *)

Definition series_len (s : Series) : nat :=
  match s with
  | Numeric v => length v
  | Datetime64 v => length v
  | Object v => length v
  end.

(* pd.isna on one cell *)
Definition isna {A} (c : option A) : bool :=
  match c with
  | Some _ => false
  | None => true
  end.

(* s.isna().all() *)
Definition isna_all (s : Series) : bool :=
  match s with
  | Numeric v => forallb isna v
  | Datetime64 v => forallb isna v
  | Object v => forallb isna v
  end.

(* pd.api.types.is_datetime64_any_dtype *)
Definition is_datetime64_any_dtype (s : Series) : bool :=
  match s with
  | Datetime64 _ => true
  | _ => false
  end.

(* boolean indexing s[mask] *)
Definition select {A} (mask : list bool) (l : list A) : list A :=
  map snd (filter (fun p => fst p = true) (combine mask l)).

Definition series_select (mask : list bool) (s : Series) : Series :=
  match s with
  | Numeric v => Numeric (select mask v)
  | Datetime64 v => Datetime64 (select mask v)
  | Object v => Object (select mask v)
  end.

(* A DataFrame is its ordered list of named columns *)
Definition DataFrame := list (string * Series).

Definition columns (df : DataFrame) : list string := map fst df.

(* [name in df.columns] *)
Definition has_col (df : DataFrame) (name : string) : bool :=
  bool_decide (name ∈ columns df).

(* df[name]; None stands for KeyError *)
Fixpoint df_get (name : string) (df : DataFrame) : option Series :=
  match df with
  | [] => None
  | (n, s) :: df' => if String.eqb n name then Some s else df_get name df'
  end.

(* df[name] = s *)
Fixpoint df_set (name : string) (s : Series) (df : DataFrame) : DataFrame :=
  match df with
  | [] => [(name, s)]
  | (n, s0) :: df' =>
      if String.eqb n name then (n, s) :: df' else (n, s0) :: df_set name s df'
  end.

(* len(df) *)
Definition df_len (df : DataFrame) : nat :=
  match df with
  | [] => 0
  | (_, s) :: _ => series_len s
  end.

(* every column has len(df) cells: what pandas guarantees of a frame *)
Definition df_wf (df : DataFrame) : bool :=
  forallb (fun c => Nat.eqb (series_len (snd c)) (df_len df)) df.

(* df[mask] *)
Definition df_filter (mask : list bool) (df : DataFrame) : DataFrame :=
  map (fun c => (fst c, series_select mask (snd c))) df.

(* df.empty : no column or no row *)
Definition df_empty (df : DataFrame) : bool :=
  match df with
  | [] => true
  | _ => Nat.eqb (df_len df) 0
  end.

(* the cells that are not NaN *)
Definition dropna {A} (v : list (option A)) : list A := omap id v.

(* --------------------------------------------------------------------- *)
(*  The fence around the quartiles of a numeric column                   *)
(* --------------------------------------------------------------------- *)

(* lines 241-243: the bounds of the fence from the two quartiles *)
Definition fence (q1 q3 : float) : float * float :=
  let iqr := fsub q3 q1 in
  let lower_bound := fsub q1 (fmul (Fin (3 # 2)) iqr) in
  let upper_bound := fadd q3 (fmul (Fin (3 # 2)) iqr) in
  (lower_bound, upper_bound).

(* (col >= lower) & (col <= upper) on one cell: the cell is compared as a
   float64, and comparisons with NaN are False *)
Definition in_fence (lower upper : float) (c : option Q) : bool :=
  match c with
  | Some x => fle lower (round64 x) && fle (round64 x) upper
  | None => false
  end.

(* line 246: the rows inside the fence *)
Definition fence_mask (q1 q3 : float) (v : list (option Q)) : list bool :=
  map (in_fence (fst (fence q1 q3)) (snd (fence q1 q3))) v.

(* mask.sum() *)
Definition mask_sum (mask : list bool) : nat := count_occ bool_dec mask true.

(* lines 249-250: a mask with fewer than five rows gives way to all rows *)
Definition at_least_five (df : DataFrame) (mask : list bool) : list bool :=
  if (mask_sum mask <? 5)%nat then repeat true (df_len df) else mask.

(* lines 246-250: the rows plotted as normal *)
Definition normal_mask (df : DataFrame) (v : list (option Q))
    (q1 q3 : float) : list bool :=
  at_least_five df (fence_mask q1 q3 v).

(* --------------------------------------------------------------------- *)
(*  The world the callbacks run in                                       *)
(* --------------------------------------------------------------------- *)

Inductive Exn : Type :=
| KeyError (key : string)                  (* df[key], d[key] *)
| Exception (kind message : string).       (* any other: its class, str(e) *)

(* str(e); the key of a KeyError is shown by repr, which for a key without
   quotes or escapes puts it between single quotes *)
Definition exn_str (e : Exn) : string :=
  match e with
  | KeyError k => "'" ++ k ++ "'"
  | Exception _ message => message
  end.

Definition FileNotFoundError (path : string) : Exn :=
  Exception "FileNotFoundError" ("[Errno 2] No such file or directory: '" ++ path ++ "'").

(* the library calls the development keeps a log of *)
Inductive Call : Type :=
| CallReadCsv (path : string)
| CallQuantile (p : Q).

Inductive Res (A : Type) : Type :=
| Ok (a : A)
| Raise (e : Exn).
Arguments Ok {A} a.
Arguments Raise {A} e.

(* A file: its modification time and what pd.read_csv makes of its
   content, a table or an exception *)
Record File := mkFile {
  f_mtime : Z;
  f_table : Res DataFrame
}.

(* What the callbacks get from pandas and plotly beyond the operations
   written out above *)
Record Library := mkLibrary {
  (* pd.to_datetime(s, format=fmt, errors='coerce'): the parsed column,
     the cells that do not parse being NaT, or the exception raised *)
  to_datetime : option string -> Series -> Res (list (option Z));
  (* Series.quantile(p) on the cells of a numeric column *)
  quantile : Q -> list (option Q) -> float;
  (* Series.quantile(p) on a column that holds no numbers (datetime64,
     object): whether it returns *)
  quantile_other : Q -> Series -> Res unit;
  (* lines 241-246 on such a column, once both quartiles are there: which
     rows, by position, are inside the fence *)
  fence_mask_other : Series -> Res (nat -> bool);
  (* str(e) of the ValueError go.Scatter raises when given range(n) as
     the values of an axis *)
  range_rejected : nat -> string
}.

Record World := mkWorld {
  files : gmap string File;
  now : string;                              (* the clock, formatted *)
  stdout : list string;
  calls : list Call;
  last_modified_time : option Z;             (* module globals *)
  dropdown_options : list (string * string);
  dropdown_value : option string
}.

Definition M (A : Type) : Type := World -> Res A * World.

Definition ret {A} (a : A) : M A := fun w => (Ok a, w).

Definition bind {A B} (c : M A) (k : A -> M B) : M B :=
  fun w =>
    match c w with
    | (Ok a, w') => k a w'
    | (Raise e, w') => (Raise e, w')
    end.

Definition raise {A} (e : Exn) : M A := fun w => (Raise e, w).

(* the outcome of a call that leaves the world alone *)
Definition lift {A} (r : Res A) : M A := fun w => (r, w).

(* try: c  except Exception as e: h e *)
Definition try_except {A} (c : M A) (h : Exn -> M A) : M A :=
  fun w =>
    match c w with
    | (Ok a, w') => (Ok a, w')
    | (Raise e, w') => h e w'
    end.

Notation "'let*' x := c 'in' k" := (bind c (fun x => k))
  (at level 10, x name, c at level 100, k at level 200).
Notation "'run' c 'in' k" := (bind c (fun _ => k))
  (at level 10, c at level 100, k at level 200).

Definition print (line : string) : M unit :=
  fun w => (Ok tt,
            mkWorld (files w) (now w) (stdout w ++ [line]) (calls w)
                    (last_modified_time w) (dropdown_options w) (dropdown_value w)).

Definition log_call (c : Call) : M unit :=
  fun w => (Ok tt,
            mkWorld (files w) (now w) (stdout w) (calls w ++ [c])
                    (last_modified_time w) (dropdown_options w) (dropdown_value w)).

Definition get_globals : M (option Z * list (string * string) * option string) :=
  fun w => (Ok (last_modified_time w, dropdown_options w, dropdown_value w), w).

Definition set_globals (t : option Z) (opts : list (string * string))
    (v : option string) : M unit :=
  fun w => (Ok tt, mkWorld (files w) (now w) (stdout w) (calls w) t opts v).

(* datetime.now().strftime('%Y-%m-%d %H:%M:%S') *)
Definition datetime_now : M string := fun w => (Ok (now w), w).

Definition os_path_exists (path : string) : M bool :=
  fun w => (Ok (match files w !! path with Some _ => true | None => false end), w).

Definition os_path_getmtime (path : string) : M Z :=
  fun w =>
    match files w !! path with
    | Some f => (Ok (f_mtime f), w)
    | None => (Raise (FileNotFoundError path), w)
    end.

Definition pd_read_csv (path : string) : M DataFrame :=
  run log_call (CallReadCsv path) in
  fun w =>
    match files w !! path with
    | Some f => (f_table f, w)
    | None => (Raise (FileNotFoundError path), w)
    end.

(* df[name] as an expression *)
Definition getitem (name : string) (df : DataFrame) : M Series :=
  match df_get name df with
  | Some s => ret s
  | None => raise (KeyError name)
  end.

Definition FILE_PATH : string := "../locness-ph/pH_data.csv".

(* --------------------------------------------------------------------- *)
(*  Figures (plotly), as far as the callbacks read and write them        *)
(* --------------------------------------------------------------------- *)

Record Axis := mkAxis {
  ax_title : option string;
  ax_range : option (json * json);
  ax_tickformat : option string;
  ax_tickangle : option Z
}.

Record Layout := mkLayout {
  title : option string;
  xaxis : option Axis;
  yaxis : option Axis;
  yaxis2 : option Axis;
  hovermode : option string;
  transition_duration : option Z
}.

Record Trace := mkTrace {
  tr_x : Series;
  tr_y : Series;
  tr_mode : string;
  tr_name : string;
  tr_secondary_y : bool
}.

Record Figure := mkFigure {
  data : list Trace;
  layout : Layout
}.

Definition empty_axis : Axis := mkAxis None None None None.

(* go.Figure() *)
Definition go_Figure : Figure :=
  mkFigure [] (mkLayout None None None None None None).

(* make_subplots(specs=[[{"secondary_y": True}]]) *)
Definition make_subplots : Figure :=
  mkFigure [] (mkLayout None (Some empty_axis) (Some empty_axis) (Some empty_axis)
                        None None).

Definition with_layout (f : Layout -> Layout) (fig : Figure) : Figure :=
  mkFigure (data fig) (f (layout fig)).

(* fig.add_trace(t) *)
Definition add_trace (t : Trace) (fig : Figure) : Figure :=
  mkFigure (data fig ++ [t]) (layout fig).

(* fig.update_layout(title=t) *)
Definition set_title (t : string) : Figure -> Figure :=
  with_layout (fun l => mkLayout (Some t) (xaxis l) (yaxis l) (yaxis2 l)
                                 (hovermode l) (transition_duration l)).

(* fig.update_xaxes(...): every x axis of the layout *)
Definition update_xaxes (f : Axis -> Axis) : Figure -> Figure :=
  with_layout (fun l => mkLayout (title l) (option_map f (xaxis l)) (yaxis l) (yaxis2 l)
                                 (hovermode l) (transition_duration l)).

(* fig.update_yaxes(..., secondary_y=b) *)
Definition update_yaxes (secondary_y : bool) (f : Axis -> Axis) : Figure -> Figure :=
  with_layout (fun l =>
    if secondary_y
    then mkLayout (title l) (xaxis l) (yaxis l) (option_map f (yaxis2 l))
                  (hovermode l) (transition_duration l)
    else mkLayout (title l) (xaxis l) (option_map f (yaxis l)) (yaxis2 l)
                  (hovermode l) (transition_duration l)).

Definition axis_set_title (t : string) (a : Axis) : Axis :=
  mkAxis (Some t) (ax_range a) (ax_tickformat a) (ax_tickangle a).

Definition axis_set_range (r : json * json) (a : Axis) : Axis :=
  mkAxis (ax_title a) (Some r) (ax_tickformat a) (ax_tickangle a).

Definition axis_set_ticks (fmt : string) (angle : Z) (a : Axis) : Axis :=
  mkAxis (ax_title a) (ax_range a) (Some fmt) (Some angle).

(* the axis object a magic-underscore layout update writes into *)
Definition axis_or_new (a : option Axis) : Axis :=
  match a with
  | Some x => x
  | None => empty_axis
  end.

(* fig.update_layout(xaxis_title=t) *)
Definition set_xaxis_title (t : string) : Figure -> Figure :=
  with_layout (fun l => mkLayout (title l) (Some (axis_set_title t (axis_or_new (xaxis l))))
                                 (yaxis l) (yaxis2 l) (hovermode l) (transition_duration l)).

(* fig.update_layout(yaxis_title=t) *)
Definition set_yaxis_title (t : string) : Figure -> Figure :=
  with_layout (fun l => mkLayout (title l) (xaxis l)
                                 (Some (axis_set_title t (axis_or_new (yaxis l))))
                                 (yaxis2 l) (hovermode l) (transition_duration l)).

(* fig.update_layout(hovermode=h, transition_duration=d) *)
Definition set_interaction (h : string) (d : Z) : Figure -> Figure :=
  with_layout (fun l => mkLayout (title l) (xaxis l) (yaxis l) (yaxis2 l) (Some h) (Some d)).

(* current_figure['layout'][axis]['range'] = [lo, hi] on the figure dict *)
Definition dict_set_xrange (r : json * json) (fig : Figure) : M Figure :=
  match xaxis (layout fig) with
  | Some _ => ret (update_xaxes (axis_set_range r) fig)
  | None => raise (KeyError "xaxis")
  end.

Definition dict_set_yrange (r : json * json) (fig : Figure) : M Figure :=
  match yaxis (layout fig) with
  | Some _ => ret (update_yaxes false (axis_set_range r) fig)
  | None => raise (KeyError "yaxis")
  end.

(* --------------------------------------------------------------------- *)
(*  View state                                                           *)
(* --------------------------------------------------------------------- *)

Definition view_keys : list string :=
  ["xaxis.range"; "xaxis.autorange"; "yaxis.range"; "yaxis.autorange";
   "xaxis.type"; "yaxis.type"; "autosize"].

(* any(vk in key for vk in view_keys) *)
Definition is_view_key (key : string) : bool :=
  existsb (fun vk => Py.contains vk key) view_keys.

(* lines 194-203 of update_graph *)
Definition capture_view (relay_data stored_view_state : option dict) : dict :=
  if truthy_dict relay_data
  then filter (fun kv : string * json => is_view_key (fst kv) = true)
              (default ∅ relay_data)
  else if truthy_dict stored_view_state
       then default ∅ stored_view_state
       else ∅.

(* [k0 in view and k1 in view], with the pair [view[k0], view[k1]] *)
Definition range_of (k0 k1 : string) (view : dict) : option (json * json) :=
  match view !! k0, view !! k1 with
  | Some a, Some b => Some (a, b)
  | _, _ => None
  end.

Definition x_range_of : dict -> option (json * json) :=
  range_of "xaxis.range[0]" "xaxis.range[1]".

Definition y_range_of : dict -> option (json * json) :=
  range_of "yaxis.range[0]" "yaxis.range[1]".

(* the last-data-update store: {'mtime': ..., 'ph_type': ...} *)
Record DataUpdate := mkDataUpdate {
  du_mtime : Z;
  du_ph_type : option string
}.

Definition opt_str_eqb (a b : option string) : bool :=
  match a, b with
  | Some x, Some y => String.eqb x y
  | None, None => true
  | _, _ => false
  end.

Record Metadata := mkMetadata {
  time_col : string;
  ph_cols : list string
}.


(* --------------------------------------------------------------------- *)
(*  read_csv_data, update_dropdown, update_graph                         *)
(* --------------------------------------------------------------------- *)

Section Callbacks.

Variable L : Library.

Definition pd_to_datetime (fmt : option string) (s : Series) : M Series :=
  match to_datetime L fmt s with
  | Ok v => ret (Datetime64 v)
  | Raise e => raise e
  end.

(* lines 25-39: the time column by the names present *)
Definition resolve_time_col (df : DataFrame) : M (DataFrame * string) :=
  if has_col df "pc_time" then
    let* s := getitem "pc_time" df in
    let* t := pd_to_datetime None s in
    ret (df_set "pc_time" t df, "pc_time")
  else if has_col df "ph_time" then
    let* s := getitem "ph_time" df in
    let* t := try_except (pd_to_datetime None s)
                (fun _ => pd_to_datetime (Some "%m/%d/%Y %H:%M:%S") s) in
    ret (df_set "ph_time" t df, "ph_time")
  else
    ret (df, "samp_num").

(* lines 42-44: a time column with no valid value gives way *)
Definition verify_time_col (df : DataFrame) (time_col : string) : M string :=
  if Py.contains "time" (Py.lower time_col) then
    let* s := getitem time_col df in
    if isna_all s then
      run print ("Warning: Time column '" ++ time_col ++
                 "' contains invalid datetime data. Using sample number as fallback.") in
      if has_col df "samp_num" then ret "samp_num"
      else match columns df with
           | c :: _ => ret c
           | [] => raise (Exception "IndexError"
                            "index 0 is out of bounds for axis 0 with size 0")
           end
    else ret time_col
  else ret time_col.

(* lines 47-55 *)
Definition find_ph_cols (df : DataFrame) : list string :=
  let ph_cols := (if has_col df "pH_free" then ["pH_free"] else []) ++
                 (if has_col df "ph_total" then ["ph_total"] else []) in
  match ph_cols with
  | [] => List.filter
            (fun col => (Py.contains "ph" (Py.lower col) || Py.contains "pH" col)
                        && negb (Py.contains "time" (Py.lower col)))
            (columns df)
  | _ => ph_cols
  end.

(* the body of the try block, lines 21-61 *)
Definition read_csv_body (file_path : string) : M (option (DataFrame * Metadata)) :=
  let* df := pd_read_csv file_path in
  let* r := resolve_time_col df in
  let df := fst r in
  let* time_col := verify_time_col df (snd r) in
  match find_ph_cols df with
  | [] => run print "No pH columns found in the CSV file." in ret None
  | ph_cols => ret (Some (df, mkMetadata time_col ph_cols))
  end.

Definition read_csv_data (file_path : string) : M (option (DataFrame * Metadata)) :=
  let* e := os_path_exists file_path in
  if negb e then
    run print ("Warning: File " ++ file_path ++
               " does not exist yet. Waiting for it to be created...") in
    ret None
  else
    try_except (read_csv_body file_path)
      (fun e => run print ("Error reading CSV: " ++ exn_str e) in ret None).

(* [x in l] on a list of strings *)
Definition in_list (x : string) (l : list string) : bool := bool_decide (x ∈ l).

(* [current_value is None or current_value not in ph_cols] *)
Definition needs_default (current_value : option string) (ph_cols : list string) : bool :=
  match current_value with
  | None => true
  | Some v => negb (in_list v ph_cols)
  end.

Definition update_dropdown (n : Z) (current_value : option string)
  : M (list (string * string) * option string) :=
  let* e := os_path_exists FILE_PATH in
  if negb e then ret ([], None)
  else
    let* current_modified_time := os_path_getmtime FILE_PATH in
    let* g := get_globals in
    let file_modified :=
      negb (bool_decide (fst (fst g) = Some current_modified_time)) in
    let unchanged := ret (snd (fst g), Py.or_str (snd g) current_value) in
    if file_modified || bool_decide (snd (fst g) = []) then
      let* r := read_csv_data FILE_PATH in
      match r with
      | Some (df, metadata) =>
          let ph_cols := ph_cols metadata in
          let new_options := map (fun col => (col, col)) ph_cols in
          let* new_value :=
            (if needs_default current_value ph_cols then
               if in_list "ph_total" ph_cols then ret (Some "ph_total")
               else if in_list "pH_free" ph_cols then ret (Some "pH_free")
               else match ph_cols with
                    | c :: _ => ret (Some c)
                    | [] => raise (Exception "IndexError" "list index out of range")
                    end
             else ret current_value) in
          run set_globals (Some current_modified_time) new_options new_value in
          ret (new_options, new_value)
      | None => unchanged
      end
    else unchanged.

(* lines 206-218: the stored view written into the cached figure dict *)
Definition patch_cached_figure (current_view : dict) (current_figure : Figure) : M Figure :=
  if truthy_dict (Some current_view) then
    let* fig := match x_range_of current_view with
                | Some r => dict_set_xrange r current_figure
                | None => ret current_figure
                end in
    match y_range_of current_view with
    | Some r => dict_set_yrange r fig
    | None => ret fig
    end
  else ret current_figure.

(* lines 306-317: the stored view applied to the new figure *)
Definition apply_view (current_view : dict) (fig : Figure) : Figure :=
  if truthy_dict (Some current_view) then
    let fig := match x_range_of current_view with
               | Some r => update_xaxes (axis_set_range r) fig
               | None => fig
               end in
    match y_range_of current_view with
    | Some r => update_yaxes false (axis_set_range r) fig
    | None => fig
    end
  else fig.

(* col.quantile(p) on the cells v of a numeric column *)
Definition numeric_quantile (p : Q) (v : list (option Q)) : M float :=
  run log_call (CallQuantile p) in ret (quantile L p v).

(* col.quantile(p) on a column that holds no numbers *)
Definition other_quantile (p : Q) (col : Series) : M unit :=
  run log_call (CallQuantile p) in lift (quantile_other L p col).

(* lines 239-246: the two quartiles, the bounds, the rows inside them *)
Definition series_fence_mask (col : Series) : M (list bool) :=
  match col with
  | Numeric v =>
      let* q1 := numeric_quantile (1 # 4) v in
      let* q3 := numeric_quantile (3 # 4) v in
      ret (fence_mask q1 q3 v)
  | _ =>
      run other_quantile (1 # 4) col in
      run other_quantile (3 # 4) col in
      let* inside := lift (fence_mask_other L col) in
      ret (map inside (seq 0 (series_len col)))
  end.

(* lines 239-254: the rows of df split into normal ones and outliers *)
Definition classify (df : DataFrame) (selected_ph_type : string)
  : M (DataFrame * DataFrame) :=
  let* col := getitem selected_ph_type df in
  let* mask := series_fence_mask col in
  let normal_mask := at_least_five df mask in
  let df_normal := df_filter normal_mask df in
  let df_outliers := df_filter (map negb normal_mask) df in
  ret (df_normal, df_outliers).

(* lines 256-294: the three traces; go.Scatter takes a column for the
   values of an axis and rejects range(len(df)) *)
Definition add_traces (df df_normal df_outliers : DataFrame)
    (time_col selected_ph_type : string) (fig : Figure) : M Figure :=
  let* x := getitem time_col df_normal in
  let* y := getitem selected_ph_type df_normal in
  let fig := add_trace (mkTrace x y "lines+markers" selected_ph_type false) fig in
  let* fig :=
    (if negb (df_empty df_outliers) then
       let* x := getitem time_col df_outliers in
       let* y := getitem selected_ph_type df_outliers in
       ret (add_trace (mkTrace x y "markers" "Outliers" false) fig)
     else ret fig) in
  let* x := getitem time_col df in
  let* y := (if has_col df "samp_num" then getitem "samp_num" df
             else raise (Exception "ValueError" (range_rejected L (df_len df)))) in
  ret (add_trace (mkTrace x y "lines" "Sample Number" true) fig).

(* lines 296-337: axis formats, the stored view, the layout *)
Definition format_figure (t : Series) (time_col selected_ph_type : string)
    (current_view : dict) (fig : Figure) : Figure :=
  let fig :=
    if is_datetime64_any_dtype t
    then update_xaxes (fun a => axis_set_ticks "%Y-%m-%d %H:%M:%S" 45
                                  (axis_set_title time_col a)) fig
    else update_xaxes (axis_set_title time_col) fig in
  let fig := apply_view current_view fig in
  let fig := set_interaction "closest" 300
               (set_yaxis_title selected_ph_type
                  (set_title (selected_ph_type ++ " vs " ++ time_col) fig)) in
  update_yaxes true (axis_set_title "Sample Number") fig.

(* lines 237-337: the chart of one metric *)
Definition plot_metric (df : DataFrame) (time_col selected_ph_type : string)
    (current_view : dict) (fig : Figure) : M Figure :=
  let* parts := classify df selected_ph_type in
  let* fig := add_traces df (fst parts) (snd parts) time_col selected_ph_type fig in
  let* t := getitem time_col df in
  ret (format_figure t time_col selected_ph_type current_view fig).

(* [selected_ph_type in df.columns] for a selection that may be None *)
Definition selected_in_columns (selected_ph_type : option string) (df : DataFrame) : bool :=
  match selected_ph_type with
  | Some m => has_col df m
  | None => false
  end.

(* lines 188-191 *)
Definition need_data_update (last_data_update : option DataUpdate)
    (current_modified_time : Z) (selected_ph_type : option string) : bool :=
  match last_data_update with
  | Some d =>
      negb (Z.eqb (du_mtime d) current_modified_time
            && opt_str_eqb (du_ph_type d) selected_ph_type)
  | None => true
  end.

(* lines 339-343: the chart shown for a selection that is no column *)
Definition column_not_found (selected_ph_type : option string) (fig : Figure) : Figure :=
  set_yaxis_title "pH"
    (set_xaxis_title "Time"
       (set_title ("Error: Selected column '" ++ Py.fmt selected_ph_type ++ "' not found")
                  fig)).

(* lines 223-351: read the file and build the figure anew *)
Definition rebuild (selected_ph_type : option string) (update_time : string)
    (current_modified_time : Z) (current_view : dict)
  : M (Figure * string * option DataUpdate * option dict) :=
  let* r := read_csv_data FILE_PATH in
  match r with
  | None =>
      ret (set_title "Error reading data file" go_Figure, "Error reading data",
           None, Some current_view)
  | Some (df, metadata) =>
      let time_col := time_col metadata in
      let fig := make_subplots in
      let* fig :=
        (if selected_in_columns selected_ph_type df
         then plot_metric df time_col (Py.fmt selected_ph_type) current_view fig
         else ret (column_not_found selected_ph_type fig)) in
      ret (fig, update_time,
           Some (mkDataUpdate current_modified_time selected_ph_type),
           Some current_view)
  end.

Definition update_graph (n : Z) (selected_ph_type : option string)
    (current_figure : option Figure) (relay_data stored_view_state : option dict)
    (last_data_update : option DataUpdate)
  : M (Figure * string * option DataUpdate * option dict) :=
  let* t := datetime_now in
  let update_time := ("Last updated: " ++ t)%string in
  let* e := os_path_exists FILE_PATH in
  if negb e then
    ret (set_title "Waiting for data file..." go_Figure,
         "Waiting for file to be created...", None, None)
  else
    let* current_modified_time := os_path_getmtime FILE_PATH in
    let need := need_data_update last_data_update current_modified_time selected_ph_type in
    let current_view := capture_view relay_data stored_view_state in
    match current_figure with
    | Some cur =>
        if negb need then
          let* fig := patch_cached_figure current_view cur in
          ret (fig, (update_time ++ " (no changes)")%string, last_data_update,
               Some current_view)
        else rebuild selected_ph_type update_time current_modified_time current_view
    | None => rebuild selected_ph_type update_time current_modified_time current_view
    end.

End Callbacks.

(* --------------------------------------------------------------------- *)
(*  Concrete inputs used by the examples below                           *)
(* --------------------------------------------------------------------- *)

Module Sample.

(* a stand-in for pd.to_datetime: numbers are epoch seconds, text never
   parses *)
Definition to_datetime (fmt : option string) (s : Series) : Res (list (option Z)) :=
  match s with
  | Numeric v => Ok (map (option_map Qfloor) v)
  | Datetime64 v => Ok v
  | Object v => Ok (map (fun _ => None) v)
  end.

Fixpoint insert_sorted (x : Q) (l : list Q) : list Q :=
  match l with
  | [] => [x]
  | y :: l' => if Qle_bool x y then x :: l else y :: insert_sorted x l'
  end.

Definition sort_values (l : list Q) : list Q := fold_right insert_sorted [] l.

(* a stand-in for Series.quantile: NaN cells skipped, then the linear
   interpolation between the two nearest ranks a and b, a + (b - a) * t
   below the middle and b - (b - a) * (1 - t) from the middle on, in
   float arithmetic *)
Definition quantile (p : Q) (v : list (option Q)) : float :=
  match sort_values (dropna v) with
  | [] => NaN
  | (x0 :: _) as s =>
      let pos := Qmult (inject_Z (Z.of_nat (length s) - 1)) p in
      let lo := Qfloor pos in
      let t := Qminus pos (inject_Z lo) in
      let a := nth (Z.to_nat lo) s x0 in
      let b := nth (Z.to_nat (lo + 1)) s a in
      let diff_b_a := fsub (round64 b) (round64 a) in
      if Qle_bool (1 # 2) t
      then fsub (round64 b) (fmul diff_b_a (round64 (Qminus 1 t)))
      else fadd (round64 a) (fmul diff_b_a (round64 t))
  end.

(* stand-ins for the columns that hold no numbers: a datetime column is
   fenced as its epoch numbers are, a text column with a row cannot be
   interpolated *)
Definition epoch (v : list (option Z)) : list (option Q) := map (option_map inject_Z) v.

Definition quantile_other (p : Q) (s : Series) : Res unit :=
  match s with
  | Object (_ :: _) =>
      Raise (Exception "TypeError" "unsupported operand type(s) for -: 'str' and 'str'")
  | _ => Ok tt
  end.

Definition fence_mask_other (s : Series) : Res (nat -> bool) :=
  match s with
  | Datetime64 v =>
      let mask := fence_mask (quantile (1 # 4) (epoch v)) (quantile (3 # 4) (epoch v))
                             (epoch v) in
      Ok (fun i => nth i mask false)
  | _ => Ok (fun _ => false)
  end.

Definition range_rejected (n : nat) : string :=
  "Invalid value of type 'builtins.range' received for the 'y' property of scatter".

Definition library : Library :=
  mkLibrary to_datetime quantile quantile_other fence_mask_other range_rejected.

Definition nums (l : list Z) : list (option Q) := map (fun z => Some (inject_Z z)) l.

(* a world whose data file holds the table df, modified at time 100 *)
Definition world (df : DataFrame) : World :=
  mkWorld (<[FILE_PATH := mkFile 100 (Ok df)]> ∅) "2024-01-01 00:00:00"
          [] [] None [] None.

(* ten samples, the last one far off *)
Definition table : DataFrame :=
  [("samp_num", Numeric (nums [1; 2; 3; 4; 5; 6; 7; 8; 9; 10]%Z));
   ("pH_free", Numeric (nums [1; 2; 3; 4; 5; 6; 7; 8; 9; 100]%Z))].

(* a file with a pH column and neither a time nor a sample-number column *)
Definition table_ph_only : DataFrame :=
  [("pH_free", Numeric (nums [7; 7; 8; 7; 7; 8]%Z))].

(* seven samples, the last cell of the metric missing *)
Definition table_with_null : DataFrame :=
  [("samp_num", Numeric (nums [1; 2; 3; 4; 5; 6; 7]%Z));
   ("pH_free", Numeric (nums [1; 1; 1; 1; 1; 1]%Z ++ [None]))].

(* four samples, the last one far off *)
Definition table_short : DataFrame :=
  [("samp_num", Numeric (nums [1; 2; 3; 4]%Z));
   ("pH_free", Numeric (nums [1; 1; 1; 100]%Z))].

(* a zoomed view *)
Definition zoom : dict :=
  <["xaxis.range[0]" := JNum 2]>
    (<["xaxis.range[1]" := JNum 5]>
       (<["yaxis.range[0]" := JNum 6]>
          (<["yaxis.range[1]" := JNum 9]> ∅))).

(* a figure as a successful tick leaves it *)
Definition cached_figure : Figure :=
  mkFigure [mkTrace (Numeric (nums [1; 2; 3]%Z)) (Numeric (nums [7; 8; 90]%Z))
                    "lines+markers" "pH_free" false]
           (mkLayout (Some "pH_free vs samp_num")
                     (Some (axis_set_title "samp_num" empty_axis))
                     (Some (axis_set_title "pH_free" empty_axis))
                     (Some (axis_set_title "Sample Number" empty_axis))
                     (Some "closest") (Some 300%Z)).

End Sample.

(* --------------------------------------------------------------------- *)
(*  Vocabulary of the properties                                         *)
(* --------------------------------------------------------------------- *)

(* an axis once a range of the view, if there is one, is written to it *)
Definition with_range (r : option (json * json)) (a : Axis) : Axis :=
  match r with
  | Some p => axis_set_range p a
  | None => a
  end.

(* mask holds the verdicts of lines 239-246 on the rows of the column:
   pandas gives them for every numeric column, and for another column when
   none of its operations raises *)
Definition fenced (L : Library) (col : Series) (mask : list bool) : Prop :=
  match col with
  | Numeric v => mask = fence_mask (quantile L (1 # 4) v) (quantile L (3 # 4) v) v
  | _ =>
      quantile_other L (1 # 4) col = Ok tt
      /\ quantile_other L (3 # 4) col = Ok tt
      /\ exists inside : nat -> bool,
           fence_mask_other L col = Ok inside
           /\ mask = map inside (seq 0 (series_len col))
  end.

(* the quartile mask of lines 239-250 for the cells v of a numeric metric *)
Definition quartile_mask (L : Library) (df : DataFrame) (v : list (option Q)) : list bool :=
  normal_mask df v (quantile L (1 # 4) v) (quantile L (3 # 4) v).

(* the rows with a value for the metric *)
Definition non_null_count (s : Series) : nat :=
  match s with
  | Numeric v => length (dropna v)
  | Datetime64 v => length (dropna v)
  | Object v => length (dropna v)
  end.

(* a binary64 number: rounding leaves it as it is *)
Definition is_float64 (q : Q) : Prop :=
  exists r : Q, round64 q = Fin r /\ Qeq r q.

(* the float x is the number q *)
Definition float_is (x : float) (q : Q) : Prop :=
  exists r : Q, x = Fin r /\ Qeq r q.

(* a float that is zero or more, +inf included *)
Definition nonneg (x : float) : Prop :=
  match x with
  | Fin r => Qle 0 r
  | PosInf => True
  | _ => False
  end.

(* w after some lines were printed and some calls logged *)
Definition extend (w : World) (out : list string) (cl : list Call) : World :=
  mkWorld (files w) (now w) (stdout w ++ out) (calls w ++ cl)
          (last_modified_time w) (dropdown_options w) (dropdown_value w).

(* what pd.read_csv makes of the file at path, if there is one *)
Definition content (path : string) (w : World) : option (Res DataFrame) :=
  f_table <$> files w !! path.

(* c reads nothing but the content of the file at path, and writes nothing
   but stdout and the call log: from two worlds with the same content it
   gives the same result, the same output and the same calls *)
Definition observes (path : string) {A} (c : M A) : Prop :=
  forall w1 w2 : World, content path w1 = content path w2 ->
    exists (r : Res A) (out : list string) (cl : list Call),
      c w1 = (r, extend w1 out cl) /\ c w2 = (r, extend w2 out cl).

(* the tick takes the cache-hit path: a cached figure with both axes and a
   cached fingerprint equal to the current one *)
Definition on_reuse_path (sel : option string) (cur : option Figure)
    (du : option DataUpdate) (f : File) : Prop :=
  exists (c : Figure) (d : DataUpdate) (ax ay : Axis),
    cur = Some c /\ du = Some d
    /\ du_mtime d = f_mtime f /\ du_ph_type d = sel
    /\ xaxis (layout c) = Some ax /\ yaxis (layout c) = Some ay.

(* the tick rebuilds and charts the selected metric: the file reads as a
   dataset, of which the selected metric is a numeric column, next to the
   resolved time column and to 'samp_num' *)
Definition on_rebuild_path (L : Library) (sel : option string) (cur : option Figure)
    (du : option DataUpdate) (f : File) (w : World) : Prop :=
  (cur = None \/ need_data_update du (f_mtime f) sel = true)
  /\ exists (df : DataFrame) (meta : Metadata) (w1 : World) (m : string)
            (v : list (option Q)) (x : Series),
       read_csv_data L FILE_PATH w = (Ok (Some (df, meta)), w1)
       /\ sel = Some m
       /\ df_get m df = Some (Numeric v)
       /\ df_get (time_col meta) df = Some x
       /\ has_col df "samp_num" = true.

(* C2 as the specification states it: whenever the file is there, so that
   the tick takes the cache-hit path or rebuilds *)
Definition explicit_ranges_on_both_paths : Prop :=
  forall (L : Library) (n : Z) (sel : option string) (cur : option Figure)
         (relay stored : option dict) (du : option DataUpdate) (w : World) (f : File)
         (x0 x1 y0 y1 : Q),
    files w !! FILE_PATH = Some f ->
    capture_view relay stored !! "xaxis.range[0]" = Some (JNum x0) ->
    capture_view relay stored !! "xaxis.range[1]" = Some (JNum x1) ->
    capture_view relay stored !! "yaxis.range[0]" = Some (JNum y0) ->
    capture_view relay stored !! "yaxis.range[1]" = Some (JNum y1) ->
    exists (fig : Figure) (st : string) (du' : option DataUpdate) (v : option dict)
           (w' : World),
      update_graph L n sel cur relay stored du w = (Ok (fig, st, du', v), w')
      /\ (ax_range <$> xaxis (layout fig)) = Some (Some (JNum x0, JNum x1))
      /\ (ax_range <$> yaxis (layout fig)) = Some (Some (JNum y0, JNum y1)).

(* C4 as the specification states it *)
Definition classify_counts_non_null : Prop :=
  forall (L : Library) (df : DataFrame) (m : string) (col : Series) (w w' : World)
         (df_normal df_outliers : DataFrame) (normal outliers : Series),
    df_wf df = true ->
    df_get m df = Some col ->
    classify L df m w = (Ok (df_normal, df_outliers), w') ->
    df_get m df_normal = Some normal ->
    df_get m df_outliers = Some outliers ->
    series_len normal + series_len outliers = non_null_count col.

(* C3 as the specification states it *)
Definition unknown_metric_keeps_cache : Prop :=
  forall (L : Library) (n : Z) (sel : option string) (cur : option Figure)
         (relay stored : option dict) (du : option DataUpdate) (w w1 : World)
         (df : DataFrame) (meta : Metadata),
    read_csv_data L FILE_PATH w = (Ok (Some (df, meta)), w1) ->
    (forall m, sel = Some m -> m ∉ ph_cols meta) ->
    exists (fig : Figure) (st : string) (du' : option DataUpdate) (v : option dict)
           (w' : World),
      update_graph L n sel cur relay stored du w = (Ok (fig, st, du', v), w')
      /\ title (layout fig) =
           Some ("Error: Selected column '" ++ Py.fmt sel ++ "' not found")%string
      /\ du' = du.

(* C5 as the specification states it *)
Definition payload_without_view_keys_keeps_view : Prop :=
  forall (L : Library) (n : Z) (sel : option string) (cur : option Figure)
         (relay stored : option dict) (du : option DataUpdate) (w w' : World)
         (fig : Figure) (st : string) (du' : option DataUpdate) (v : option dict),
    (forall (rd : dict) (k : string),
        relay = Some rd -> is_Some (rd !! k) -> is_view_key k = false) ->
    update_graph L n sel cur relay stored du w = (Ok (fig, st, du', v), w') ->
    v = stored.

(* C10 as stated: whenever the file resolves its pH columns, a current
   selection among them is kept and any other gives way to the default *)
Definition selection_kept_or_defaulted : Prop :=
  forall (L : Library) (n : Z) (current_value : option string) (w w1 w' : World)
         (df : DataFrame) (meta : Metadata) (options : list (string * string))
         (value : option string),
    read_csv_data L FILE_PATH w = (Ok (Some (df, meta)), w1) ->
    update_dropdown L n current_value w = (Ok (options, value), w') ->
    ((current_value = None
      \/ exists c, current_value = Some c /\ c ∉ ph_cols meta) ->
     ("ph_total" ∈ ph_cols meta -> value = Some "ph_total")
     /\ ("ph_total" ∉ ph_cols meta -> "pH_free" ∈ ph_cols meta ->
         value = Some "pH_free")
     /\ ("ph_total" ∉ ph_cols meta -> "pH_free" ∉ ph_cols meta ->
         value = head (ph_cols meta)))
    /\ (forall c, current_value = Some c -> c ∈ ph_cols meta -> value = Some c).

(* c changes nothing in the world but stdout, to which it may add lines *)
Definition prints {A} (c : M A) : Prop :=
  forall (w w' : World) (r : Res A),
    c w = (r, w') -> exists out : list string, w' = extend w out [].

(* c changes nothing in the world but stdout and the call log, to which it
   may add: the files, the clock and the globals of the dropdown stay *)
Definition appends {A} (c : M A) : Prop :=
  forall (w w' : World) (r : Res A),
    c w = (r, w') -> exists (out : list string) (cl : list Call), w' = extend w out cl.

(* lines 142-151 of update_dropdown: the value the dropdown gets *)
Definition chosen_value (current_value : option string) (ph_cols : list string)
  : option string :=
  if needs_default current_value ph_cols then
    if in_list "ph_total" ph_cols then Some "ph_total"
    else if in_list "pH_free" ph_cols then Some "pH_free"
    else head ph_cols
  else current_value.

(* the traces of the chart of metric m, with cells col, over the time
   column x and the sample numbers ys, the rows of mask being the normal
   ones *)
Definition chart_traces (df : DataFrame) (x col ys : Series) (m : string)
    (mask : list bool) : list Trace :=
  [mkTrace (series_select mask x) (series_select mask col) "lines+markers" m false]
  ++ (if df_empty (df_filter (map negb mask) df) then []
      else [mkTrace (series_select (map negb mask) x)
                    (series_select (map negb mask) col) "markers" "Outliers" false])
  ++ [mkTrace x ys "lines" "Sample Number" true].

(* --------------------------------------------------------------------- *)
(*  More concrete inputs                                                 *)
(* --------------------------------------------------------------------- *)

Module Case.

(* a table without any pH column *)
Definition no_ph_table : DataFrame :=
  [("samp_num", Numeric (Sample.nums [1; 2; 3]%Z));
   ("temp", Numeric (Sample.nums [20; 21; 22]%Z))].

(* a table with both time columns: the clock of the PC as epoch seconds,
   the clock of the sensor as text *)
Definition timed_table : DataFrame :=
  [("pc_time", Numeric (Sample.nums [1700000000; 1700000005; 1700000010]%Z));
   ("ph_time", Object [Some "11/14/2023 22:13:20"; Some "11/14/2023 22:13:25";
                       Some "11/14/2023 22:13:30"]);
   ("samp_num", Numeric (Sample.nums [1; 2; 3]%Z));
   ("pH_free", Numeric (Sample.nums [7; 8; 7]%Z))].

(* what the reader makes of it *)
Definition timed_dataset : DataFrame :=
  [("pc_time", Datetime64 [Some 1700000000%Z; Some 1700000005%Z; Some 1700000010%Z]);
   ("ph_time", Object [Some "11/14/2023 22:13:20"; Some "11/14/2023 22:13:25";
                       Some "11/14/2023 22:13:30"]);
   ("samp_num", Numeric (Sample.nums [1; 2; 3]%Z));
   ("pH_free", Numeric (Sample.nums [7; 8; 7]%Z))].

(* a table with a time column and without sample numbers *)
Definition no_samp_table : DataFrame :=
  [("pc_time", Numeric (Sample.nums [1700000000; 1700000005; 1700000010]%Z));
   ("pH_free", Numeric (Sample.nums [7; 8; 7]%Z))].

Definition no_samp_dataset : DataFrame :=
  [("pc_time", Datetime64 [Some 1700000000%Z; Some 1700000005%Z; Some 1700000010%Z]);
   ("pH_free", Numeric (Sample.nums [7; 8; 7]%Z))].

(* a table with the two pH columns *)
Definition table_both : DataFrame :=
  [("samp_num", Numeric (Sample.nums [1; 2; 3]%Z));
   ("pH_free", Numeric (Sample.nums [7; 8; 7]%Z));
   ("ph_total", Numeric (Sample.nums [8; 8; 7]%Z))].

(* no data file yet *)
Definition no_file : World :=
  mkWorld ∅ "2024-01-01 00:00:00" [] [] None [] None.

(* what pd.read_csv raises on an empty file *)
Definition empty_data_error : Exn :=
  Exception "EmptyDataError" "No columns to parse from file".

(* a data file pd.read_csv raises on *)
Definition broken_file : World :=
  mkWorld (<[FILE_PATH := mkFile 100 (Raise empty_data_error)]> ∅)
          "2024-01-01 00:00:00" [] [] None [] None.

(* the world of df once the file has been read *)
Definition after_read (df : DataFrame) : World :=
  extend (Sample.world df) [] [CallReadCsv FILE_PATH].

(* the dropdown has seen the file of Sample.table and chosen 'pH_free' *)
Definition steady : World :=
  mkWorld (<[FILE_PATH := mkFile 100 (Ok Sample.table)]> ∅) "2024-01-01 00:00:00"
          [] [] (Some 100%Z) [("pH_free", "pH_free")] (Some "pH_free").

(* the dropdown after its first call, without a selection, on the file of
   table_both: it has chosen 'ph_total' *)
Definition steady_both : World :=
  Eval vm_compute in
    snd (update_dropdown Sample.library 0 None (Sample.world table_both)).

(* a cached figure whose x axis carries a range *)
Definition zoomed_figure : Figure :=
  mkFigure (data Sample.cached_figure)
           (mkLayout (Some "pH_free vs samp_num")
                     (Some (axis_set_range (JNum 2, JNum 5)
                              (axis_set_title "samp_num" empty_axis)))
                     (Some (axis_set_title "pH_free" empty_axis))
                     (Some (axis_set_title "Sample Number" empty_axis))
                     (Some "closest") (Some 300%Z)).

(* the payload of a double click: back to autorange *)
Definition autorange : dict :=
  <["xaxis.autorange" := JBool true]> (<["yaxis.autorange" := JBool true]> ∅).

(* a payload with a view entry and another one *)
Definition mixed_payload : dict :=
  <["xaxis.range[0]" := JNum 2]> (<["dragmode" := JStr "pan"]> ∅).

(* the first tick on Sample.table, zoomed, and what it hands back *)
Definition first_tick
  : Res (Figure * string * option DataUpdate * option dict) * World :=
  Eval vm_compute in
    update_graph Sample.library 0 (Some "pH_free") None (Some Sample.zoom) None None
                 (Sample.world Sample.table).

Definition tick_figure : Figure :=
  Eval vm_compute in
    match fst first_tick with
    | Ok (fig, _, _, _) => fig
    | Raise _ => go_Figure
    end.

Definition tick_view : option dict :=
  Eval vm_compute in
    match fst first_tick with
    | Ok (_, _, _, v) => v
    | Raise _ => None
    end.

Definition tick_world : World := Eval vm_compute in snd first_tick.

End Case.

(* ===================================================================== *)
(*  Properties                                                           *)
(* ===================================================================== *)

(* --------------------------------------------------------------------- *)
(*  Rounding to binary64                                                 *)
(* --------------------------------------------------------------------- *)

Lemma pow2_pos (e : Z) : (0 < pow2 e)%Q.
Proof. apply Qpower_0_lt. reflexivity. Qed.

Lemma pow2_plus (a b : Z) : (pow2 (a + b) == pow2 a * pow2 b)%Q.
Proof. apply Qpower_plus. discriminate. Qed.

Lemma pow2_le (a b : Z) : (a <= b)%Z -> (pow2 a <= pow2 b)%Q.
Proof. intros H. apply Qpower_le_compat_l; [exact H | discriminate]. Qed.

Lemma pow2_lt_inv (a b : Z) : (pow2 a < pow2 b)%Q -> (a < b)%Z.
Proof. intros H. apply (Qpower_lt_compat_l_inv 2); [exact H | reflexivity]. Qed.

Lemma pow2_nonneg_Z (a : Z) : (0 <= a)%Z -> (pow2 a == inject_Z (2 ^ a))%Q.
Proof. intros H. unfold pow2. by rewrite Zpower_Qpower. Qed.

(* ilog2 a is the exponent of the binade of a *)
Lemma ilog2_spec (a : Q) :
  (0 < a)%Q -> (pow2 (ilog2 a) <= a)%Q /\ (a < pow2 (ilog2 a + 1))%Q.
Proof.
  intros Ha. destruct a as [n d]. unfold ilog2. cbn [Qnum Qden].
  assert (Hn : (0 < n)%Z) by (unfold Qlt in Ha; simpl in Ha; lia).
  set (x := Z.log2 n). set (y := Z.log2 (Z.pos d)).
  assert (Hx : (0 <= x)%Z) by apply Z.log2_nonneg.
  assert (Hy : (0 <= y)%Z) by apply Z.log2_nonneg.
  destruct (Z.log2_spec n Hn) as [Hn1 Hn2]. fold x in Hn1, Hn2.
  destruct (Z.log2_spec (Z.pos d) ltac:(lia)) as [Hd1 Hd2]. fold y in Hd1, Hd2.
  assert (Hxy : forall k : Z,
            (pow2 (x - y + k) * inject_Z (2 ^ y) == inject_Z (2 ^ x) * pow2 k)%Q).
  { intros k. rewrite <- !pow2_nonneg_Z by lia. rewrite <- !pow2_plus.
    replace (x - y + k + y)%Z with (x + k)%Z by lia. reflexivity. }
  assert (Hq : (n # d == inject_Z n / inject_Z (Z.pos d))%Q) by apply Qmake_Qdiv.
  assert (Hdpos : (0 < inject_Z (Z.pos d))%Q) by reflexivity.
  assert (Hypos : (0 < inject_Z (2 ^ y))%Q).
  { rewrite <- pow2_nonneg_Z by lia. apply pow2_pos. }
  assert (Hxpos : (0 < inject_Z (2 ^ x))%Q).
  { rewrite <- pow2_nonneg_Z by lia. apply pow2_pos. }
  assert (Bn1 : (inject_Z (2 ^ x) <= inject_Z n)%Q) by (rewrite <- Zle_Qle; lia).
  assert (Bn2 : (inject_Z n < inject_Z (2 ^ x) * 2)%Q).
  { change 2%Q with (inject_Z 2). rewrite <- inject_Z_mult, <- Zlt_Qlt.
    replace (Z.succ x) with (x + 1)%Z in Hn2 by lia.
    rewrite Z.pow_add_r in Hn2 by lia. lia. }
  assert (Bd1 : (inject_Z (2 ^ y) <= inject_Z (Z.pos d))%Q) by (rewrite <- Zle_Qle; lia).
  assert (Bd2 : (inject_Z (Z.pos d) < inject_Z (2 ^ y) * 2)%Q).
  { change 2%Q with (inject_Z 2). rewrite <- inject_Z_mult, <- Zlt_Qlt.
    replace (Z.succ y) with (y + 1)%Z in Hd2 by lia.
    rewrite Z.pow_add_r in Hd2 by lia. lia. }
  assert (Hup : (n # d < pow2 (x - y + 1))%Q).
  { rewrite Hq. apply Qlt_shift_div_r; [exact Hdpos|].
    pose proof (Hxy 1%Z) as E. change (pow2 1) with 2%Q in E.
    pose proof (pow2_pos (x - y + 1)) as P.
    set (p := pow2 (x - y + 1)) in *. nra. }
  assert (Hlo : (pow2 (x - y - 1) <= n # d)%Q).
  { rewrite Hq. apply Qle_shift_div_l; [exact Hdpos|].
    pose proof (Hxy (-1)%Z) as E. change (pow2 (-1)) with (1 # 2)%Q in E.
    replace (x - y + -1)%Z with (x - y - 1)%Z in E by lia.
    pose proof (pow2_pos (x - y - 1)) as P.
    set (p := pow2 (x - y - 1)) in *. nra. }
  destruct (Qle_bool (pow2 (x - y)) (n # d)) eqn:E.
  - apply Qle_bool_iff in E. split; assumption.
  - split; [exact Hlo|]. replace (x - y - 1 + 1)%Z with (x - y)%Z by lia.
    apply Qnot_le_lt. intros H. apply Qle_bool_iff in H. congruence.
Qed.

Lemma ilog2_mono (a b : Q) : (0 < a)%Q -> (a <= b)%Q -> (ilog2 a <= ilog2 b)%Z.
Proof.
  intros Ha Hab.
  destruct (ilog2_spec a Ha) as [A1 _].
  destruct (ilog2_spec b ltac:(lra)) as [_ B2].
  assert (H : (pow2 (ilog2 a) < pow2 (ilog2 b + 1))%Q) by lra.
  apply pow2_lt_inv in H. lia.
Qed.

Lemma rne_floor (q : Q) : (Qfloor q <= rne q <= Qfloor q + 1)%Z.
Proof.
  unfold rne. destruct (Qcompare _ _); [destruct (Z.even _)| |]; lia.
Qed.

Lemma rne_mono (x y : Q) : (x <= y)%Q -> (rne x <= rne y)%Z.
Proof.
  intros H. pose proof (Qfloor_resp_le x y H) as Hf.
  pose proof (rne_floor x) as Hx. pose proof (rne_floor y) as Hy.
  destruct (Z.eq_dec (Qfloor x) (Qfloor y)) as [E|]; [|lia].
  unfold rne in *. rewrite <- E in *.
  destruct (Qcompare_spec (Qminus x (inject_Z (Qfloor x))) (1 # 2)) as [X|X|X];
    destruct (Qcompare_spec (Qminus y (inject_Z (Qfloor x))) (1 # 2)) as [Y|Y|Y];
    try lia; try (destruct (Z.even (Qfloor x)); lia); exfalso; lra.
Qed.

Lemma rne_inject_Z (n : Z) : rne (inject_Z n) = n.
Proof.
  unfold rne. rewrite Qfloor_Z.
  destruct (Qcompare_spec (Qminus (inject_Z n) (inject_Z n)) (1 # 2)) as [X|X|X];
    [exfalso; lra | reflexivity | exfalso; lra].
Qed.

Lemma rne_le_Z (x : Q) (n : Z) : (x <= inject_Z n)%Q -> (rne x <= n)%Z.
Proof. intros H. rewrite <- (rne_inject_Z n). by apply rne_mono. Qed.

Lemma rne_ge_Z (x : Q) (n : Z) : (inject_Z n <= x)%Q -> (n <= rne x)%Z.
Proof. intros H. rewrite <- (rne_inject_Z n). by apply rne_mono. Qed.

Lemma div_pow2_le (a b : Q) (e : Z) : (a <= b)%Q -> (a / pow2 e <= b / pow2 e)%Q.
Proof.
  intros H. pose proof (pow2_pos e) as P. unfold Qdiv.
  apply Qmult_le_compat_r; [exact H|]. apply Qinv_le_0_compat. lra.
Qed.

Lemma round_mag_nonneg (a : Q) : (0 <= a)%Q -> (0 <= round_mag a)%Q.
Proof.
  intros H. unfold round_mag. pose proof (pow2_pos (ulp_exp a)) as P.
  assert (0 <= rne (a / pow2 (ulp_exp a)))%Z.
  { apply rne_ge_Z. apply Qle_shift_div_l; [exact P|]. change (inject_Z 0) with 0%Q. lra. }
  apply Qmult_le_0_compat; [|lra]. change 0%Q with (inject_Z 0). by rewrite <- Zle_Qle.
Qed.

(* a positive a rounds to at most 2^(e+53), e the exponent of its last place *)
Lemma round_mag_upper (a : Q) :
  (0 < a)%Q -> (round_mag a <= pow2 (ulp_exp a + 53))%Q.
Proof.
  intros H. unfold round_mag. set (e := ulp_exp a).
  pose proof (pow2_pos e) as P.
  destruct (ilog2_spec a H) as [_ U].
  assert (Ha : (a <= pow2 (e + 53))%Q).
  { assert (pow2 (ilog2 a + 1) <= pow2 (e + 53))%Q
      by (apply pow2_le; unfold e, ulp_exp; lia).
    lra. }
  assert (Hr : (rne (a / pow2 e) <= 2 ^ 53)%Z).
  { apply rne_le_Z. apply Qle_shift_div_r; [exact P|].
    rewrite <- (pow2_nonneg_Z 53) by lia. rewrite <- pow2_plus.
    by replace (53 + e)%Z with (e + 53)%Z by lia. }
  rewrite pow2_plus. rewrite (Qmult_comm (pow2 e)).
  apply Qmult_le_compat_r; [|lra].
  rewrite (pow2_nonneg_Z 53) by lia. by rewrite <- Zle_Qle.
Qed.

(* above the subnormal range it rounds to at least 2^(e+52) *)
Lemma round_mag_lower (a : Q) :
  (0 < a)%Q -> (-1074 < ulp_exp a)%Z -> (pow2 (ulp_exp a + 52) <= round_mag a)%Q.
Proof.
  intros H He. unfold round_mag. set (e := ulp_exp a) in *.
  pose proof (pow2_pos e) as P.
  destruct (ilog2_spec a H) as [L _].
  assert (Ha : (pow2 (e + 52) <= a)%Q).
  { replace (e + 52)%Z with (ilog2 a) by (unfold e, ulp_exp in *; lia). exact L. }
  assert (Hr : (2 ^ 52 <= rne (a / pow2 e))%Z).
  { apply rne_ge_Z. apply Qle_shift_div_l; [exact P|].
    rewrite <- (pow2_nonneg_Z 52) by lia. rewrite <- pow2_plus.
    by replace (52 + e)%Z with (e + 52)%Z by lia. }
  rewrite pow2_plus. rewrite (Qmult_comm (pow2 e)).
  apply Qmult_le_compat_r; [|lra].
  rewrite (pow2_nonneg_Z 52) by lia. by rewrite <- Zle_Qle.
Qed.

Lemma round_mag_zero (a : Q) : (a == 0)%Q -> (round_mag a == 0)%Q.
Proof.
  intros H. unfold round_mag.
  assert (E : rne (a / pow2 (ulp_exp a)) = 0%Z).
  { pose proof (pow2_pos (ulp_exp a)) as P.
    assert (Hz : (a / pow2 (ulp_exp a) == inject_Z 0)%Q).
    { change (inject_Z 0) with 0%Q. generalize dependent (pow2 (ulp_exp a)).
      intros p Hp. rewrite H. field. lra. }
    apply Z.le_antisymm; [apply rne_le_Z | apply rne_ge_Z]; rewrite Hz; apply Qle_refl. }
  rewrite E. change (inject_Z 0) with 0%Q. ring.
Qed.

Lemma round_mag_mono (a b : Q) :
  (0 <= a)%Q -> (a <= b)%Q -> (round_mag a <= round_mag b)%Q.
Proof.
  intros Ha Hab.
  destruct (Qlt_le_dec 0 a) as [Hpos|Hz].
  - assert (He : (ulp_exp a <= ulp_exp b)%Z).
    { pose proof (ilog2_mono a b Hpos Hab). unfold ulp_exp. lia. }
    destruct (Z.eq_dec (ulp_exp a) (ulp_exp b)) as [E|Hne].
    + unfold round_mag. rewrite <- E. pose proof (pow2_pos (ulp_exp a)) as P.
      apply Qmult_le_compat_r; [|lra]. rewrite <- Zle_Qle.
      apply rne_mono. by apply div_pow2_le.
    + pose proof (round_mag_upper a Hpos) as U.
      pose proof (round_mag_lower b ltac:(lra) ltac:(unfold ulp_exp in *; lia)) as Lo.
      assert (pow2 (ulp_exp a + 53) <= pow2 (ulp_exp b + 52))%Q by (apply pow2_le; lia).
      lra.
  - rewrite (round_mag_zero a) by lra. apply round_mag_nonneg. lra.
Qed.

Lemma Qle_bool_false (a b : Q) : Qle_bool a b = false -> (b < a)%Q.
Proof.
  intros H. apply Qnot_le_lt. intros Hle. apply Qle_bool_iff in Hle. congruence.
Qed.

(* rounding never reorders two numbers *)
Lemma round_finite_mono (x y : Q) : (x <= y)%Q -> (round_finite x <= round_finite y)%Q.
Proof.
  intros H. unfold round_finite.
  destruct (Qle_bool 0 x) eqn:Ex; destruct (Qle_bool 0 y) eqn:Ey;
    try apply Qle_bool_iff in Ex; try apply Qle_bool_iff in Ey;
    try apply Qle_bool_false in Ex; try apply Qle_bool_false in Ey.
  - by apply round_mag_mono.
  - lra.
  - pose proof (round_mag_nonneg (- x)%Q ltac:(lra)).
    pose proof (round_mag_nonneg y Ey). lra.
  - pose proof (round_mag_mono (- y)%Q (- x)%Q ltac:(lra) ltac:(lra)). lra.
Qed.

Lemma round_finite_zero : (round_finite 0 == 0)%Q.
Proof. unfold round_finite. simpl. by apply round_mag_zero. Qed.

Lemma round_finite_Qeq (x y : Q) : (x == y)%Q -> (round_finite x == round_finite y)%Q.
Proof.
  intros H. apply Qle_antisym; apply round_finite_mono; rewrite H; apply Qle_refl.
Qed.

(* what round64 x is, by the size of the rounded value *)
Lemma round64_cases (x : Q) :
  (round64 x = PosInf /\ (pow2 1024 <= round_finite x)%Q)
  \/ (round64 x = NegInf /\ (round_finite x <= - pow2 1024)%Q)
  \/ (round64 x = Fin (round_finite x)
      /\ (- pow2 1024 < round_finite x)%Q /\ (round_finite x < pow2 1024)%Q).
Proof.
  unfold round64.
  destruct (Qle_bool (pow2 1024) (round_finite x)) eqn:E1;
    [apply Qle_bool_iff in E1; by left|].
  destruct (Qle_bool (round_finite x) (- pow2 1024)) eqn:E2;
    [apply Qle_bool_iff in E2; right; by left|].
  apply Qle_bool_false in E1, E2. right. right. done.
Qed.

(* rounding is monotone, the infinities included *)
Lemma round64_mono (x y : Q) : (x <= y)%Q -> fle (round64 x) (round64 y) = true.
Proof.
  intros H. pose proof (round_finite_mono x y H) as Hr.
  pose proof (pow2_pos 1024) as P.
  destruct (round64_cases x) as [[-> X]|[[-> X]|[-> [X1 X2]]]];
    destruct (round64_cases y) as [[-> Y]|[[-> Y]|[-> [Y1 Y2]]]];
    simpl; try reflexivity; try (exfalso; lra).
  by apply Qle_bool_iff.
Qed.

Lemma round64_Qeq (x y : Q) : (x == y)%Q -> feqb (round64 x) (round64 y) = true.
Proof.
  intros H. pose proof (round_finite_Qeq x y H) as Hr.
  pose proof (pow2_pos 1024) as P.
  destruct (round64_cases x) as [[-> X]|[[-> X]|[-> [X1 X2]]]];
    destruct (round64_cases y) as [[-> Y]|[[-> Y]|[-> [Y1 Y2]]]];
    simpl; try reflexivity; try (exfalso; lra).
  by apply Qeq_bool_iff.
Qed.

Lemma round64_nonneg (x : Q) : (0 <= x)%Q -> nonneg (round64 x).
Proof.
  intros H. pose proof (round_finite_mono 0 x H) as Hr.
  rewrite round_finite_zero in Hr. pose proof (pow2_pos 1024) as P.
  destruct (round64_cases x) as [[-> X]|[[-> X]|[-> [X1 X2]]]]; simpl; [done | lra | done].
Qed.

Lemma fle_NegInf_round64 (x : Q) : fle NegInf (round64 x) = true.
Proof. by destruct (round64_cases x) as [[-> _]|[[-> _]|[-> _]]]. Qed.

Lemma fle_round64_PosInf (x : Q) : fle (round64 x) PosInf = true.
Proof. by destruct (round64_cases x) as [[-> _]|[[-> _]|[-> _]]]. Qed.

(* 1.5 times a float that is not negative is not negative *)
Lemma fmul_nonneg (x : float) : nonneg x -> nonneg (fmul (Fin (3 # 2)) x).
Proof.
  destruct x as [r| | |]; simpl; try done.
  intros H. apply round64_nonneg. nra.
Qed.

(* a float below q, less something that is not negative, stays below *)
Lemma fle_fsub_nonneg (q x : Q) (t : float) :
  nonneg t -> (q <= x)%Q -> fle (fsub (Fin q) t) (round64 x) = true.
Proof.
  destruct t as [r| | |]; simpl; try done.
  - intros Hr Hq. apply round64_mono. lra.
  - intros _ _. apply fle_NegInf_round64.
Qed.

Lemma fle_fadd_nonneg (q x : Q) (t : float) :
  nonneg t -> (x <= q)%Q -> fle (round64 x) (fadd (Fin q) t) = true.
Proof.
  destruct t as [r| | |]; simpl; try done.
  - intros Hr Hq. apply round64_mono. lra.
  - intros _ _. apply fle_round64_PosInf.
Qed.

(* --------------------------------------------------------------------- *)
(*  Basic facts                                                          *)
(* --------------------------------------------------------------------- *)

(* rounding at work: 0.1 is not a binary64 number, 2^53 + 1 is tied
   between two of them and goes to the even one, the largest binary64
   number plus half a unit of its last place overflows *)
Example round64_examples :
  feqb (round64 (1 # 10)) (Fin (3602879701896397 # 36028797018963968)) = true
  /\ feqb (round64 (inject_Z (2 ^ 53 + 1))) (Fin (inject_Z (2 ^ 53))) = true
  /\ feqb (round64 (inject_Z (2 ^ 53 + 3))) (Fin (inject_Z (2 ^ 53 + 4))) = true
  /\ round64 (inject_Z (2 ^ 1024 - 2 ^ 970)) = PosInf
  /\ feqb (round64 (inject_Z (2 ^ 1024 - 2 ^ 970 - 1)))
          (Fin (inject_Z (2 ^ 1024 - 2 ^ 971))) = true.
Proof. repeat split; vm_compute; reflexivity. Qed.

(* the quartiles of 1, 2, ..., 9, 100 by the stand-in for Series.quantile,
   and the fence they make: only 100 is outside *)
Example quantile_quartiles :
  feqb (Sample.quantile (1 # 4) (Sample.nums [1; 2; 3; 4; 5; 6; 7; 8; 9; 100]%Z))
       (Fin (13 # 4)) = true
  /\ feqb (Sample.quantile (3 # 4) (Sample.nums [1; 2; 3; 4; 5; 6; 7; 8; 9; 100]%Z))
          (Fin (31 # 4)) = true.
Proof. split; vm_compute; reflexivity. Qed.

Example quartile_mask_table :
  quartile_mask Sample.library Sample.table
                (Sample.nums [1; 2; 3; 4; 5; 6; 7; 8; 9; 100]%Z)
  = [true; true; true; true; true; true; true; true; true; false].
Proof. vm_compute. reflexivity. Qed.

(* the fence is computed in floats: with the quartiles 6.4 and 6.8 (as
   floats) its lower bound lies above the float 5.8, which is outside,
   though 6.4 - 1.5 * 0.4 = 5.8 *)
Example fence_rounds :
  in_fence (fst (fence (round64 (64 # 10)) (round64 (68 # 10))))
           (snd (fence (round64 (64 # 10)) (round64 (68 # 10)))) (Some (58 # 10)%Q)
  = false.
Proof. vm_compute. reflexivity. Qed.

Example view_keys_by_substring :
  is_view_key "xaxis.range[0]" = true
  /\ is_view_key "yaxis.autorange" = true
  /\ is_view_key "dragmode" = false.
Proof. repeat split; reflexivity. Qed.

(* without 'pH_free' and 'ph_total', any name with "ph" in it and no "time"
   is taken for a pH column *)
Example find_ph_cols_by_name :
  find_ph_cols [("ph_time", Numeric []); ("samp_num", Numeric []); ("Ph", Numeric []);
                ("alpha", Numeric [])]
  = ["Ph"; "alpha"].
Proof. reflexivity. Qed.

Lemma opt_str_eqb_eq (a b : option string) : opt_str_eqb a b = true <-> a = b.
Proof.
  destruct a as [x|], b as [y|]; simpl; split; intros H; try congruence.
  - apply String.eqb_eq in H. congruence.
  - inversion H. apply String.eqb_refl.
Qed.

Lemma need_data_update_false (d : DataUpdate) (mtime : Z) (sel : option string) :
  need_data_update (Some d) mtime sel = false <->
  du_mtime d = mtime /\ du_ph_type d = sel.
Proof.
  unfold need_data_update. rewrite negb_false_iff, andb_true_iff.
  rewrite Z.eqb_eq, opt_str_eqb_eq. tauto.
Qed.

Lemma truthy_dict_false (d : dict) : truthy_dict (Some d) = false <-> d = ∅.
Proof.
  unfold truthy_dict. rewrite negb_false_iff, bool_decide_eq_true.
  apply dom_empty_iff_L.
Qed.

Lemma range_of_empty (k0 k1 : string) : range_of k0 k1 ∅ = None.
Proof. unfold range_of. by rewrite lookup_empty. Qed.

Lemma range_of_Some (k0 k1 : string) (view : dict) (a b : json) :
  view !! k0 = Some a -> view !! k1 = Some b -> range_of k0 k1 view = Some (a, b).
Proof. intros H0 H1. unfold range_of. by rewrite H0, H1. Qed.

Lemma range_of_truthy (k0 k1 : string) (view : dict) (r : json * json) :
  range_of k0 k1 view = Some r -> truthy_dict (Some view) = true.
Proof.
  intros H. destruct (truthy_dict (Some view)) eqn:E; [done|].
  apply truthy_dict_false in E. subst. by rewrite range_of_empty in H.
Qed.

Lemma patch_cached_figure_ok (view : dict) (cur : Figure) (ax ay : Axis) (w : World) :
  xaxis (layout cur) = Some ax ->
  yaxis (layout cur) = Some ay ->
  patch_cached_figure view cur w =
    (Ok (mkFigure (data cur)
           (mkLayout (title (layout cur))
                     (Some (with_range (x_range_of view) ax))
                     (Some (with_range (y_range_of view) ay))
                     (yaxis2 (layout cur)) (hovermode (layout cur))
                     (transition_duration (layout cur)))), w).
Proof.
  intros Hx Hy. destruct cur as [d [t x y y2 h td]]; simpl in *; subst.
  unfold patch_cached_figure.
  destruct (truthy_dict (Some view)) eqn:E.
  - destruct (x_range_of view) as [rx|], (y_range_of view) as [ry|]; reflexivity.
  - apply truthy_dict_false in E. subst view.
    unfold x_range_of, y_range_of. by rewrite !range_of_empty.
Qed.

Lemma extend_nil (w : World) : extend w [] [] = w.
Proof. destruct w. unfold extend. simpl. by rewrite !app_nil_r. Qed.

Lemma extend_extend (w : World) (o1 o2 : list string) (c1 c2 : list Call) :
  extend (extend w o1 c1) o2 c2 = extend w (o1 ++ o2) (c1 ++ c2).
Proof. unfold extend. simpl. by rewrite !app_assoc. Qed.

Lemma content_extend (path : string) (w : World) (out : list string) (cl : list Call) :
  content path (extend w out cl) = content path w.
Proof. reflexivity. Qed.

(* --------------------------------------------------------------------- *)
(*  Data frames and masks                                                *)
(* --------------------------------------------------------------------- *)

Lemma has_col_df_get (df : DataFrame) (name : string) :
  has_col df name = true <-> is_Some (df_get name df).
Proof.
  unfold has_col, columns. rewrite bool_decide_eq_true.
  induction df as [|[n s] df IH]; simpl.
  - split; [intros H; by apply elem_of_nil in H | intros [x H]; discriminate].
  - rewrite elem_of_cons. destruct (String.eqb_spec n name) as [->|Hne].
    + split; eauto.
    + rewrite <- IH. split; [intros [H|H]; congruence | auto].
Qed.

Lemma has_col_true (df : DataFrame) (name : string) (s : Series) :
  df_get name df = Some s -> has_col df name = true.
Proof. intros H. apply has_col_df_get. eauto. Qed.

Lemma has_col_false (df : DataFrame) (name : string) :
  has_col df name = false -> df_get name df = None.
Proof.
  intros H. destruct (df_get name df) as [s|] eqn:E; [|done].
  apply has_col_true in E. congruence.
Qed.

Lemma df_get_filter (mask : list bool) (df : DataFrame) (name : string) :
  df_get name (df_filter mask df) = series_select mask <$> df_get name df.
Proof.
  induction df as [|[n s] df IH]; simpl; [done|].
  by destruct (String.eqb n name).
Qed.

Lemma df_get_wf (df : DataFrame) (name : string) (s : Series) :
  df_wf df = true -> df_get name df = Some s -> series_len s = df_len df.
Proof.
  unfold df_wf. generalize (df_len df). intros k.
  induction df as [|[n s0] df IH]; simpl; [done|].
  rewrite andb_true_iff, Nat.eqb_eq. intros [Hs Hrest].
  destruct (String.eqb n name); [congruence | auto].
Qed.

Lemma select_nil_r {A} (mask : list bool) : select mask (@nil A) = [].
Proof. unfold select. by destruct mask. Qed.

Lemma select_cons {A} (b : bool) (mask : list bool) (x : A) (l : list A) :
  select (b :: mask) (x :: l) = if b then x :: select mask l else select mask l.
Proof. unfold select. simpl. rewrite filter_cons. by destruct b. Qed.

(* a mask and its complement split the rows *)
Lemma select_partition {A} (mask : list bool) (l : list A) :
  length mask = length l ->
  length (select mask l) + length (select (map negb mask) l) = length l.
Proof.
  revert l. induction mask as [|b mask IH]; intros [|x l] Hlen; try discriminate.
  - reflexivity.
  - simpl map. rewrite !select_cons. simpl in Hlen.
    specialize (IH l ltac:(lia)). destruct b; simpl; lia.
Qed.

Lemma select_all {A} (l : list A) : select (repeat true (length l)) l = l.
Proof.
  induction l as [|x l IH]; [done|]. simpl repeat. rewrite select_cons. by f_equal.
Qed.

Lemma select_none {A} (l : list A) (k : nat) : select (map negb (repeat true k)) l = [].
Proof.
  revert l. induction k as [|k IH]; intros [|x l]; try reflexivity.
  simpl repeat. simpl map. rewrite select_cons. apply IH.
Qed.

Lemma select_map_filter {A} (f : A -> bool) (l : list A) :
  select (map f l) l = List.filter f l.
Proof.
  induction l as [|x l IH]; [done|]. simpl map. rewrite select_cons. simpl.
  destruct (f x); by rewrite IH.
Qed.

Lemma select_map_negb_filter {A} (f : A -> bool) (l : list A) :
  select (map negb (map f l)) l = List.filter (fun c => negb (f c)) l.
Proof.
  induction l as [|x l IH]; [done|]. simpl map. rewrite select_cons. simpl.
  destruct (f x); by rewrite IH.
Qed.

Lemma series_len_select (mask : list bool) (s : Series) :
  length mask = series_len s ->
  series_len (series_select mask s) + series_len (series_select (map negb mask) s)
  = series_len s.
Proof. destruct s; simpl; apply select_partition. Qed.

Lemma series_select_all (s : Series) : series_select (repeat true (series_len s)) s = s.
Proof. destruct s; simpl; by rewrite select_all. Qed.

Lemma series_select_none (s : Series) (k : nat) :
  series_len (series_select (map negb (repeat true k)) s) = 0.
Proof. destruct s; simpl; by rewrite select_none. Qed.

Lemma normal_mask_length (df : DataFrame) (v : list (option Q)) (q1 q3 : float) :
  length v = df_len df -> length (normal_mask df v q1 q3) = df_len df.
Proof.
  intros H. unfold normal_mask, at_least_five, fence_mask.
  destruct (_ <? 5)%nat; [apply repeat_length | by rewrite length_map].
Qed.

Lemma df_filter_all (df : DataFrame) :
  df_wf df = true -> df_filter (repeat true (df_len df)) df = df.
Proof.
  unfold df_wf, df_filter. generalize (df_len df). intros k.
  induction df as [|[n s] df IH]; simpl; [done|].
  rewrite andb_true_iff, Nat.eqb_eq. intros [<- Hrest].
  rewrite series_select_all. f_equal. by apply IH.
Qed.

Lemma df_filter_none (df : DataFrame) (k : nat) (name : string) (s : Series) :
  df_get name (df_filter (map negb (repeat true k)) df) = Some s -> series_len s = 0.
Proof.
  rewrite df_get_filter. destruct (df_get name df) as [s0|]; simpl; [|done].
  intros H. inversion H. apply series_select_none.
Qed.

Lemma df_empty_filter_none (df : DataFrame) (k : nat) :
  df_empty (df_filter (map negb (repeat true k)) df) = true.
Proof.
  destruct df as [|[n s] df]; [done|]. simpl.
  by rewrite series_select_none.
Qed.

Lemma lookup_repeat_true (k i : nat) : i < k -> repeat true k !! i = Some true.
Proof.
  revert i. induction k as [|k IH]; intros [|i] Hi; simpl; try lia; [done|].
  apply IH. lia.
Qed.

(* --------------------------------------------------------------------- *)
(*  The fence                                                            *)
(* --------------------------------------------------------------------- *)

(* the bounds of the fence lie on either side of the quartiles *)
Lemma in_fence_interquartile (q1 q3 x : Q) :
  (q1 <= q3)%Q -> (q1 <= x)%Q -> (x <= q3)%Q ->
  in_fence (fst (fence (Fin q1) (Fin q3))) (snd (fence (Fin q1) (Fin q3))) (Some x)
  = true.
Proof.
  intros H13 H1 H3. unfold fence, in_fence. cbn [fst snd].
  assert (Ht : nonneg (fmul (Fin (3 # 2)) (fsub (Fin q3) (Fin q1)))).
  { apply fmul_nonneg. simpl. apply round64_nonneg. lra. }
  apply andb_true_iff. split.
  - by apply fle_fsub_nonneg.
  - by apply fle_fadd_nonneg.
Qed.

(* with equal quartiles, both a binary64 number q, the two bounds are q *)
Lemma fence_zero_iqr (q : Q) :
  is_float64 q ->
  float_is (fst (fence (Fin q) (Fin q))) q /\ float_is (snd (fence (Fin q) (Fin q))) q.
Proof.
  intros (r & Hr & Hrq). unfold fence. cbn [fst snd fsub].
  (* the interquartile range is zero *)
  assert (Hz : forall z : Q, (z == 0)%Q -> float_is (round64 z) 0).
  { intros z Hzero. pose proof (round_finite_Qeq z 0 Hzero) as E.
    rewrite round_finite_zero in E. pose proof (pow2_pos 1024) as P.
    destruct (round64_cases z) as [[_ X]|[[_ X]|[-> _]]]; [lra | lra |].
    by exists (round_finite z). }
  destruct (Hz (q - q)%Q ltac:(ring)) as (i & -> & Hi).
  cbn [fmul]. destruct (Hz ((3 # 2) * i)%Q ltac:(rewrite Hi; ring)) as (t & -> & Ht).
  cbn [fsub fadd].
  assert (Hq : forall z : Q, (z == q)%Q -> float_is (round64 z) q).
  { intros z Hzq. pose proof (round64_Qeq z q Hzq) as E. rewrite Hr in E.
    destruct (round64 z) as [u| | |]; try discriminate.
    exists u. split; [done|]. apply Qeq_bool_iff in E. by rewrite E. }
  split; apply Hq; rewrite Ht; ring.
Qed.

(* --------------------------------------------------------------------- *)
(*  Classification                                                       *)
(* --------------------------------------------------------------------- *)

Section Charts.

Variable L : Library.

Lemma fenced_length (col : Series) (mask : list bool) :
  fenced L col mask -> length mask = series_len col.
Proof.
  destruct col as [v|v|v]; simpl.
  - intros ->. unfold fence_mask. by rewrite length_map.
  - intros (_ & _ & inside & _ & ->). by rewrite length_map, length_seq.
  - intros (_ & _ & inside & _ & ->). by rewrite length_map, length_seq.
Qed.

Lemma series_fence_mask_ok (col : Series) (mask : list bool) (w : World) :
  fenced L col mask ->
  series_fence_mask L col w =
    (Ok mask, extend w [] [CallQuantile (1 # 4); CallQuantile (3 # 4)]).
Proof.
  unfold series_fence_mask, numeric_quantile, other_quantile, bind, log_call, lift, ret.
  destruct col as [v|v|v]; simpl.
  - intros ->. unfold extend. simpl. by rewrite app_nil_r, <- app_assoc.
  - intros (-> & -> & inside & -> & ->). unfold extend. simpl.
    by rewrite app_nil_r, <- app_assoc.
  - intros (-> & -> & inside & -> & ->). unfold extend. simpl.
    by rewrite app_nil_r, <- app_assoc.
Qed.

Lemma classify_fenced (df : DataFrame) (m : string) (col : Series) (mask : list bool)
    (w : World) :
  df_get m df = Some col ->
  fenced L col mask ->
  classify L df m w =
    (Ok (df_filter (at_least_five df mask) df,
         df_filter (map negb (at_least_five df mask)) df),
     extend w [] [CallQuantile (1 # 4); CallQuantile (3 # 4)]).
Proof.
  intros Hget Hmask.
  unfold classify, bind, getitem, ret. rewrite Hget.
  by rewrite (series_fence_mask_ok col mask w Hmask).
Qed.

Lemma classify_ok (df : DataFrame) (m : string) (v : list (option Q)) (w : World) :
  df_get m df = Some (Numeric v) ->
  classify L df m w =
    (Ok (df_filter (quartile_mask L df v) df,
         df_filter (map negb (quartile_mask L df v)) df),
     extend w [] [CallQuantile (1 # 4); CallQuantile (3 # 4)]).
Proof.
  intros Hget. by apply (classify_fenced df m (Numeric v) _ w Hget).
Qed.

Lemma at_least_five_length (df : DataFrame) (mask : list bool) :
  length mask = df_len df -> length (at_least_five df mask) = df_len df.
Proof.
  intros H. unfold at_least_five.
  destruct (mask_sum mask <? 5)%nat; [apply repeat_length | done].
Qed.

(** C4, amended. For a metric m that is a column of the dataset whose rows
    pandas fences, as it does those of every numeric column, the
    classification returns, and the points of the normal series plus the
    points of the outlier series are all the rows of the dataset, the rows
    without a value for m included. *)
Theorem classify_partitions_all_rows (df : DataFrame) (m : string) (col : Series)
    (mask : list bool) (w : World) :
  df_wf df = true ->
  df_get m df = Some col ->
  fenced L col mask ->
  exists (df_normal df_outliers : DataFrame) (normal outliers : Series) (w' : World),
    classify L df m w = (Ok (df_normal, df_outliers), w')
    /\ df_get m df_normal = Some normal
    /\ df_get m df_outliers = Some outliers
    /\ series_len normal + series_len outliers = df_len df
    /\ series_len col = df_len df.
Proof.
  intros Hwf Hget Hmask.
  pose proof (df_get_wf df m _ Hwf Hget) as Hlen.
  eexists _, _, _, _, _. split; [by apply (classify_fenced df m col mask)|].
  rewrite !df_get_filter, Hget. simpl.
  split; [reflexivity|]. split; [reflexivity|]. split; [|done].
  rewrite <- Hlen. apply (series_len_select _ col).
  rewrite Hlen. apply at_least_five_length.
  rewrite <- Hlen. by apply fenced_length.
Qed.

(** C6. When fewer than five rows of a numeric metric lie inside the fence
    [q1 - 1.5 iqr, q3 + 1.5 iqr], bounds and comparisons being those of
    float arithmetic, the classification returns the whole dataset as the
    normal rows and an outlier frame without a row. *)
Theorem degenerate_fence_all_normal (df : DataFrame) (m : string) (col : Series)
    (v : list (option Q)) (w : World) :
  df_wf df = true ->
  df_get m df = Some col ->
  col = Numeric v ->
  mask_sum (fence_mask (quantile L (1 # 4) v) (quantile L (3 # 4) v) v) < 5 ->
  exists (df_outliers : DataFrame) (w' : World),
    classify L df m w = (Ok (df, df_outliers), w')
    /\ df_empty df_outliers = true
    /\ forall (name : string) (s : Series),
         df_get name df_outliers = Some s -> series_len s = 0.
Proof.
  intros Hwf Hget -> Hfew.
  assert (Hmask : quartile_mask L df v = repeat true (df_len df)).
  { unfold quartile_mask, normal_mask, at_least_five.
    by apply Nat.ltb_lt in Hfew as ->. }
  eexists _, _. split.
  - rewrite (classify_ok df m v w Hget), Hmask, df_filter_all by done. reflexivity.
  - split; [apply df_empty_filter_none|]. intros name s. apply df_filter_none.
Qed.

(* --------------------------------------------------------------------- *)
(*  The chart of a metric                                                *)
(* --------------------------------------------------------------------- *)

Lemma add_traces_eq (df : DataFrame) (mask : list bool) (tc m : string)
    (fig : Figure) (w : World) (x col ys : Series) :
  df_get tc df = Some x ->
  df_get m df = Some col ->
  df_get "samp_num" df = Some ys ->
  add_traces L df (df_filter mask df) (df_filter (map negb mask) df) tc m fig w =
    (Ok (mkFigure (data fig ++ chart_traces df x col ys m mask) (layout fig)), w).
Proof.
  intros Hx Hcol Hys.
  unfold add_traces, bind, getitem, ret, chart_traces, add_trace.
  rewrite !df_get_filter, Hx, Hcol, (has_col_true _ _ _ Hys), Hys. simpl.
  destruct (df_empty _); simpl; by rewrite <- ?app_assoc.
Qed.

(* without a 'samp_num' column the third trace is refused *)
Lemma add_traces_without_samp_num (df : DataFrame) (mask : list bool) (tc m : string)
    (fig : Figure) (w : World) (x col : Series) :
  df_get tc df = Some x ->
  df_get m df = Some col ->
  has_col df "samp_num" = false ->
  add_traces L df (df_filter mask df) (df_filter (map negb mask) df) tc m fig w =
    (Raise (Exception "ValueError" (range_rejected L (df_len df))), w).
Proof.
  intros Hx Hcol Hys.
  unfold add_traces, bind, getitem, ret, raise, add_trace.
  rewrite !df_get_filter, Hx, Hcol, Hys. simpl.
  by destruct (df_empty _).
Qed.

Lemma add_traces_layout (df df_normal df_outliers : DataFrame) (tc m : string)
    (fig fig' : Figure) (w w' : World) :
  add_traces L df df_normal df_outliers tc m fig w = (Ok fig', w') ->
  layout fig' = layout fig.
Proof.
  unfold add_traces, bind, getitem, ret, raise.
  destruct (df_get tc df_normal); [|discriminate].
  destruct (df_get m df_normal); [|discriminate].
  destruct (df_empty df_outliers); cbn.
  - destruct (df_get tc df); [|discriminate].
    destruct (has_col df "samp_num"); [destruct (df_get "samp_num" df)|];
      cbn; intros H; inversion H; reflexivity.
  - destruct (df_get tc df_outliers); [|discriminate].
    destruct (df_get m df_outliers); [|discriminate]. cbn.
    destruct (df_get tc df); [|discriminate].
    destruct (has_col df "samp_num"); [destruct (df_get "samp_num" df)|];
      cbn; intros H; inversion H; reflexivity.
Qed.

Lemma format_figure_data (t : Series) (tc m : string) (view : dict) (fig : Figure) :
  data (format_figure t tc m view fig) = data fig.
Proof.
  unfold format_figure, apply_view.
  by destruct (is_datetime64_any_dtype t), (truthy_dict (Some view)),
    (x_range_of view), (y_range_of view).
Qed.

Lemma format_figure_layout (t : Series) (tc m : string) (view : dict) (fig : Figure) :
  layout fig = layout make_subplots ->
  layout (format_figure t tc m view fig) =
    mkLayout (Some (m ++ " vs " ++ tc)%string)
      (Some (mkAxis (Some tc) (x_range_of view)
               (if is_datetime64_any_dtype t then Some "%Y-%m-%d %H:%M:%S" else None)
               (if is_datetime64_any_dtype t then Some 45%Z else None)))
      (Some (mkAxis (Some m) (y_range_of view) None None))
      (Some (mkAxis (Some "Sample Number") None None None))
      (Some "closest") (Some 300%Z).
Proof.
  destruct fig as [d l]. simpl. intros ->.
  unfold format_figure, apply_view.
  destruct (truthy_dict (Some view)) eqn:E.
  - by destruct (is_datetime64_any_dtype t), (x_range_of view), (y_range_of view).
  - apply truthy_dict_false in E. subst view.
    unfold x_range_of, y_range_of. rewrite !range_of_empty.
    by destruct (is_datetime64_any_dtype t).
Qed.

(* what format_figure leaves in the layout of a figure with both axes *)
Lemma format_figure_ranges (t : Series) (tc m : string) (view : dict) (fig : Figure)
    (ax ay : Axis) :
  xaxis (layout fig) = Some ax ->
  yaxis (layout fig) = Some ay ->
  (ax_range <$> xaxis (layout (format_figure t tc m view fig)))
    = Some (ax_range (with_range (x_range_of view) ax))
  /\ (ax_range <$> yaxis (layout (format_figure t tc m view fig)))
    = Some (ax_range (with_range (y_range_of view) ay)).
Proof.
  intros Hx Hy. destruct fig as [d [ti x y y2 h td]]. simpl in Hx, Hy. subst.
  unfold format_figure, apply_view.
  destruct (truthy_dict (Some view)) eqn:E.
  - destruct (is_datetime64_any_dtype t), (x_range_of view), (y_range_of view);
      split; reflexivity.
  - apply truthy_dict_false in E. subst view.
    unfold x_range_of, y_range_of. rewrite !range_of_empty.
    destruct (is_datetime64_any_dtype t); split; reflexivity.
Qed.

(* the chart of a numeric metric of a dataset with the time column and
   with sample numbers *)
Lemma plot_metric_eq (df : DataFrame) (tc m : string) (view : dict) (fig : Figure)
    (w : World) (v : list (option Q)) (x ys : Series) :
  df_get m df = Some (Numeric v) ->
  df_get tc df = Some x ->
  df_get "samp_num" df = Some ys ->
  plot_metric L df tc m view fig w =
    (Ok (format_figure x tc m view
           (mkFigure (data fig ++ chart_traces df x (Numeric v) ys m (quartile_mask L df v))
                     (layout fig))),
     extend w [] [CallQuantile (1 # 4); CallQuantile (3 # 4)]).
Proof.
  intros Hget Hx Hys. unfold plot_metric, bind.
  rewrite (classify_ok df m v w Hget). simpl fst. simpl snd.
  rewrite (add_traces_eq df _ tc m fig _ x (Numeric v) ys Hx Hget Hys).
  unfold getitem. by rewrite Hx.
Qed.

End Charts.

(** C4, as stated, fails: with six equal values and one missing cell, the
    six rows are normal and the row without a value lands among the
    outliers, seven points for six non-null rows. *)
Lemma classify_counts_non_null_fails : ~ classify_counts_non_null.
Proof.
  intros H.
  specialize (H Sample.library Sample.table_with_null "pH_free"
                (Numeric (Sample.nums [1; 1; 1; 1; 1; 1]%Z ++ [None]))
                (Sample.world Sample.table_with_null)).
  specialize (H _ _ _ _ _ eq_refl eq_refl
                (classify_ok Sample.library Sample.table_with_null "pH_free" _ _ eq_refl)
                eq_refl eq_refl).
  vm_compute in H. discriminate.
Qed.

Lemma classify_partitions_all_rows_witness :
  exists (df_normal df_outliers : DataFrame) (normal outliers : Series) (w' : World),
    classify Sample.library Sample.table_with_null "pH_free"
             (Sample.world Sample.table_with_null)
      = (Ok (df_normal, df_outliers), w')
    /\ df_get "pH_free" df_normal = Some normal
    /\ df_get "pH_free" df_outliers = Some outliers
    /\ series_len normal + series_len outliers = 7
    /\ 7 = 7.
Proof.
  exact (classify_partitions_all_rows Sample.library Sample.table_with_null "pH_free"
           (Numeric (Sample.nums [1; 1; 1; 1; 1; 1]%Z ++ [None]))
           (fence_mask
              (Sample.quantile (1 # 4) (Sample.nums [1; 1; 1; 1; 1; 1]%Z ++ [None]))
              (Sample.quantile (3 # 4) (Sample.nums [1; 1; 1; 1; 1; 1]%Z ++ [None]))
              (Sample.nums [1; 1; 1; 1; 1; 1]%Z ++ [None]))
           (Sample.world Sample.table_with_null) eq_refl eq_refl eq_refl).
Defined.

(* of 1, 1, 1, 100 the last value is outside the fence, three rows are
   inside: the guard makes the four of them normal *)
Lemma degenerate_fence_all_normal_witness :
  fence_mask (Sample.quantile (1 # 4) (Sample.nums [1; 1; 1; 100]%Z))
             (Sample.quantile (3 # 4) (Sample.nums [1; 1; 1; 100]%Z))
             (Sample.nums [1; 1; 1; 100]%Z)
  = [true; true; true; false]
  /\ exists (df_outliers : DataFrame) (w' : World),
       classify Sample.library Sample.table_short "pH_free"
                (Sample.world Sample.table_short)
         = (Ok (Sample.table_short, df_outliers), w')
       /\ df_empty df_outliers = true
       /\ forall (name : string) (s : Series),
            df_get name df_outliers = Some s -> series_len s = 0.
Proof.
  split; [vm_compute; reflexivity|].
  apply (degenerate_fence_all_normal Sample.library Sample.table_short "pH_free"
           (Numeric (Sample.nums [1; 1; 1; 100]%Z)) (Sample.nums [1; 1; 1; 100]%Z)
           (Sample.world Sample.table_short) eq_refl eq_refl eq_refl).
  vm_compute. lia.
Defined.

(* --------------------------------------------------------------------- *)
(*  Computations that only look at the file system                       *)
(* --------------------------------------------------------------------- *)

Section Observes.

Variable path : string.

Lemma observes_ret {A} (a : A) : observes path (ret a).
Proof. intros w1 w2 _. exists (Ok a), [], []. by rewrite !extend_nil. Qed.

Lemma observes_raise {A} (e : Exn) : observes path (@raise A e).
Proof. intros w1 w2 _. exists (Raise e), [], []. by rewrite !extend_nil. Qed.

Lemma observes_lift {A} (r : Res A) : observes path (lift r).
Proof. intros w1 w2 _. exists r, [], []. by rewrite !extend_nil. Qed.

Lemma observes_print (line : string) : observes path (print line).
Proof.
  intros w1 w2 _. exists (Ok tt), [line], [].
  unfold print, extend. by rewrite !app_nil_r.
Qed.

Lemma observes_log_call (c : Call) : observes path (log_call c).
Proof.
  intros w1 w2 _. exists (Ok tt), [], [c].
  unfold log_call, extend. by rewrite !app_nil_r.
Qed.

Lemma observes_exists : observes path (os_path_exists path).
Proof.
  intros w1 w2 E. unfold os_path_exists. unfold content in E.
  exists (Ok (bool_decide (is_Some (files w1 !! path)))), [], [].
  rewrite !extend_nil.
  destruct (files w1 !! path), (files w2 !! path); simpl in E; try discriminate;
    split; reflexivity.
Qed.

Lemma observes_bind {A B} (c : M A) (k : A -> M B) :
  observes path c -> (forall a, observes path (k a)) -> observes path (bind c k).
Proof.
  intros Hc Hk w1 w2 E. unfold bind.
  destruct (Hc w1 w2 E) as (r & o & cl & -> & ->).
  destruct r as [a|e].
  - destruct (Hk a (extend w1 o cl) (extend w2 o cl) E) as (r' & o' & cl' & -> & ->).
    exists r', (o ++ o'), (cl ++ cl'). by rewrite !extend_extend.
  - by exists (Raise e), o, cl.
Qed.

Lemma observes_try_except {A} (c : M A) (h : Exn -> M A) :
  observes path c -> (forall e, observes path (h e)) -> observes path (try_except c h).
Proof.
  intros Hc Hh w1 w2 E. unfold try_except.
  destruct (Hc w1 w2 E) as (r & o & cl & -> & ->).
  destruct r as [a|e].
  - by exists (Ok a), o, cl.
  - destruct (Hh e (extend w1 o cl) (extend w2 o cl) E) as (r' & o' & cl' & -> & ->).
    exists r', (o ++ o'), (cl ++ cl'). by rewrite !extend_extend.
Qed.

Lemma observes_pd_read_csv : observes path (pd_read_csv path).
Proof.
  intros w1 w2 E. unfold pd_read_csv, bind, log_call. simpl. unfold content in E.
  exists (match files w1 !! path with
          | Some f => f_table f
          | None => Raise (FileNotFoundError path)
          end), [], [CallReadCsv path].
  unfold extend. rewrite !app_nil_r.
  destruct (files w1 !! path) as [f1|], (files w2 !! path) as [f2|];
    simpl in E; try discriminate; [|split; reflexivity].
  injection E as E. rewrite <- E. split; reflexivity.
Qed.

Lemma observes_getitem (name : string) (df : DataFrame) : observes path (getitem name df).
Proof.
  unfold getitem. destruct (df_get name df); [apply observes_ret | apply observes_raise].
Qed.

End Observes.

Create HintDb observes.
#[local] Hint Resolve observes_ret observes_raise observes_lift observes_print observes_log_call
  observes_exists observes_pd_read_csv observes_getitem : observes.

(* one step of a proof that a computation built from the combinators
   observes the file only *)
Ltac observe_step :=
  match goal with
  | |- observes _ (bind _ _) => apply observes_bind; [|intros ?]
  | |- observes _ (try_except _ _) => apply observes_try_except; [|intros ?]
  | |- observes _ (if ?b then _ else _) => destruct b
  | |- observes _ (match ?x with _ => _ end) => destruct x
  | |- observes _ _ => solve [auto with observes]
  end.

(* --------------------------------------------------------------------- *)
(*  The cache-hit tick                                                   *)
(* --------------------------------------------------------------------- *)

Section Ticks.

Variable L : Library.

Lemma observes_pd_to_datetime (path : string) (fmt : option string) (s : Series) :
  observes path (pd_to_datetime L fmt s).
Proof. unfold pd_to_datetime. repeat observe_step. Qed.

Lemma observes_resolve_time_col (path : string) (df : DataFrame) :
  observes path (resolve_time_col L df).
Proof.
  pose proof observes_pd_to_datetime.
  unfold resolve_time_col. repeat observe_step.
Qed.

Lemma observes_verify_time_col (path : string) (df : DataFrame) (tc : string) :
  observes path (verify_time_col df tc).
Proof. unfold verify_time_col. repeat observe_step. Qed.

Lemma observes_read_csv_body (path : string) :
  observes path (read_csv_body L path).
Proof.
  pose proof observes_resolve_time_col. pose proof observes_verify_time_col.
  unfold read_csv_body. repeat observe_step.
Qed.

Lemma observes_read_csv_data (path : string) :
  observes path (read_csv_data L path).
Proof.
  pose proof observes_read_csv_body.
  unfold read_csv_data. repeat observe_step.
Qed.

(* read_csv_data catches whatever its body raises *)
Lemma read_csv_data_total (path : string) (w : World) :
  exists (r : option (DataFrame * Metadata)) (w' : World),
    read_csv_data L path w = (Ok r, w').
Proof.
  unfold read_csv_data, bind, os_path_exists, try_except, print, ret.
  destruct (files w !! path) as [f|]; simpl; [|eauto].
  destruct (read_csv_body L path w) as [[r|e] w']; eauto.
Qed.

(** C9. Reading is a function of the content of the file: read_csv_data
    always returns, two calls in a row return the same dataset and
    metadata, and so does a call in any other world where the file has
    the same content. *)
Theorem read_csv_data_idempotent (path : string) (w : World) :
  exists (r : option (DataFrame * Metadata)) (w1 w2 : World),
    read_csv_data L path w = (Ok r, w1)
    /\ read_csv_data L path w1 = (Ok r, w2)
    /\ files w1 = files w
    /\ files w2 = files w
    /\ forall w' : World, content path w' = content path w ->
         fst (read_csv_data L path w') = Ok r.
Proof.
  destruct (read_csv_data_total path w) as (r & w1 & Hr).
  destruct (observes_read_csv_data path w w eq_refl) as (r0 & out & cl & H1 & _).
  rewrite Hr in H1. injection H1 as <- ->.
  destruct (observes_read_csv_data path w (extend w out cl) eq_refl)
    as (r1 & out1 & cl1 & H1 & H2).
  rewrite Hr in H1. injection H1 as <- H1.
  exists r, (extend w out cl), (extend (extend w out cl) out1 cl1).
  repeat split; [done..|].
  intros w' E. destruct (observes_read_csv_data path w' w E) as (r2 & o2 & c2 & H3 & H4).
  rewrite Hr in H4. injection H4 as <- _. by rewrite H3.
Qed.

Lemma update_graph_reuse (n : Z) (sel : option string) (cur : Figure)
    (relay stored : option dict) (du : DataUpdate) (w : World) (f : File) :
  files w !! FILE_PATH = Some f ->
  need_data_update (Some du) (f_mtime f) sel = false ->
  update_graph L n sel (Some cur) relay stored (Some du) w =
    match patch_cached_figure (capture_view relay stored) cur w with
    | (Ok fig, w') =>
        (Ok (fig, (("Last updated: " ++ now w) ++ " (no changes)")%string, Some du,
             Some (capture_view relay stored)), w')
    | (Raise e, w') => (Raise e, w')
    end.
Proof.
  intros Hf Hneed.
  unfold update_graph, bind, datetime_now, os_path_exists, os_path_getmtime, ret.
  rewrite Hf. cbn -[need_data_update capture_view patch_cached_figure String.append].
  rewrite Hf, Hneed. cbn -[capture_view patch_cached_figure String.append].
  by destruct (patch_cached_figure _ cur w) as [[fig|e] w'].
Qed.

Lemma reuse_tick_result (n : Z) (sel : option string)
    (cur : Figure) (relay stored : option dict) (du : DataUpdate) (w : World)
    (f : File) (ax ay : Axis) :
  files w !! FILE_PATH = Some f ->
  du_mtime du = f_mtime f ->
  du_ph_type du = sel ->
  xaxis (layout cur) = Some ax ->
  yaxis (layout cur) = Some ay ->
  exists fig : Figure,
    update_graph L n sel (Some cur) relay stored (Some du) w =
      (Ok (fig, (("Last updated: " ++ now w) ++ " (no changes)")%string, Some du,
           Some (capture_view relay stored)), w)
    /\ xaxis (layout fig) =
         Some (with_range (x_range_of (capture_view relay stored)) ax)
    /\ yaxis (layout fig) =
         Some (with_range (y_range_of (capture_view relay stored)) ay).
Proof.
  intros Hf Hm Hs Hx Hy.
  assert (Hneed : need_data_update (Some du) (f_mtime f) sel = false)
    by (by apply need_data_update_false).
  rewrite (update_graph_reuse n sel cur relay stored du w f Hf Hneed).
  rewrite (patch_cached_figure_ok _ cur ax ay w Hx Hy).
  eexists. split; [reflexivity|]. by split.
Qed.


(* --------------------------------------------------------------------- *)
(*  Time-column resolution, rule by rule                                 *)
(* --------------------------------------------------------------------- *)

Lemma resolve_time_col_primary (df : DataFrame) (s : Series) (t : list (option Z))
    (w : World) :
  df_get "pc_time" df = Some s ->
  to_datetime L None s = Ok t ->
  resolve_time_col L df w =
    (Ok (df_set "pc_time" (Datetime64 t) df, "pc_time"), w).
Proof.
  intros Hget Ht. unfold resolve_time_col, bind, getitem, pd_to_datetime.
  rewrite (has_col_true _ _ _ Hget), Hget. cbn. unfold pd_to_datetime. by rewrite Ht.
Qed.

Lemma resolve_time_col_secondary (df : DataFrame) (s : Series) (t : list (option Z))
    (w : World) :
  has_col df "pc_time" = false ->
  df_get "ph_time" df = Some s ->
  to_datetime L None s = Ok t
  \/ ((exists e, to_datetime L None s = Raise e)
      /\ to_datetime L (Some "%m/%d/%Y %H:%M:%S") s = Ok t) ->
  resolve_time_col L df w =
    (Ok (df_set "ph_time" (Datetime64 t) df, "ph_time"), w).
Proof.
  intros Hpc Hget Ht.
  unfold resolve_time_col, bind, getitem, try_except, pd_to_datetime.
  rewrite Hpc, (has_col_true _ _ _ Hget), Hget. cbn. unfold pd_to_datetime.
  destruct Ht as [Ht | [[e Hn] Ht]].
  - by rewrite Ht.
  - rewrite Hn. cbn. by rewrite Ht.
Qed.

Lemma resolve_time_col_neither (df : DataFrame) (w : World) :
  has_col df "pc_time" = false ->
  has_col df "ph_time" = false ->
  resolve_time_col L df w = (Ok (df, "samp_num"), w).
Proof. intros Hpc Hph. unfold resolve_time_col. by rewrite Hpc, Hph. Qed.

Lemma verify_time_col_keeps (df : DataFrame) (tc : string) (w : World) :
  Py.contains "time" (Py.lower tc) = false
  \/ (exists s, df_get tc df = Some s /\ isna_all s = false) ->
  verify_time_col df tc w = (Ok tc, w).
Proof.
  unfold verify_time_col, bind, getitem. intros [-> | (s & Hget & Hna)]; [done|].
  destruct (Py.contains "time" (Py.lower tc)); [|done].
  rewrite Hget. cbn. by rewrite Hna.
Qed.

Lemma verify_time_col_demotes (df : DataFrame) (tc : string) (s : Series) (w : World) :
  Py.contains "time" (Py.lower tc) = true ->
  df_get tc df = Some s ->
  isna_all s = true ->
  fst (verify_time_col df tc w) =
    Ok (if has_col df "samp_num" then "samp_num" else default tc (head (columns df))).
Proof.
  intros Hname Hget Hna. unfold verify_time_col, bind, getitem, print.
  rewrite Hname, Hget. cbn. rewrite Hna. cbn.
  destruct (has_col df "samp_num"); [done|].
  destruct df as [|[c0 s0] df]; [discriminate|done].
Qed.

(* --------------------------------------------------------------------- *)
(*  The rebuilding tick                                                  *)
(* --------------------------------------------------------------------- *)

Lemma update_graph_rebuild (n : Z) (sel : option string) (cur : option Figure)
    (relay stored : option dict) (du : option DataUpdate) (w : World) (f : File) :
  files w !! FILE_PATH = Some f ->
  cur = None \/ need_data_update du (f_mtime f) sel = true ->
  update_graph L n sel cur relay stored du w =
    rebuild L sel ("Last updated: " ++ now w)%string (f_mtime f)
            (capture_view relay stored) w.
Proof.
  intros Hf Hpath.
  unfold update_graph, bind, datetime_now, os_path_exists, os_path_getmtime, ret.
  rewrite Hf. cbn -[need_data_update capture_view rebuild String.append].
  rewrite Hf. cbn -[need_data_update capture_view rebuild String.append].
  destruct Hpath as [-> | ->]; [done|]. by destruct cur.
Qed.

Lemma selected_in_columns_Some (m : string) (df : DataFrame) (col : Series) :
  df_get m df = Some col -> selected_in_columns (Some m) df = true.
Proof. apply has_col_true. Qed.

Lemma rebuild_plot_eq (m ut : string) (mt : Z) (view : dict) (w w1 : World)
    (df : DataFrame) (meta : Metadata) (v : list (option Q)) (x ys : Series) :
  read_csv_data L FILE_PATH w = (Ok (Some (df, meta)), w1) ->
  df_get m df = Some (Numeric v) ->
  df_get (time_col meta) df = Some x ->
  df_get "samp_num" df = Some ys ->
  rebuild L (Some m) ut mt view w =
    (Ok (format_figure x (time_col meta) m view
           (mkFigure (chart_traces df x (Numeric v) ys m (quartile_mask L df v))
                     (layout make_subplots)),
         ut, Some (mkDataUpdate mt (Some m)), Some view),
     extend w1 [] [CallQuantile (1 # 4); CallQuantile (3 # 4)]).
Proof.
  intros Hread Hget Hx Hys.
  unfold rebuild, bind. rewrite Hread.
  rewrite (selected_in_columns_Some m df _ Hget). simpl Py.fmt.
  by rewrite (plot_metric_eq L df (time_col meta) m view make_subplots w1 v x ys
                Hget Hx Hys).
Qed.

(* a rebuild that charts a metric of a dataset without sample numbers *)
Lemma rebuild_without_samp_num (m ut : string) (mt : Z) (view : dict) (w w1 : World)
    (df : DataFrame) (meta : Metadata) (v : list (option Q)) (x : Series) :
  read_csv_data L FILE_PATH w = (Ok (Some (df, meta)), w1) ->
  df_get m df = Some (Numeric v) ->
  df_get (time_col meta) df = Some x ->
  has_col df "samp_num" = false ->
  rebuild L (Some m) ut mt view w =
    (Raise (Exception "ValueError" (range_rejected L (df_len df))),
     extend w1 [] [CallQuantile (1 # 4); CallQuantile (3 # 4)]).
Proof.
  intros Hread Hget Hx Hys.
  unfold rebuild, bind. rewrite Hread.
  rewrite (selected_in_columns_Some m df _ Hget). simpl Py.fmt.
  unfold plot_metric, bind. rewrite (classify_ok L df m v w1 Hget). simpl fst. simpl snd.
  by rewrite (add_traces_without_samp_num L df _ (time_col meta) m make_subplots _ x
                (Numeric v) Hx Hget Hys).
Qed.

Lemma rebuild_not_found (sel : option string) (ut : string) (mt : Z) (view : dict)
    (w w1 : World) (df : DataFrame) (meta : Metadata) :
  read_csv_data L FILE_PATH w = (Ok (Some (df, meta)), w1) ->
  selected_in_columns sel df = false ->
  rebuild L sel ut mt view w =
    (Ok (column_not_found sel make_subplots, ut, Some (mkDataUpdate mt sel),
         Some view), w1).
Proof.
  intros Hread Hsel. unfold rebuild, bind. by rewrite Hread, Hsel.
Qed.

(* a tick without a data file *)
Lemma update_graph_missing_file (n : Z) (sel : option string) (cur : option Figure)
    (relay stored : option dict) (du : option DataUpdate) (w : World) :
  files w !! FILE_PATH = None ->
  update_graph L n sel cur relay stored du w =
    (Ok (set_title "Waiting for data file..." go_Figure,
         "Waiting for file to be created...", None, None), w).
Proof.
  intros Hf. unfold update_graph, bind, datetime_now, os_path_exists, ret.
  by rewrite Hf.
Qed.

(* a rebuilding tick whose read gives nothing: parse error, no pH column *)
Lemma update_graph_read_failure (n : Z) (sel : option string) (cur : option Figure)
    (relay stored : option dict) (du : option DataUpdate) (w w1 : World) (f : File) :
  files w !! FILE_PATH = Some f ->
  cur = None \/ need_data_update du (f_mtime f) sel = true ->
  read_csv_data L FILE_PATH w = (Ok None, w1) ->
  update_graph L n sel cur relay stored du w =
    (Ok (set_title "Error reading data file" go_Figure, "Error reading data",
         None, Some (capture_view relay stored)), w1).
Proof.
  intros Hf Hpath Hread.
  rewrite (update_graph_rebuild n sel cur relay stored du w f Hf Hpath).
  unfold rebuild, bind. by rewrite Hread.
Qed.

(* a read of a file pd.read_csv raises on *)
Lemma read_csv_data_parse_error (path : string) (w : World) (f : File) (e : Exn) :
  files w !! path = Some f ->
  f_table f = Raise e ->
  read_csv_data L path w =
    (Ok None, extend w [("Error reading CSV: " ++ exn_str e)%string] [CallReadCsv path]).
Proof.
  intros Hf Ht.
  unfold read_csv_data, bind, os_path_exists, try_except, read_csv_body, bind,
    pd_read_csv, bind, log_call, print, ret.
  rewrite Hf. simpl. by rewrite Hf, Ht.
Qed.

(* a figure handed back together with a fingerprint has both axes, provided
   the cached figure it may stem from had them *)
Lemma cached_figure_has_axes (n : Z) (sel : option string) (cur : option Figure)
    (relay stored : option dict) (du : option DataUpdate) (w w' : World)
    (fig : Figure) (st : string) (d' : DataUpdate) (v : option dict) :
  (forall c, cur = Some c ->
     is_Some (xaxis (layout c)) /\ is_Some (yaxis (layout c))) ->
  update_graph L n sel cur relay stored du w = (Ok (fig, st, Some d', v), w') ->
  is_Some (xaxis (layout fig)) /\ is_Some (yaxis (layout fig)).
Proof.
  intros Hcur.
  destruct (files w !! FILE_PATH) as [f|] eqn:Hf;
    [|rewrite update_graph_missing_file by done; discriminate].
  assert (Hreb : forall ut mt view,
            rebuild L sel ut mt view w = (Ok (fig, st, Some d', v), w') ->
            is_Some (xaxis (layout fig)) /\ is_Some (yaxis (layout fig))).
  { intros ut mt view. unfold rebuild, bind, ret.
    destruct (read_csv_data L FILE_PATH w) as [[[[df meta]|]|e] w1];
      [|discriminate..].
    destruct (selected_in_columns sel df) eqn:Hsel.
    - destruct sel as [m|]; [|discriminate]. simpl in Hsel. simpl Py.fmt.
      apply has_col_df_get in Hsel as [col Hget].
      unfold plot_metric, bind, ret.
      destruct (classify L df m w1) as [[parts|e] w2]; [|discriminate].
      destruct (add_traces L df (fst parts) (snd parts) (time_col meta) m
                  make_subplots w2) as [[fig1|e] w3] eqn:Ha; [|discriminate].
      pose proof (add_traces_layout L _ _ _ _ _ _ _ _ _ Ha) as Hl.
      unfold getitem. destruct (df_get (time_col meta) df) as [t|]; [|discriminate].
      intros H. inversion H. subst.
      destruct (format_figure_ranges t (time_col meta) m view fig1
                  empty_axis empty_axis) as [Hx Hy]; [by rewrite Hl..|].
      split.
      + destruct (xaxis (layout (format_figure t (time_col meta) m view fig1)));
          [eauto | discriminate].
      + destruct (yaxis (layout (format_figure t (time_col meta) m view fig1)));
          [eauto | discriminate].
    - intros H. inversion H. simpl. eauto. }
  destruct cur as [c|]; [destruct (need_data_update du (f_mtime f) sel) eqn:Hn|].
  - rewrite (update_graph_rebuild n sel (Some c) relay stored du w f) by auto.
    apply Hreb.
  - destruct du as [d|]; [|discriminate].
    destruct (Hcur c eq_refl) as [[ax Hax] [ay Hay]].
    rewrite (update_graph_reuse n sel c relay stored d w f Hf Hn).
    rewrite (patch_cached_figure_ok _ c ax ay w Hax Hay).
    intros H. inversion H. simpl. eauto.
  - rewrite (update_graph_rebuild n sel None relay stored du w f) by auto.
    apply Hreb.
Qed.

(* whatever a tick on an existing file returns, the view it hands back is
   the captured one *)
Lemma rebuild_view (sel : option string) (ut : string) (mt : Z) (view : dict)
    (w w' : World) (fig : Figure) (st : string) (du : option DataUpdate)
    (v : option dict) :
  rebuild L sel ut mt view w = (Ok (fig, st, du, v), w') -> v = Some view.
Proof.
  unfold rebuild, bind, ret.
  destruct (read_csv_data L FILE_PATH w) as [[[[df meta]|]|e] w1];
    [| |discriminate].
  - destruct (selected_in_columns sel df).
    + destruct (plot_metric _ _ _ _ _ _ w1) as [[fig1|e] w2]; [|discriminate].
      intros H. by inversion H.
    + intros H. by inversion H.
  - intros H. by inversion H.
Qed.

Lemma update_graph_view (n : Z) (sel : option string) (cur : option Figure)
    (relay stored : option dict) (du : option DataUpdate) (w w' : World) (f : File)
    (fig : Figure) (st : string) (du' : option DataUpdate) (v : option dict) :
  files w !! FILE_PATH = Some f ->
  update_graph L n sel cur relay stored du w = (Ok (fig, st, du', v), w') ->
  v = Some (capture_view relay stored).
Proof.
  intros Hf.
  destruct cur as [c|]; [destruct (need_data_update du (f_mtime f) sel) eqn:Hn|].
  - rewrite (update_graph_rebuild n sel (Some c) relay stored du w f) by auto.
    apply rebuild_view.
  - destruct du as [d|]; [|discriminate].
    rewrite (update_graph_reuse n sel c relay stored d w f Hf Hn).
    destruct (patch_cached_figure _ c w) as [[fig1|e] w1]; [|discriminate].
    intros H. by inversion H.
  - rewrite (update_graph_rebuild n sel None relay stored du w f) by auto.
    apply rebuild_view.
Qed.

(** C2, amended. With a captured view that holds both ends of an x range
    and of a y range, the tick returns a figure whose x axis and (primary)
    y axis have exactly these ranges, whatever the values of the series,
    on the cache-hit path (the cached figure having its axes) and on a
    rebuild that charts the selected metric: the file reads as a dataset
    of which the metric is a numeric column, next to the resolved time
    column and to 'samp_num'. *)
Theorem view_ranges_kept_on_both_paths (n : Z) (sel : option string)
    (cur : option Figure) (relay stored : option dict) (du : option DataUpdate)
    (w : World) (f : File) (x0 x1 y0 y1 : json) :
  files w !! FILE_PATH = Some f ->
  capture_view relay stored !! "xaxis.range[0]" = Some x0 ->
  capture_view relay stored !! "xaxis.range[1]" = Some x1 ->
  capture_view relay stored !! "yaxis.range[0]" = Some y0 ->
  capture_view relay stored !! "yaxis.range[1]" = Some y1 ->
  on_reuse_path sel cur du f \/ on_rebuild_path L sel cur du f w ->
  exists (fig : Figure) (st : string) (du' : option DataUpdate) (w' : World),
    update_graph L n sel cur relay stored du w =
      (Ok (fig, st, du', Some (capture_view relay stored)), w')
    /\ (ax_range <$> xaxis (layout fig)) = Some (Some (x0, x1))
    /\ (ax_range <$> yaxis (layout fig)) = Some (Some (y0, y1)).
Proof.
  intros Hf Hx0 Hx1 Hy0 Hy1 Hpath.
  pose proof (range_of_Some _ _ _ _ _ Hx0 Hx1) as Hxr.
  pose proof (range_of_Some _ _ _ _ _ Hy0 Hy1) as Hyr.
  fold x_range_of in Hxr. fold y_range_of in Hyr.
  destruct Hpath as [(c & d & ax & ay & -> & -> & Hm & Hs & Hax & Hay)
                    |(Hneed & df & meta & w1 & m & v & x
                      & Hread & -> & Hget & Hxcol & Hsamp)].
  - destruct (reuse_tick_result n sel c relay stored d w f ax ay
                Hf Hm Hs Hax Hay) as (fig & Heq & Hxa & Hya).
    eexists fig, _, _, w. split; [exact Heq|].
    rewrite Hxa, Hya, Hxr, Hyr. by split.
  - apply has_col_df_get in Hsamp as [ys Hys].
    rewrite (update_graph_rebuild n (Some m) cur relay stored du w f Hf Hneed).
    rewrite (rebuild_plot_eq m ("Last updated: " ++ now w)%string (f_mtime f)
               (capture_view relay stored) w w1 df meta v x ys Hread Hget Hxcol Hys).
    eexists _, _, _, _. split; [reflexivity|].
    destruct (format_figure_ranges x (time_col meta) m (capture_view relay stored)
                (mkFigure (chart_traces df x (Numeric v) ys m (quartile_mask L df v))
                          (layout make_subplots))
                empty_axis empty_axis) as [Hxa Hya]; [done..|].
    rewrite Hxa, Hya, Hxr, Hyr. by split.
Qed.

(* --------------------------------------------------------------------- *)
(*  A selection that is no column                                        *)
(* --------------------------------------------------------------------- *)

(** C3, amended. On a rebuilding tick whose file reads as a dataset, a
    selected metric that is not among the columns of the dataset gives the
    chart titled "Error: Selected column '...' not found", without a
    trace, under the usual "Last updated" status, and the fingerprint of
    this tick (modification time, selected metric) is what the tick hands
    back for caching. *)
Theorem unknown_metric_placeholder_is_cached (n : Z) (sel : option string)
    (cur : option Figure) (relay stored : option dict) (du : option DataUpdate)
    (w w1 : World) (f : File) (df : DataFrame) (meta : Metadata) :
  files w !! FILE_PATH = Some f ->
  cur = None \/ need_data_update du (f_mtime f) sel = true ->
  read_csv_data L FILE_PATH w = (Ok (Some (df, meta)), w1) ->
  selected_in_columns sel df = false ->
  exists fig : Figure,
    update_graph L n sel cur relay stored du w =
      (Ok (fig, ("Last updated: " ++ now w)%string,
           Some (mkDataUpdate (f_mtime f) sel),
           Some (capture_view relay stored)), w1)
    /\ title (layout fig) =
         Some ("Error: Selected column '" ++ Py.fmt sel ++ "' not found")%string
    /\ data fig = []
    /\ (ax_title <$> xaxis (layout fig)) = Some (Some "Time")
    /\ (ax_title <$> yaxis (layout fig)) = Some (Some "pH").
Proof.
  intros Hf Hpath Hread Hsel.
  rewrite (update_graph_rebuild n sel cur relay stored du w f Hf Hpath).
  rewrite (rebuild_not_found sel _ _ _ w w1 df meta Hread Hsel).
  eexists. split; [reflexivity|]. by repeat split.
Qed.

(* --------------------------------------------------------------------- *)
(*  The view handed back                                                 *)
(* --------------------------------------------------------------------- *)

Lemma capture_view_stored (relay : option dict) (sv : dict) :
  truthy_dict relay = false -> sv <> ∅ -> capture_view relay (Some sv) = sv.
Proof.
  intros Hr Hs. unfold capture_view. rewrite Hr.
  destruct (truthy_dict (Some sv)) eqn:E; [done|].
  by apply truthy_dict_false in E.
Qed.

(** C5, amended. When the interaction payload is absent or empty and a
    non-empty view is stored, the capture step yields the stored view, and
    a tick on an existing file, unless it raises, hands this view back. *)
Theorem empty_payload_keeps_stored_view (n : Z) (sel : option string)
    (cur : option Figure) (relay : option dict) (sv : dict)
    (du : option DataUpdate) (w : World) (f : File) :
  files w !! FILE_PATH = Some f ->
  truthy_dict relay = false ->
  sv <> ∅ ->
  capture_view relay (Some sv) = sv
  /\ ((exists (e : Exn) (w' : World),
         update_graph L n sel cur relay (Some sv) du w = (Raise e, w'))
      \/ (exists (fig : Figure) (st : string) (du' : option DataUpdate) (w' : World),
            update_graph L n sel cur relay (Some sv) du w =
              (Ok (fig, st, du', Some sv), w'))).
Proof.
  intros Hf Hr Hs. pose proof (capture_view_stored relay sv Hr Hs) as Hc.
  split; [done|].
  destruct (update_graph L n sel cur relay (Some sv) du w)
    as [[[[[fig st] du'] v]|e] w'] eqn:E.
  - right. apply (update_graph_view n sel cur relay (Some sv) du w w' f) in E as Hv;
      [|done].
    rewrite Hc in Hv. subst v. eauto.
  - left. eauto.
Qed.

(* --------------------------------------------------------------------- *)
(*  The dropdown                                                         *)
(* --------------------------------------------------------------------- *)

Lemma read_csv_body_ph_cols (path : string) (w w' : World) (df : DataFrame)
    (meta : Metadata) :
  read_csv_body L path w = (Ok (Some (df, meta)), w') ->
  ph_cols meta <> [].
Proof.
  unfold read_csv_body, bind, ret.
  destruct (pd_read_csv path w) as [[df0|e] w0]; [|discriminate].
  destruct (resolve_time_col L df0 w0) as [[r|e] w2]; [|discriminate].
  destruct (verify_time_col (fst r) (snd r) w2) as [[tc|e] w3]; [|discriminate].
  destruct (find_ph_cols (fst r)) as [|c l].
  - unfold print. discriminate.
  - intros H. inversion H. simpl. discriminate.
Qed.

Lemma read_csv_data_ph_cols (path : string) (w w' : World) (df : DataFrame)
    (meta : Metadata) :
  read_csv_data L path w = (Ok (Some (df, meta)), w') ->
  ph_cols meta <> [].
Proof.
  unfold read_csv_data, bind, os_path_exists, try_except, print, ret.
  destruct (files w !! path) as [f|]; simpl; [|discriminate].
  destruct (read_csv_body L path w) as [[r|e] w1] eqn:E; [|discriminate].
  intros H. inversion H. subst. by eapply read_csv_body_ph_cols.
Qed.

(** C10, amended. On a tick of the dropdown that re-reads the file (the
    file is new to the callback, or no options are cached yet) and
    resolves its pH columns: a current selection that is None or not among
    the resolved columns is replaced by 'ph_total' if resolved, else by
    'pH_free' if resolved, else by the first resolved column; a current
    selection among the resolved columns is kept. *)
Theorem dropdown_default_selection (n : Z) (current_value : option string)
    (w w1 : World) (f : File) (df : DataFrame) (meta : Metadata) :
  files w !! FILE_PATH = Some f ->
  last_modified_time w <> Some (f_mtime f) \/ dropdown_options w = [] ->
  read_csv_data L FILE_PATH w = (Ok (Some (df, meta)), w1) ->
  exists (new_value : option string) (w' : World),
    update_dropdown L n current_value w =
      (Ok (map (fun c => (c, c)) (ph_cols meta), new_value), w')
    /\ dropdown_value w' = new_value
    /\ ((current_value = None
         \/ exists c, current_value = Some c /\ c ∉ ph_cols meta) ->
        ("ph_total" ∈ ph_cols meta -> new_value = Some "ph_total")
        /\ ("ph_total" ∉ ph_cols meta -> "pH_free" ∈ ph_cols meta ->
            new_value = Some "pH_free")
        /\ ("ph_total" ∉ ph_cols meta -> "pH_free" ∉ ph_cols meta ->
            is_Some new_value /\ new_value = head (ph_cols meta)))
    /\ (forall c, current_value = Some c -> c ∈ ph_cols meta -> new_value = Some c).
Proof.
  intros Hf Hmod Hread.
  pose proof (read_csv_data_ph_cols _ _ _ _ _ Hread) as Hne.
  unfold update_dropdown, bind, os_path_exists, os_path_getmtime, get_globals, ret.
  rewrite Hf. cbn -[read_csv_data needs_default in_list]. rewrite Hf.
  cbn -[read_csv_data needs_default in_list].
  assert (Hgo : negb (bool_decide (last_modified_time w = Some (f_mtime f)))
                || bool_decide (dropdown_options w = []) = true).
  { destruct Hmod as [Hm | Ho].
    - by rewrite (bool_decide_eq_false_2 _ Hm).
    - rewrite (bool_decide_eq_true_2 _ Ho). apply orb_true_r. }
  rewrite Hgo, Hread. cbn -[needs_default in_list].
  unfold needs_default, in_list.
  destruct (ph_cols meta) as [|c0 l] eqn:Hcols; [done|].
  destruct current_value as [c|].
  - destruct (bool_decide (c ∈ c0 :: l)) eqn:Hc.
    + apply bool_decide_eq_true in Hc.
      eexists _, _. split; [reflexivity|]. simpl. split; [done|]. split.
      * intros [?|(c' & [= <-] & Hn)]; [done|]. contradiction.
      * intros c' [= <-] _. done.
    + apply bool_decide_eq_false in Hc. simpl negb. cbv iota.
      destruct (bool_decide ("ph_total" ∈ c0 :: l)) eqn:Ht;
        [|destruct (bool_decide ("pH_free" ∈ c0 :: l)) eqn:Hp];
        simpl; (eexists _, _; split; [reflexivity|]); simpl;
        (split; [done|]); (split; [|intros c' [= <-] Hin; contradiction]); intros _;
        try apply bool_decide_eq_true in Ht; try apply bool_decide_eq_false in Ht;
        try apply bool_decide_eq_true in Hp; try apply bool_decide_eq_false in Hp;
        repeat split; intros; try contradiction; eauto.
  - destruct (bool_decide ("ph_total" ∈ c0 :: l)) eqn:Ht;
      [|destruct (bool_decide ("pH_free" ∈ c0 :: l)) eqn:Hp];
      simpl; (eexists _, _; split; [reflexivity|]); simpl;
      (split; [done|]); (split; [|intros c' [=]]); intros _;
      try apply bool_decide_eq_true in Ht; try apply bool_decide_eq_false in Ht;
      try apply bool_decide_eq_true in Hp; try apply bool_decide_eq_false in Hp;
      repeat split; intros; try contradiction; eauto.
Qed.

End Ticks.

(* --------------------------------------------------------------------- *)
(*  The claims at concrete inputs                                        *)
(* --------------------------------------------------------------------- *)


Lemma view_ranges_kept_on_both_paths_witness :
  (exists (fig : Figure) (st : string) (du' : option DataUpdate) (w' : World),
     update_graph Sample.library 0 (Some "pH_free") (Some Sample.cached_figure)
                  (Some Sample.zoom) None (Some (mkDataUpdate 100 (Some "pH_free")))
                  (Sample.world Sample.table) =
       (Ok (fig, st, du', Some (capture_view (Some Sample.zoom) None)), w')
     /\ (ax_range <$> xaxis (layout fig)) = Some (Some (JNum 2, JNum 5))
     /\ (ax_range <$> yaxis (layout fig)) = Some (Some (JNum 6, JNum 9)))
  /\
  (exists (fig : Figure) (st : string) (du' : option DataUpdate) (w' : World),
     update_graph Sample.library 0 (Some "pH_free") None
                  None (Some Sample.zoom) None (Sample.world Sample.table) =
       (Ok (fig, st, du', Some (capture_view None (Some Sample.zoom))), w')
     /\ (ax_range <$> xaxis (layout fig)) = Some (Some (JNum 2, JNum 5))
     /\ (ax_range <$> yaxis (layout fig)) = Some (Some (JNum 6, JNum 9))).
Proof.
  split.
  - apply (view_ranges_kept_on_both_paths Sample.library 0 (Some "pH_free")
             (Some Sample.cached_figure) (Some Sample.zoom) None
             (Some (mkDataUpdate 100 (Some "pH_free"))) (Sample.world Sample.table)
             (mkFile 100 (Ok Sample.table)));
      [reflexivity..|].
    left. unfold on_reuse_path.
    eexists _, _, _, _. repeat split; reflexivity.
  - apply (view_ranges_kept_on_both_paths Sample.library 0 (Some "pH_free")
             None None (Some Sample.zoom) None (Sample.world Sample.table)
             (mkFile 100 (Ok Sample.table)));
      [reflexivity..|].
    right. unfold on_rebuild_path. split; [by left|].
    eexists Sample.table, (mkMetadata "samp_num" ["pH_free"]), _, "pH_free", _, _.
    repeat split; reflexivity.
Defined.

(** C2, as stated, fails: a rebuild whose read gives no dataset (here
    pd.read_csv raises) returns the "Error reading data file" chart, which
    has no axis range, whatever the view holds. *)
Lemma explicit_ranges_on_both_paths_fails : ~ explicit_ranges_on_both_paths.
Proof.
  intros H.
  destruct (H Sample.library 0%Z (Some "pH_free") None None (Some Sample.zoom) None
              Case.broken_file (mkFile 100 (Raise Case.empty_data_error))
              2%Q 5%Q 6%Q 9%Q eq_refl eq_refl eq_refl eq_refl eq_refl)
    as (fig & st & du' & v & w' & Heq & Hx & _).
  rewrite (update_graph_read_failure Sample.library 0 (Some "pH_free") None None
             (Some Sample.zoom) None Case.broken_file _
             (mkFile 100 (Raise Case.empty_data_error)) eq_refl (or_introl eq_refl)
             (read_csv_data_parse_error Sample.library FILE_PATH Case.broken_file
                (mkFile 100 (Raise Case.empty_data_error)) Case.empty_data_error
                eq_refl eq_refl)) in Heq.
  injection Heq as <- _ _ _ _. discriminate Hx.
Qed.

(** C3, as stated, fails: with 'pH_free' charted and cached, selecting
    'ph_total', which the file does not have, gives the placeholder and
    hands back the fingerprint (100, 'ph_total') in place of the cached
    (100, 'pH_free'). *)
Lemma unknown_metric_keeps_cache_fails : ~ unknown_metric_keeps_cache.
Proof.
  intros H.
  destruct (H Sample.library 0%Z (Some "ph_total") (Some Sample.cached_figure)
              None None (Some (mkDataUpdate 100 (Some "pH_free")))
              (Sample.world Sample.table)
              (extend (Sample.world Sample.table) [] [CallReadCsv FILE_PATH])
              Sample.table (mkMetadata "samp_num" ["pH_free"]))
    as (fig & st & du' & v & w' & Heq & _ & ->).
  - reflexivity.
  - intros m [= <-]. simpl. by intros ?%list_elem_of_singleton.
  - vm_compute in Heq. discriminate.
Qed.

Lemma unknown_metric_placeholder_is_cached_witness :
  exists fig : Figure,
    update_graph Sample.library 0 (Some "ph_total") (Some Sample.cached_figure)
                 None None (Some (mkDataUpdate 100 (Some "pH_free")))
                 (Sample.world Sample.table) =
      (Ok (fig, "Last updated: 2024-01-01 00:00:00",
           Some (mkDataUpdate 100 (Some "ph_total")),
           Some (capture_view None None)),
       extend (Sample.world Sample.table) [] [CallReadCsv FILE_PATH])
    /\ title (layout fig) = Some "Error: Selected column 'ph_total' not found"
    /\ data fig = []
    /\ (ax_title <$> xaxis (layout fig)) = Some (Some "Time")
    /\ (ax_title <$> yaxis (layout fig)) = Some (Some "pH").
Proof.
  apply (unknown_metric_placeholder_is_cached Sample.library 0 (Some "ph_total")
           (Some Sample.cached_figure) None None
           (Some (mkDataUpdate 100 (Some "pH_free"))) (Sample.world Sample.table)
           (extend (Sample.world Sample.table) [] [CallReadCsv FILE_PATH])
           (mkFile 100 (Ok Sample.table)) Sample.table
           (mkMetadata "samp_num" ["pH_free"]));
    [reflexivity | right; reflexivity | reflexivity | reflexivity].
Defined.

(** C5, as stated, fails: with a zoom stored, a payload that only says
    the drag mode changed makes the tick hand back the empty view. *)
Lemma payload_without_view_keys_keeps_view_fails :
  ~ payload_without_view_keys_keeps_view.
Proof.
  intros H.
  destruct (update_graph Sample.library 0 (Some "pH_free")
              (Some Sample.cached_figure) (Some {["dragmode" := JStr "pan"]})
              (Some Sample.zoom) (Some (mkDataUpdate 100 (Some "pH_free")))
              (Sample.world Sample.table))
    as [[[[[fig st] du'] v]|e] w'] eqn:E.
  - pose proof (update_graph_view Sample.library _ _ _ _ _ _ (Sample.world Sample.table)
                  _ (mkFile 100 (Ok Sample.table)) _ _ _ _ eq_refl E) as Hv.
    apply H in E.
    + subst v.
      assert (Hk : capture_view (Some {["dragmode" := JStr "pan"]}) (Some Sample.zoom)
                     !! "xaxis.range[0]" = Sample.zoom !! "xaxis.range[0]")
        by congruence.
      vm_compute in Hk. discriminate Hk.
    + intros rd k [= <-] [x Hx].
      apply lookup_singleton_Some in Hx as [<- _]. reflexivity.
  - destruct (reuse_tick_result Sample.library 0 (Some "pH_free") Sample.cached_figure
                (Some {["dragmode" := JStr "pan"]}) (Some Sample.zoom)
                (mkDataUpdate 100 (Some "pH_free")) (Sample.world Sample.table)
                (mkFile 100 (Ok Sample.table)) _ _ eq_refl eq_refl eq_refl eq_refl eq_refl)
      as (fig & Heq & _).
    congruence.
Qed.

Lemma empty_payload_keeps_stored_view_witness :
  capture_view None (Some Sample.zoom) = Sample.zoom
  /\ ((exists (e : Exn) (w' : World),
         update_graph Sample.library 0 (Some "pH_free") (Some Sample.cached_figure)
                      None (Some Sample.zoom) (Some (mkDataUpdate 100 (Some "pH_free")))
                      (Sample.world Sample.table) = (Raise e, w'))
      \/ (exists (fig : Figure) (st : string) (du' : option DataUpdate) (w' : World),
            update_graph Sample.library 0 (Some "pH_free")
                         (Some Sample.cached_figure) None (Some Sample.zoom)
                         (Some (mkDataUpdate 100 (Some "pH_free")))
                         (Sample.world Sample.table) =
              (Ok (fig, st, du', Some Sample.zoom), w'))).
Proof.
  apply (empty_payload_keeps_stored_view Sample.library 0 (Some "pH_free")
           (Some Sample.cached_figure) None Sample.zoom
           (Some (mkDataUpdate 100 (Some "pH_free"))) (Sample.world Sample.table)
           (mkFile 100 (Ok Sample.table)));
    [reflexivity | reflexivity |].
  intros E. apply (f_equal (fun view : dict => view !! "xaxis.range[0]")) in E.
  vm_compute in E. discriminate E.
Defined.

(* --------------------------------------------------------------------- *)
(*  A file without time and sample-number columns                        *)
(* --------------------------------------------------------------------- *)

(** C7, at a file whose only column is 'pH_free': the reader resolves the
    time column to 'samp_num', which the dataset does not have; the first
    column of the dataset, 'pH_free', is not taken. Only the demotion of
    an unparseable time column (line 44) looks at df.columns[0]. *)
Theorem time_col_resolves_to_absent_samp_num
    (L : Library) :
  fst (read_csv_data L FILE_PATH (Sample.world Sample.table_ph_only))
    = Ok (Some (Sample.table_ph_only, mkMetadata "samp_num" ["pH_free"]))
  /\ has_col Sample.table_ph_only "samp_num" = false
  /\ head (columns Sample.table_ph_only) = Some "pH_free".
Proof. repeat split; vm_compute; reflexivity. Qed.

(** C8, at the same file with 'pH_free' selected: the tick raises
    KeyError('samp_num') out of update_graph, where line 259 indexes the
    frame by the time column the reader resolved. *)
Theorem tick_raises_on_absent_samp_num
    (L : Library) :
  fst (update_graph L 0 (Some "pH_free") None None None None
         (Sample.world Sample.table_ph_only))
    = Raise (KeyError "samp_num").
Proof. vm_compute. reflexivity. Qed.

Lemma dropdown_default_selection_witness :
  exists (new_value : option string) (w' : World),
    update_dropdown Sample.library 0 (Some "pH_old") (Sample.world Sample.table) =
      (Ok ([("pH_free", "pH_free")], new_value), w')
    /\ dropdown_value w' = new_value
    /\ ((Some "pH_old" = None
         \/ exists c, Some "pH_old" = Some c /\ c ∉ ["pH_free"]) ->
        ("ph_total" ∈ ["pH_free"] -> new_value = Some "ph_total")
        /\ ("ph_total" ∉ ["pH_free"] -> "pH_free" ∈ ["pH_free"] ->
            new_value = Some "pH_free")
        /\ ("ph_total" ∉ ["pH_free"] -> "pH_free" ∉ ["pH_free"] ->
            is_Some new_value /\ new_value = Some "pH_free"))
    /\ (forall c, Some "pH_old" = Some c -> c ∈ ["pH_free"] -> new_value = Some c).
Proof.
  apply (dropdown_default_selection Sample.library 0 (Some "pH_old")
           (Sample.world Sample.table)
           (extend (Sample.world Sample.table) [] [CallReadCsv FILE_PATH])
           (mkFile 100 (Ok Sample.table)) Sample.table
           (mkMetadata "samp_num" ["pH_free"]));
    [reflexivity | left; discriminate | reflexivity].
Defined.

(** C10, as stated, fails: once the dropdown has chosen 'ph_total' for a
    file with the two pH columns, a call with the selection 'pH_free',
    which is one of them, on the unmodified file returns 'ph_total'. *)
Lemma selection_kept_or_defaulted_fails : ~ selection_kept_or_defaulted.
Proof.
  intros H.
  assert (Hr : read_csv_data Sample.library FILE_PATH Case.steady_both =
               (Ok (Some (Case.table_both, mkMetadata "samp_num" ["pH_free"; "ph_total"])),
                extend Case.steady_both [] [CallReadCsv FILE_PATH]))
    by (vm_compute; reflexivity).
  assert (Hu : update_dropdown Sample.library 1 (Some "pH_free") Case.steady_both =
               (Ok ([("pH_free", "pH_free"); ("ph_total", "ph_total")], Some "ph_total"),
                Case.steady_both))
    by (vm_compute; reflexivity).
  destruct (H _ _ _ _ _ _ _ _ _ _ Hr Hu) as [_ Hkeep].
  specialize (Hkeep "pH_free" eq_refl (list_elem_of_here _ _)). discriminate Hkeep.
Qed.

(* ===================================================================== *)
(*  Further properties of the three functions                            *)
(* ===================================================================== *)

(* --------------------------------------------------------------------- *)
(*  What a computation may change in the world                           *)
(* --------------------------------------------------------------------- *)

Lemma prints_ret {A} (a : A) : prints (ret a).
Proof. intros w w' r [= <- <-]. exists []. by rewrite extend_nil. Qed.

Lemma prints_raise {A} (e : Exn) : prints (@raise A e).
Proof. intros w w' r [= <- <-]. exists []. by rewrite extend_nil. Qed.

Lemma prints_lift {A} (r : Res A) : prints (lift r).
Proof. intros w w' r' [= <- <-]. exists []. by rewrite extend_nil. Qed.

Lemma prints_print (line : string) : prints (print line).
Proof.
  intros w w' r [= <- <-]. exists [line]. unfold extend. by rewrite app_nil_r.
Qed.

Lemma prints_bind {A B} (c : M A) (k : A -> M B) :
  prints c -> (forall a, prints (k a)) -> prints (bind c k).
Proof.
  intros Hc Hk w w' r. unfold bind.
  destruct (c w) as [[a|e] w1] eqn:E; apply Hc in E as [o ->].
  - intros H. apply Hk in H as [o' ->]. exists (o ++ o'). by rewrite extend_extend.
  - intros [= <- <-]. by exists o.
Qed.

Lemma prints_try_except {A} (c : M A) (h : Exn -> M A) :
  prints c -> (forall e, prints (h e)) -> prints (try_except c h).
Proof.
  intros Hc Hh w w' r. unfold try_except.
  destruct (c w) as [[a|e] w1] eqn:E; apply Hc in E as [o ->].
  - intros [= <- <-]. by exists o.
  - intros H. apply Hh in H as [o' ->]. exists (o ++ o'). by rewrite extend_extend.
Qed.

Lemma prints_getitem (name : string) (df : DataFrame) : prints (getitem name df).
Proof. unfold getitem. destruct (df_get name df); [apply prints_ret | apply prints_raise]. Qed.

Lemma prints_appends {A} (c : M A) : prints c -> appends c.
Proof. intros Hc w w' r H. apply Hc in H as [o ->]. by exists o, []. Qed.

Lemma appends_log_call (c : Call) : appends (log_call c).
Proof.
  intros w w' r [= <- <-]. exists [], [c]. unfold extend. by rewrite app_nil_r.
Qed.

Lemma appends_bind {A B} (c : M A) (k : A -> M B) :
  appends c -> (forall a, appends (k a)) -> appends (bind c k).
Proof.
  intros Hc Hk w w' r. unfold bind.
  destruct (c w) as [[a|e] w1] eqn:E; apply Hc in E as (o & cl & ->).
  - intros H. apply Hk in H as (o' & cl' & ->).
    exists (o ++ o'), (cl ++ cl'). by rewrite extend_extend.
  - intros [= <- <-]. by exists o, cl.
Qed.

Lemma appends_try_except {A} (c : M A) (h : Exn -> M A) :
  appends c -> (forall e, appends (h e)) -> appends (try_except c h).
Proof.
  intros Hc Hh w w' r. unfold try_except.
  destruct (c w) as [[a|e] w1] eqn:E; apply Hc in E as (o & cl & ->).
  - intros [= <- <-]. by exists o, cl.
  - intros H. apply Hh in H as (o' & cl' & ->).
    exists (o ++ o'), (cl ++ cl'). by rewrite extend_extend.
Qed.

Lemma appends_reads {A} (f : World -> Res A) : appends (fun w => (f w, w)).
Proof. intros w w' r [= <- <-]. exists [], []. by rewrite extend_nil. Qed.

Lemma appends_ret {A} (a : A) : appends (ret a).
Proof. apply prints_appends, prints_ret. Qed.

Lemma appends_raise {A} (e : Exn) : appends (@raise A e).
Proof. apply prints_appends, prints_raise. Qed.

Lemma appends_lift {A} (r : Res A) : appends (lift r).
Proof. apply prints_appends, prints_lift. Qed.

Lemma appends_print (line : string) : appends (print line).
Proof. apply prints_appends, prints_print. Qed.

Lemma appends_getitem (name : string) (df : DataFrame) : appends (getitem name df).
Proof. apply prints_appends, prints_getitem. Qed.

Lemma appends_datetime_now : appends datetime_now.
Proof. apply (appends_reads (fun w => Ok (now w))). Qed.

Lemma appends_exists (path : string) : appends (os_path_exists path).
Proof.
  apply (appends_reads
           (fun w => Ok (match files w !! path with Some _ => true | None => false end))).
Qed.

Lemma appends_getmtime (path : string) : appends (os_path_getmtime path).
Proof.
  intros w w' r. unfold os_path_getmtime.
  destruct (files w !! path); intros [= <- <-]; exists [], []; by rewrite extend_nil.
Qed.

Lemma appends_pd_read_csv (path : string) : appends (pd_read_csv path).
Proof.
  unfold pd_read_csv. apply appends_bind; [apply appends_log_call|]. intros _.
  intros w w' r. destruct (files w !! path) as [f|];
    intros [= <- <-]; exists [], []; by rewrite extend_nil.
Qed.

Create HintDb effects.
#[local] Hint Resolve prints_ret prints_raise prints_lift prints_print prints_getitem
  appends_ret appends_raise appends_lift appends_print appends_getitem appends_log_call
  appends_datetime_now appends_exists appends_getmtime appends_pd_read_csv : effects.

(* one step of a proof that a computation only prints, or only appends *)
Ltac effects_step :=
  match goal with
  | |- prints (bind _ _) => apply prints_bind; [|intros ?]
  | |- prints (try_except _ _) => apply prints_try_except; [|intros ?]
  | |- prints (if ?b then _ else _) => destruct b
  | |- prints (match ?x with _ => _ end) => destruct x
  | |- appends (bind _ _) => apply appends_bind; [|intros ?]
  | |- appends (try_except _ _) => apply appends_try_except; [|intros ?]
  | |- appends (if ?b then _ else _) => destruct b
  | |- appends (match ?x with _ => _ end) => destruct x
  | |- prints _ => solve [auto with effects]
  | |- appends _ => solve [auto with effects]
  end.

Section Further.

Variable L : Library.

Lemma prints_pd_to_datetime (fmt : option string) (s : Series) :
  prints (pd_to_datetime L fmt s).
Proof. unfold pd_to_datetime. repeat effects_step. Qed.

Lemma prints_resolve_time_col (df : DataFrame) : prints (resolve_time_col L df).
Proof. pose proof prints_pd_to_datetime. unfold resolve_time_col. repeat effects_step. Qed.

Lemma prints_verify_time_col (df : DataFrame) (tc : string) : prints (verify_time_col df tc).
Proof. unfold verify_time_col. repeat effects_step. Qed.

Lemma appends_read_csv_data (path : string) : appends (read_csv_data L path).
Proof.
  pose proof (fun df => prints_appends _ (prints_resolve_time_col df)).
  pose proof (fun df tc => prints_appends _ (prints_verify_time_col df tc)).
  unfold read_csv_data, read_csv_body. repeat effects_step.
Qed.

Lemma appends_classify (df : DataFrame) (m : string) : appends (classify L df m).
Proof.
  unfold classify, series_fence_mask, numeric_quantile, other_quantile.
  repeat effects_step.
Qed.

Lemma appends_add_traces (df dn dout : DataFrame) (tc m : string) (fig : Figure) :
  appends (add_traces L df dn dout tc m fig).
Proof. unfold add_traces. repeat effects_step. Qed.

Lemma appends_plot_metric (df : DataFrame) (tc m : string) (view : dict) (fig : Figure) :
  appends (plot_metric L df tc m view fig).
Proof.
  pose proof appends_classify. pose proof appends_add_traces.
  unfold plot_metric. repeat effects_step.
Qed.

Lemma appends_patch_cached_figure (view : dict) (fig : Figure) :
  appends (patch_cached_figure view fig).
Proof.
  unfold patch_cached_figure, dict_set_xrange, dict_set_yrange. repeat effects_step.
Qed.

Lemma appends_rebuild (sel : option string) (ut : string) (mt : Z) (view : dict) :
  appends (rebuild L sel ut mt view).
Proof.
  pose proof appends_read_csv_data. pose proof appends_plot_metric.
  unfold rebuild. repeat effects_step.
Qed.

Lemma appends_update_graph (n : Z) (sel : option string) (cur : option Figure)
    (relay stored : option dict) (du : option DataUpdate) :
  appends (update_graph L n sel cur relay stored du).
Proof.
  pose proof appends_rebuild. pose proof appends_patch_cached_figure.
  unfold update_graph. repeat effects_step.
Qed.

(** X1 (update_graph). A tick, however it ends, leaves the files, the clock
    and the three globals of the dropdown as they are: all it does to the
    world is print and log calls. *)
Theorem update_graph_keeps_files_and_globals (n : Z) (sel : option string)
    (cur : option Figure) (relay stored : option dict) (du : option DataUpdate)
    (w : World) :
  let w' := snd (update_graph L n sel cur relay stored du w) in
  files w' = files w
  /\ now w' = now w
  /\ last_modified_time w' = last_modified_time w
  /\ dropdown_options w' = dropdown_options w
  /\ dropdown_value w' = dropdown_value w
  /\ exists (out : list string) (cl : list Call),
       stdout w' = stdout w ++ out /\ calls w' = calls w ++ cl.
Proof.
  pose proof (appends_update_graph n sel cur relay stored du) as Ha.
  destruct (update_graph L n sel cur relay stored du w) as [r w'] eqn:E.
  apply Ha in E as (out & cl & ->). simpl. repeat split. by exists out, cl.
Qed.

(* --------------------------------------------------------------------- *)
(*  The reader, step by step                                             *)
(* --------------------------------------------------------------------- *)

Lemma columns_df_set (df : DataFrame) (name : string) (s : Series) :
  has_col df name = true -> columns (df_set name s df) = columns df.
Proof.
  intros H. apply has_col_df_get in H as [s0 H]. revert H.
  induction df as [|[c s1] df IH]; simpl; [discriminate|].
  destruct (String.eqb_spec c name) as [->|Hne]; simpl; [done|].
  intros H. f_equal. by apply IH.
Qed.

Lemma df_get_set_ne (df : DataFrame) (name other : string) (s : Series) :
  other <> name -> df_get other (df_set name s df) = df_get other df.
Proof.
  intros Hne. induction df as [|[c s1] df IH]; simpl.
  - destruct (String.eqb_spec name other); [congruence | done].
  - destruct (String.eqb_spec c name) as [->|Hc]; simpl.
    + destruct (String.eqb_spec name other); [congruence | done].
    + destruct (String.eqb c other); [done | apply IH].
Qed.

Lemma df_get_set_eq (df : DataFrame) (name : string) (s : Series) :
  df_get name (df_set name s df) = Some s.
Proof.
  induction df as [|[c s1] df IH]; simpl.
  - by rewrite String.eqb_refl.
  - destruct (String.eqb_spec c name) as [->|Hc]; simpl.
    + by rewrite String.eqb_refl.
    + destruct (String.eqb_spec c name); [congruence | apply IH].
Qed.

Lemma has_col_columns (df1 df2 : DataFrame) (name : string) :
  columns df1 = columns df2 -> has_col df1 name = has_col df2 name.
Proof. unfold has_col. by intros ->. Qed.

Lemma find_ph_cols_columns (df1 df2 : DataFrame) :
  columns df1 = columns df2 -> find_ph_cols df1 = find_ph_cols df2.
Proof.
  intros H. unfold find_ph_cols.
  by rewrite !(has_col_columns df1 df2 _ H), H.
Qed.

Lemma resolve_time_col_inv (df df' : DataFrame) (tc : string) (w w' : World) :
  resolve_time_col L df w = (Ok (df', tc), w') ->
  w' = w
  /\ ((has_col df "pc_time" = true /\ tc = "pc_time"
       /\ exists t, df' = df_set "pc_time" (Datetime64 t) df)
      \/ (has_col df "pc_time" = false /\ has_col df "ph_time" = true
          /\ tc = "ph_time" /\ exists t, df' = df_set "ph_time" (Datetime64 t) df)
      \/ (has_col df "pc_time" = false /\ has_col df "ph_time" = false
          /\ tc = "samp_num" /\ df' = df)).
Proof.
  unfold resolve_time_col, bind, getitem, try_except, pd_to_datetime, ret, raise.
  destruct (has_col df "pc_time") eqn:Hpc.
  - destruct (df_get "pc_time" df) as [s|]; [|discriminate].
    destruct (to_datetime L None s) as [t|e]; [|discriminate].
    intros [= <- <- <-]. split; [done|]. left. eauto.
  - destruct (has_col df "ph_time") eqn:Hph.
    + destruct (df_get "ph_time" df) as [s|]; [|discriminate].
      destruct (to_datetime L None s) as [t|e].
      * intros [= <- <- <-]. split; [done|]. right. left. eauto.
      * destruct (to_datetime L (Some "%m/%d/%Y %H:%M:%S") s) as [t|e'];
          [|discriminate].
        intros [= <- <- <-]. split; [done|]. right. left. eauto.
    + intros [= <- <- <-]. split; [done|]. right. right. eauto.
Qed.

Lemma verify_time_col_inv (df : DataFrame) (tc tc' : string) (w w' : World) :
  verify_time_col df tc w = (Ok tc', w') ->
  tc' = tc
  \/ (Py.contains "time" (Py.lower tc) = true
      /\ (exists s, df_get tc df = Some s /\ isna_all s = true)
      /\ tc' = if has_col df "samp_num" then "samp_num"
               else default tc (head (columns df))).
Proof.
  unfold verify_time_col, bind, getitem, print, ret, raise.
  destruct (Py.contains "time" (Py.lower tc)) eqn:Hname; [|intros [= <- _]; by left].
  destruct (df_get tc df) as [s|] eqn:Hget; [|discriminate].
  destruct (isna_all s) eqn:Hna; [|intros [= <- _]; by left].
  right. split; [done|]. split; [eauto|].
  revert H. cbn. destruct (has_col df "samp_num"); [by intros [= <- _]|].
  destruct (columns df) as [|c l]; [discriminate|]. by intros [= <- _].
Qed.

(* what a successful read is made of *)
Lemma read_csv_data_inv (path : string) (w w' : World) (f : File)
    (df' : DataFrame) (meta : Metadata) :
  files w !! path = Some f ->
  read_csv_data L path w = (Ok (Some (df', meta)), w') ->
  exists (df : DataFrame) (tc : string),
    f_table f = Ok df
    /\ ((has_col df "pc_time" = true /\ tc = "pc_time"
         /\ exists t, df' = df_set "pc_time" (Datetime64 t) df)
        \/ (has_col df "pc_time" = false /\ has_col df "ph_time" = true
            /\ tc = "ph_time" /\ exists t, df' = df_set "ph_time" (Datetime64 t) df)
        \/ (has_col df "pc_time" = false /\ has_col df "ph_time" = false
            /\ tc = "samp_num" /\ df' = df))
    /\ (time_col meta = tc
        \/ (Py.contains "time" (Py.lower tc) = true
            /\ (exists s, df_get tc df' = Some s /\ isna_all s = true)
            /\ time_col meta = if has_col df' "samp_num" then "samp_num"
                               else default tc (head (columns df'))))
    /\ ph_cols meta = find_ph_cols df'
    /\ ph_cols meta <> [].
Proof.
  intros Hf. unfold read_csv_data, bind, os_path_exists, try_except.
  rewrite Hf. simpl.
  destruct (read_csv_body L path w) as [[r|e] w1] eqn:E;
    [|unfold print; discriminate].
  intros [= -> ->]. revert E.
  unfold read_csv_body, bind, pd_read_csv, bind, log_call. simpl. rewrite Hf.
  destruct (f_table f) as [df|e0]; [|discriminate].
  destruct (resolve_time_col L df _) as [[[df1 tc]|e] w2] eqn:Hres;
    [|discriminate].
  apply resolve_time_col_inv in Hres as [-> Hres]. simpl fst. simpl snd.
  destruct (verify_time_col df1 tc _) as [[tc'|e] w3] eqn:Hver; [|discriminate].
  apply verify_time_col_inv in Hver. cbn [fst].
  destruct (find_ph_cols df1) as [|c l] eqn:Hph; [unfold ret; discriminate|].
  unfold ret. intros [= <- <- <-]. exists df, tc. simpl. repeat split; try done.
Qed.

Lemma head_columns_has_col (df : DataFrame) (c : string) :
  head (columns df) = Some c -> has_col df c = true.
Proof.
  destruct df as [|[c0 s0] df]; [discriminate|]. intros [= <-].
  unfold has_col. apply bool_decide_eq_true. simpl. apply list_elem_of_here.
Qed.

Lemma read_csv_data_keeps_columns_aux (path : string) (w w' : World) (f : File)
    (df df' : DataFrame) (meta : Metadata) :
  files w !! path = Some f ->
  f_table f = Ok df ->
  read_csv_data L path w = (Ok (Some (df', meta)), w') ->
  ph_cols meta = find_ph_cols df /\ ph_cols meta <> [].
Proof.
  intros Hf Ht Hread.
  destruct (read_csv_data_inv path w w' f df' meta Hf Hread)
    as (df0 & tc & Ht0 & Hres & _ & Hph & Hne).
  rewrite Ht in Ht0. injection Ht0 as <-. split; [|done]. rewrite Hph.
  apply find_ph_cols_columns.
  destruct Hres as [(Hpc & _ & t & ->) | [(_ & Hp & _ & t & ->) | (_ & _ & _ & ->)]];
    [by apply columns_df_set.. | done].
Qed.

(** X2 (read_csv_data). A successful read hands back the table of the file
    with the same columns in the same order; every column other than
    'pc_time' and 'ph_time' is untouched, 'ph_time' is left as read when
    'pc_time' is there, and the pH columns are those found by name in the
    file's table. *)
Theorem read_csv_data_keeps_columns (path : string) (w w' : World) (f : File)
    (df df' : DataFrame) (meta : Metadata) :
  files w !! path = Some f ->
  f_table f = Ok df ->
  read_csv_data L path w = (Ok (Some (df', meta)), w') ->
  columns df' = columns df
  /\ (forall name, name <> "pc_time" -> name <> "ph_time" ->
        df_get name df' = df_get name df)
  /\ (has_col df "pc_time" = true -> df_get "ph_time" df' = df_get "ph_time" df)
  /\ ph_cols meta = find_ph_cols df.
Proof.
  intros Hf Ht Hread.
  destruct (read_csv_data_inv path w w' f df' meta Hf Hread)
    as (df0 & tc & Ht0 & Hres & _ & Hph & _).
  rewrite Ht in Ht0. injection Ht0 as <-.
  destruct Hres as [(Hpc & -> & t & ->) | [(Hpc & Hp & -> & t & ->) | (Hpc & Hp & -> & ->)]].
  - pose proof (columns_df_set df "pc_time" (Datetime64 t) Hpc) as Hc.
    repeat split; [done | | |].
    + intros name H1 _. by apply df_get_set_ne.
    + intros _. by apply df_get_set_ne.
    + rewrite Hph. by apply find_ph_cols_columns.
  - pose proof (columns_df_set df "ph_time" (Datetime64 t) Hp) as Hc.
    repeat split; [done | | |].
    + intros name _ H2. by apply df_get_set_ne.
    + congruence.
    + rewrite Hph. by apply find_ph_cols_columns.
  - by repeat split.
Qed.

(** X3 (read_csv_data). The time column a successful read resolves is a
    column of the dataset it returns, except in one case: the file has
    neither 'pc_time' nor 'ph_time' nor 'samp_num', and the read still
    answers 'samp_num'. *)
Theorem resolved_time_col_is_a_column_or_absent_samp_num (path : string)
    (w w' : World) (f : File) (df' : DataFrame) (meta : Metadata) :
  files w !! path = Some f ->
  read_csv_data L path w = (Ok (Some (df', meta)), w') ->
  has_col df' (time_col meta) = true
  \/ (time_col meta = "samp_num"
      /\ has_col df' "pc_time" = false
      /\ has_col df' "ph_time" = false
      /\ has_col df' "samp_num" = false).
Proof.
  intros Hf Hread.
  destruct (read_csv_data_inv path w w' f df' meta Hf Hread)
    as (df & tc & _ & Hres & Hver & _ & _).
  assert (Hdem : forall tc0, has_col df' tc0 = true ->
            has_col df' (if has_col df' "samp_num" then "samp_num"
                         else default tc0 (head (columns df'))) = true).
  { intros tc0 Htc0. destruct (has_col df' "samp_num") eqn:Hs; [done|].
    destruct (head (columns df')) as [c|] eqn:Hh; simpl; [|done].
    by apply head_columns_has_col. }
  destruct Hres as [(Hpc & -> & t & ->) | [(Hpc & Hp & -> & t & ->) | (Hpc & Hp & -> & ->)]].
  - left.
    assert (Hin : has_col (df_set "pc_time" (Datetime64 t) df) "pc_time" = true)
      by (apply has_col_df_get; rewrite df_get_set_eq; eauto).
    destruct Hver as [-> | (_ & _ & ->)]; [done | by apply Hdem].
  - left.
    assert (Hin : has_col (df_set "ph_time" (Datetime64 t) df) "ph_time" = true)
      by (apply has_col_df_get; rewrite df_get_set_eq; eauto).
    destruct Hver as [-> | (_ & _ & ->)]; [done | by apply Hdem].
  - destruct Hver as [Htc | (Hname & _)]; [|discriminate].
    rewrite Htc. destruct (has_col df "samp_num") eqn:Hs; [by left | by right].
Qed.

(** X4 (read_csv_data). A file whose table has no pH column by name gives
    no dataset: the read returns None (and does not raise), whatever the
    time columns are and whatever their parsing does. *)
Theorem read_without_ph_columns_gives_nothing (path : string) (w : World) (f : File)
    (df : DataFrame) :
  files w !! path = Some f ->
  f_table f = Ok df ->
  find_ph_cols df = [] ->
  exists w' : World, read_csv_data L path w = (Ok None, w').
Proof.
  intros Hf Ht Hnone.
  destruct (read_csv_data_total L path w) as ([[df' meta]|] & w' & Hread);
    [|eauto].
  destruct (read_csv_data_keeps_columns_aux path w w' f df df' meta Hf Ht Hread)
    as [Hph Hne].
  congruence.
Qed.

Lemma prefix_lower (p s : string) :
  String.prefix p s = true -> String.prefix (Py.lower p) (Py.lower s) = true.
Proof.
  revert p. induction s as [|b s IH]; intros [|a p]; simpl; try done.
  destruct (ascii_dec a b) as [->|]; [|done].
  intros H. destruct (ascii_dec (Py.lower_ascii b) (Py.lower_ascii b)); [auto | done].
Qed.

Lemma contains_lower (sub s : string) :
  Py.contains sub s = true -> Py.contains (Py.lower sub) (Py.lower s) = true.
Proof.
  induction s as [|b s IH].
  - apply (prefix_lower sub EmptyString).
  - cbn [Py.contains Py.lower]. rewrite !orb_true_iff. intros [H|H].
    + left. apply (prefix_lower sub (String b s) H).
    + right. auto.
Qed.

Lemma find_ph_cols_sound_aux (df : DataFrame) (c : string) :
  c ∈ find_ph_cols df -> Py.contains "ph" (Py.lower c) = true.
Proof.
  unfold find_ph_cols.
  destruct (has_col df "pH_free"), (has_col df "ph_total"); simpl.
  - intros H. apply elem_of_cons in H as [->|H];
      [done | by apply list_elem_of_singleton in H as ->].
  - by intros ->%list_elem_of_singleton.
  - by intros ->%list_elem_of_singleton.
  - intros H. apply list_elem_of_In, filter_In in H as [_ Hc].
    apply andb_true_iff in Hc as [Hph _].
    apply orb_true_iff in Hph as [Hph|Hph]; [done|].
    apply (contains_lower "pH" c Hph).
Qed.

(** X5 (read_csv_data, lines 47-55). Every resolved pH column is a column of
    the dataset, has "ph" in its lower-cased name and no "time"; and when
    'pH_free' or 'ph_total' is a column, nothing but these two is
    resolved, whatever other columns look like pH. *)
Theorem find_ph_cols_sound (df : DataFrame) (c : string) :
  c ∈ find_ph_cols df ->
  c ∈ columns df
  /\ Py.contains "ph" (Py.lower c) = true
  /\ Py.contains "time" (Py.lower c) = false
  /\ (has_col df "pH_free" || has_col df "ph_total" = true ->
      c = "pH_free" \/ c = "ph_total").
Proof.
  unfold find_ph_cols.
  destruct (has_col df "pH_free") eqn:Hf, (has_col df "ph_total") eqn:Ht; simpl.
  - intros H. apply elem_of_cons in H as [->|H];
      [|apply list_elem_of_singleton in H as ->].
    + apply bool_decide_eq_true in Hf. by repeat split; auto.
    + apply bool_decide_eq_true in Ht. by repeat split; auto.
  - intros H. apply list_elem_of_singleton in H as ->.
    apply bool_decide_eq_true in Hf. by repeat split; auto.
  - intros H. apply list_elem_of_singleton in H as ->.
    apply bool_decide_eq_true in Ht. by repeat split; auto.
  - intros H. apply list_elem_of_In, filter_In in H as [Hin Hc].
    apply list_elem_of_In in Hin.
    apply andb_true_iff in Hc as [Hph Htime].
    apply negb_true_iff in Htime. repeat split; [done | | done | done].
    apply orb_true_iff in Hph as [Hph|Hph]; [done|].
    apply (contains_lower "pH" c Hph).
Qed.

(* --------------------------------------------------------------------- *)
(*  Ticks that do not chart                                              *)
(* --------------------------------------------------------------------- *)

(** X6 (update_graph, lines 179-182). Without a data file the tick returns
    the "Waiting for data file..." chart without a trace, and None for both
    stores: the cached fingerprint and the stored view are dropped, whatever
    they and the payload were; nothing is read or printed. *)
Theorem missing_file_tick_drops_cache_and_view (n : Z) (sel : option string)
    (cur : option Figure) (relay stored : option dict) (du : option DataUpdate)
    (w : World) :
  files w !! FILE_PATH = None ->
  exists fig : Figure,
    update_graph L n sel cur relay stored du w =
      (Ok (fig, "Waiting for file to be created...", None, None), w)
    /\ data fig = []
    /\ title (layout fig) = Some "Waiting for data file..."
    /\ xaxis (layout fig) = None /\ yaxis (layout fig) = None.
Proof.
  intros Hf. rewrite update_graph_missing_file by done.
  eexists. split; [reflexivity|]. by repeat split.
Qed.

(** X7 (update_graph, lines 224-229, with read_csv_data, lines 63-67). When
    the file is there but pd.read_csv raises on it, a rebuilding tick prints
    "Error reading CSV: " followed by the message of the exception, returns
    the "Error reading data file" chart and the status "Error reading
    data", drops the cached fingerprint (so the next tick reads again) and
    hands back the captured view. *)
Theorem parse_error_tick (n : Z) (sel : option string) (cur : option Figure)
    (relay stored : option dict) (du : option DataUpdate) (w : World) (f : File)
    (e : Exn) :
  files w !! FILE_PATH = Some f ->
  f_table f = Raise e ->
  cur = None \/ need_data_update du (f_mtime f) sel = true ->
  update_graph L n sel cur relay stored du w =
    (Ok (set_title "Error reading data file" go_Figure, "Error reading data",
         None, Some (capture_view relay stored)),
     extend w [("Error reading CSV: " ++ exn_str e)%string] [CallReadCsv FILE_PATH]).
Proof.
  intros Hf Ht Hpath.
  apply (update_graph_read_failure L n sel cur relay stored du w _ f Hf Hpath).
  by apply (read_csv_data_parse_error L FILE_PATH w f).
Qed.

(** X8 (update_graph). The tick returns, and does not raise, whenever the
    cached figure, if there is one, has its two axes and the dataset read,
    if the selected metric is a column of it, has that column numeric and
    has the resolved time column and a 'samp_num' column. *)
Theorem tick_returns_when_columns_fit (n : Z) (sel : option string)
    (cur : option Figure) (relay stored : option dict) (du : option DataUpdate)
    (w : World) :
  (forall c, cur = Some c ->
     is_Some (xaxis (layout c)) /\ is_Some (yaxis (layout c))) ->
  (forall (df : DataFrame) (meta : Metadata) (w1 : World) (m : string) (col : Series),
     read_csv_data L FILE_PATH w = (Ok (Some (df, meta)), w1) ->
     sel = Some m -> df_get m df = Some col ->
     (exists v, col = Numeric v)
     /\ is_Some (df_get (time_col meta) df)
     /\ has_col df "samp_num" = true) ->
  exists (r : Figure * string * option DataUpdate * option dict) (w' : World),
    update_graph L n sel cur relay stored du w = (Ok r, w').
Proof.
  intros Hcur Hfit.
  destruct (files w !! FILE_PATH) as [f|] eqn:Hf;
    [|rewrite update_graph_missing_file by done; eauto].
  assert (Hreb : cur = None \/ need_data_update du (f_mtime f) sel = true ->
            exists r w', update_graph L n sel cur relay stored du w = (Ok r, w')).
  { intros Hpath.
    destruct (read_csv_data_total L FILE_PATH w) as ([[df meta]|] & w1 & Hread).
    - rewrite (update_graph_rebuild L n sel cur relay stored du w f Hf Hpath).
      destruct (selected_in_columns sel df) eqn:Hsel.
      + destruct sel as [m|]; [|discriminate]. simpl in Hsel.
        apply has_col_df_get in Hsel as [col Hget].
        destruct (Hfit df meta w1 m col Hread eq_refl Hget) as ([v ->] & [x Hx] & Hs).
        apply has_col_df_get in Hs as [ys Hys].
        rewrite (rebuild_plot_eq L m ("Last updated: " ++ now w)%string
                   (f_mtime f) (capture_view relay stored) w w1 df meta v x ys
                   Hread Hget Hx Hys).
        eauto.
      + rewrite (rebuild_not_found L sel _ _ _ w w1 df meta Hread Hsel). eauto.
    - rewrite (update_graph_read_failure L n sel cur relay stored du w w1 f
                 Hf Hpath Hread). eauto. }
  destruct cur as [c|]; [|auto].
  destruct (need_data_update du (f_mtime f) sel) eqn:Hn; [auto|].
  destruct du as [d|]; [|discriminate].
  destruct (Hcur c eq_refl) as [[ax Hax] [ay Hay]].
  rewrite (update_graph_reuse L n sel c relay stored d w f Hf Hn).
  rewrite (patch_cached_figure_ok _ c ax ay w Hax Hay). eauto.
Qed.

(* --------------------------------------------------------------------- *)
(*  When the file is read                                                *)
(* --------------------------------------------------------------------- *)

Lemma pd_read_csv_world (path : string) (w w' : World) (r : Res DataFrame) :
  pd_read_csv path w = (r, w') -> w' = extend w [] [CallReadCsv path].
Proof.
  unfold pd_read_csv, bind, log_call, extend. simpl. rewrite app_nil_r.
  destruct (files w !! path) as [f|]; by intros [= <- <-].
Qed.

Lemma read_csv_body_reads_once (path : string) (w w' : World)
    (r : Res (option (DataFrame * Metadata))) :
  read_csv_body L path w = (r, w') ->
  exists out : list string, w' = extend w out [CallReadCsv path].
Proof.
  unfold read_csv_body. unfold bind at 1.
  destruct (pd_read_csv path w) as [[df|e] w1] eqn:E;
    apply pd_read_csv_world in E as ->.
  - intros H.
    assert (Hp : prints
              (let* r0 := resolve_time_col L df in
               let* time_col := verify_time_col (fst r0) (snd r0) in
               match find_ph_cols (fst r0) with
               | [] => run print "No pH columns found in the CSV file." in ret None
               | ph_cols => ret (Some (fst r0, mkMetadata time_col ph_cols))
               end)).
    { pose proof prints_resolve_time_col. pose proof prints_verify_time_col.
      repeat effects_step. }
    apply Hp in H as [out ->]. exists out. by rewrite extend_extend, app_nil_r.
  - intros [= <- <-]. by exists [].
Qed.

Lemma read_csv_data_reads_once (path : string) (w w' : World) (f : File)
    (r : Res (option (DataFrame * Metadata))) :
  files w !! path = Some f ->
  read_csv_data L path w = (r, w') ->
  exists out : list string, w' = extend w out [CallReadCsv path].
Proof.
  intros Hf. unfold read_csv_data, bind, os_path_exists, try_except.
  rewrite Hf. simpl.
  destruct (read_csv_body L path w) as [[r0|e] w1] eqn:E;
    apply read_csv_body_reads_once in E as [out ->].
  - intros [= <- <-]. eauto.
  - unfold print, ret. simpl. intros [= <- <-].
    exists (out ++ [("Error reading CSV: " ++ exn_str e)%string]).
    unfold extend. simpl. by rewrite app_assoc.
Qed.

Lemma rebuild_reads_first (sel : option string) (ut : string) (mt : Z) (view : dict)
    (w w' : World) (f : File)
    (r : Res (Figure * string * option DataUpdate * option dict)) :
  files w !! FILE_PATH = Some f ->
  rebuild L sel ut mt view w = (r, w') ->
  exists (out : list string) (cl : list Call),
    w' = extend w out (CallReadCsv FILE_PATH :: cl).
Proof.
  intros Hf. unfold rebuild. unfold bind at 1.
  destruct (read_csv_data L FILE_PATH w) as [[r0|e] w1] eqn:E;
    apply (read_csv_data_reads_once _ _ _ f) in E as [out ->]; try done.
  - intros H.
    assert (Ha : appends
              (match r0 with
               | None =>
                   ret (set_title "Error reading data file" go_Figure,
                        "Error reading data", None, Some view)
               | Some (df, metadata) =>
                   let* fig :=
                     (if selected_in_columns sel df
                      then plot_metric L df (time_col metadata) (Py.fmt sel) view
                             make_subplots
                      else ret (column_not_found sel make_subplots)) in
                   ret (fig, ut, Some (mkDataUpdate mt sel), Some view)
               end)).
    { pose proof appends_plot_metric. repeat effects_step. }
    apply Ha in H as (out' & cl & ->). exists (out ++ out'), cl.
    by rewrite extend_extend.
  - intros [= <- <-]. by exists out, [].
Qed.

Lemma need_data_update_true (du : option DataUpdate) (mt : Z) (sel : option string) :
  need_data_update du mt sel = true <->
  du = None \/ exists d, du = Some d /\ (du_mtime d <> mt \/ du_ph_type d <> sel).
Proof.
  destruct du as [d|]; [|simpl; split; auto].
  destruct (need_data_update (Some d) mt sel) eqn:E.
  - split; [|done]. intros _. right. exists d. split; [done|].
    destruct (Z.eq_dec (du_mtime d) mt) as [Hm|]; [|auto]. right. intros Hs.
    assert (need_data_update (Some d) mt sel = false)
      by (by apply need_data_update_false).
    congruence.
  - apply need_data_update_false in E as [Hm Hs].
    split; [done|]. intros [|(d' & [= <-] & [|])]; done.
Qed.

(** X9 (update_graph, lines 188-191, 206, 224). With the file there, the tick
    reads it, before anything else it logs, whenever there is no cached
    figure, or no cached fingerprint, or the cached fingerprint differs
    from the current one in the modification time or in the selected
    metric; and the fingerprint such a tick hands back, if any, is the
    current one. *)
Theorem stale_cache_forces_read (n : Z) (sel : option string) (cur : option Figure)
    (relay stored : option dict) (du : option DataUpdate) (w : World) (f : File) :
  files w !! FILE_PATH = Some f ->
  cur = None \/ du = None
  \/ (exists d, du = Some d /\ (du_mtime d <> f_mtime f \/ du_ph_type d <> sel)) ->
  exists (r : Res (Figure * string * option DataUpdate * option dict))
         (out : list string) (cl : list Call),
    update_graph L n sel cur relay stored du w =
      (r, extend w out (CallReadCsv FILE_PATH :: cl))
    /\ forall fig st d v, r = Ok (fig, st, Some d, v) ->
         d = mkDataUpdate (f_mtime f) sel.
Proof.
  intros Hf Hstale.
  assert (Hpath : cur = None \/ need_data_update du (f_mtime f) sel = true).
  { destruct Hstale as [?|Hdu]; [by left|]. right.
    by apply need_data_update_true. }
  rewrite (update_graph_rebuild L n sel cur relay stored du w f Hf Hpath).
  destruct (rebuild L sel _ (f_mtime f) (capture_view relay stored) w)
    as [r w'] eqn:E.
  destruct (rebuild_reads_first _ _ _ _ _ _ f _ Hf E) as (out & cl & ->).
  exists r, out, cl. split; [done|].
  intros fig st d v ->. revert E. unfold rebuild, bind, ret.
  destruct (read_csv_data L FILE_PATH w) as [[[[df meta]|]|e] w1];
    [|discriminate..].
  destruct (selected_in_columns sel df).
  - destruct (plot_metric _ _ _ _ _ _ w1) as [[fig1|e] w2]; [|discriminate].
    by intros [= _ _ <- _ _].
  - by intros [= _ _ <- _ _].
Qed.

(* --------------------------------------------------------------------- *)
(*  One tick after another                                               *)
(* --------------------------------------------------------------------- *)

Lemma capture_view_idem (relay stored : option dict) :
  capture_view relay (Some (capture_view relay stored)) = capture_view relay stored.
Proof.
  unfold capture_view. destruct (truthy_dict relay); [done|].
  destruct (truthy_dict (Some _)) eqn:E; [done|].
  apply truthy_dict_false in E. by rewrite E.
Qed.

Lemma rebuild_fingerprint (sel : option string) (ut : string) (mt : Z) (view : dict)
    (w w' : World) (fig : Figure) (st : string) (d : DataUpdate) (v : option dict) :
  rebuild L sel ut mt view w = (Ok (fig, st, Some d, v), w') ->
  d = mkDataUpdate mt sel.
Proof.
  unfold rebuild, bind, ret.
  destruct (read_csv_data L FILE_PATH w) as [[[[df meta]|]|e] w1];
    [|discriminate..].
  destruct (selected_in_columns sel df).
  - destruct (plot_metric _ _ _ _ _ _ w1) as [[fig1|e] w2]; [|discriminate].
    by intros [= _ _ <- _ _].
  - by intros [= _ _ <- _ _].
Qed.

Lemma update_graph_fingerprint (n : Z) (sel : option string) (cur : option Figure)
    (relay stored : option dict) (du : option DataUpdate) (w w' : World) (f : File)
    (fig : Figure) (st : string) (d : DataUpdate) (v : option dict) :
  files w !! FILE_PATH = Some f ->
  update_graph L n sel cur relay stored du w = (Ok (fig, st, Some d, v), w') ->
  du_mtime d = f_mtime f /\ du_ph_type d = sel.
Proof.
  intros Hf.
  destruct cur as [c|]; [destruct (need_data_update du (f_mtime f) sel) eqn:Hn|].
  - rewrite (update_graph_rebuild L n sel (Some c) relay stored du w f) by auto.
    by intros ->%rebuild_fingerprint.
  - destruct du as [d0|]; [|discriminate].
    rewrite (update_graph_reuse L n sel c relay stored d0 w f Hf Hn).
    destruct (patch_cached_figure _ c w) as [[fig1|e] w1]; [|discriminate].
    intros [= _ _ <- _ _]. by apply need_data_update_false.
  - rewrite (update_graph_rebuild L n sel None relay stored du w f) by auto.
    by intros ->%rebuild_fingerprint.
Qed.

(** X10 (update_graph). What a tick hands back makes the next tick a cache
    hit: if a tick returns a figure with a fingerprint, then the tick that
    gets this figure, this fingerprint and this view, with the same payload,
    the same selection and the file as it was, returns without reading
    anything, with the same traces, the same title, the same fingerprint
    and the same view. *)
Theorem tick_after_tick_is_cache_hit (n n' : Z) (sel : option string)
    (cur : option Figure) (relay stored : option dict) (du : option DataUpdate)
    (w w1 : World) (f : File) (fig : Figure) (st : string) (d : DataUpdate)
    (v : option dict) :
  files w !! FILE_PATH = Some f ->
  (forall c, cur = Some c ->
     is_Some (xaxis (layout c)) /\ is_Some (yaxis (layout c))) ->
  update_graph L n sel cur relay stored du w = (Ok (fig, st, Some d, v), w1) ->
  exists fig' : Figure,
    update_graph L n' sel (Some fig) relay v (Some d) w1 =
      (Ok (fig', (("Last updated: " ++ now w) ++ " (no changes)")%string, Some d, v), w1)
    /\ data fig' = data fig
    /\ title (layout fig') = title (layout fig).
Proof.
  intros Hf Hcur Htick.
  pose proof (update_graph_view L _ _ _ _ _ _ _ _ f _ _ _ _ Hf Htick) as ->.
  destruct (cached_figure_has_axes L _ _ _ _ _ _ _ _ _ _ _ _ Hcur Htick)
    as [[ax Hax] [ay Hay]].
  destruct (update_graph_fingerprint _ _ _ _ _ _ _ _ f _ _ _ _ Hf Htick) as [Hm Hs].
  apply appends_update_graph in Htick as (out & cl & ->).
  assert (Hneed : need_data_update (Some d) (f_mtime f) sel = false)
    by (by apply need_data_update_false).
  rewrite (update_graph_reuse L n' sel fig relay _ d (extend w out cl) f Hf Hneed).
  rewrite capture_view_idem.
  rewrite (patch_cached_figure_ok _ fig ax ay _ Hax Hay).
  eexists. split; [reflexivity|]. by split.
Qed.

(** X11 (update_graph, lines 208-218). On a cache hit, an axis for which the
    captured view does not hold both ends of a range is handed back as the
    cached figure has it, a range written by an earlier tick included: the
    cache-hit path writes ranges and never removes one. *)
Theorem cache_hit_without_range_keeps_axis (n : Z) (sel : option string) (cur : Figure)
    (relay stored : option dict) (du : DataUpdate) (w : World) (f : File)
    (ax ay : Axis) :
  files w !! FILE_PATH = Some f ->
  du_mtime du = f_mtime f ->
  du_ph_type du = sel ->
  xaxis (layout cur) = Some ax ->
  yaxis (layout cur) = Some ay ->
  exists fig : Figure,
    update_graph L n sel (Some cur) relay stored (Some du) w =
      (Ok (fig, (("Last updated: " ++ now w) ++ " (no changes)")%string, Some du,
           Some (capture_view relay stored)), w)
    /\ (capture_view relay stored !! "xaxis.range[0]" = None
        \/ capture_view relay stored !! "xaxis.range[1]" = None ->
        xaxis (layout fig) = xaxis (layout cur))
    /\ (capture_view relay stored !! "yaxis.range[0]" = None
        \/ capture_view relay stored !! "yaxis.range[1]" = None ->
        yaxis (layout fig) = yaxis (layout cur)).
Proof.
  intros Hf Hm Hs Hax Hay.
  destruct (reuse_tick_result L n sel cur relay stored du w f ax ay
              Hf Hm Hs Hax Hay) as (fig & Heq & Hx & Hy).
  exists fig. split; [done|].
  assert (Hnone : forall k0 k1 (view : dict),
            view !! k0 = None \/ view !! k1 = None -> range_of k0 k1 view = None).
  { intros k0 k1 view [H|H]; unfold range_of; rewrite H; [done|].
    by destruct (view !! k0). }
  split; intros H.
  - rewrite Hx, Hax. unfold x_range_of. by rewrite (Hnone _ _ _ H).
  - rewrite Hy, Hay. unfold y_range_of. by rewrite (Hnone _ _ _ H).
Qed.

(* --------------------------------------------------------------------- *)
(*  The rebuilt chart                                                    *)
(* --------------------------------------------------------------------- *)

(** X12 (update_graph, lines 296-337). The layout of a rebuilt chart of a
    numeric metric, the dataset having the resolved time column and a
    'samp_num' column: the title is '<metric> vs <time column>'; the x axis
    is titled with the time column and has the date tick format exactly
    when that column is a datetime column; the x and y axes carry the range
    of the captured view when the view holds both of its ends, and none
    otherwise; the secondary axis is titled 'Sample Number' and never gets
    a range. *)
Theorem rebuilt_chart_layout (n : Z) (m : string) (cur : option Figure)
    (relay stored : option dict) (du : option DataUpdate) (w w1 : World) (f : File)
    (df : DataFrame) (meta : Metadata) (v : list (option Q)) (x : Series) :
  files w !! FILE_PATH = Some f ->
  cur = None \/ need_data_update du (f_mtime f) (Some m) = true ->
  read_csv_data L FILE_PATH w = (Ok (Some (df, meta)), w1) ->
  df_get m df = Some (Numeric v) ->
  df_get (time_col meta) df = Some x ->
  has_col df "samp_num" = true ->
  exists (fig : Figure) (w' : World),
    update_graph L n (Some m) cur relay stored du w =
      (Ok (fig, ("Last updated: " ++ now w)%string,
           Some (mkDataUpdate (f_mtime f) (Some m)),
           Some (capture_view relay stored)), w')
    /\ layout fig =
         mkLayout (Some (m ++ " vs " ++ time_col meta)%string)
           (Some (mkAxis (Some (time_col meta))
                    (x_range_of (capture_view relay stored))
                    (if is_datetime64_any_dtype x
                     then Some "%Y-%m-%d %H:%M:%S" else None)
                    (if is_datetime64_any_dtype x then Some 45%Z else None)))
           (Some (mkAxis (Some m) (y_range_of (capture_view relay stored)) None None))
           (Some (mkAxis (Some "Sample Number") None None None))
           (Some "closest") (Some 300%Z).
Proof.
  intros Hf Hpath Hread Hget Hx Hs.
  apply has_col_df_get in Hs as [ys Hys].
  rewrite (update_graph_rebuild L n (Some m) cur relay stored du w f Hf Hpath).
  rewrite (rebuild_plot_eq L m ("Last updated: " ++ now w)%string (f_mtime f)
             (capture_view relay stored) w w1 df meta v x ys Hread Hget Hx Hys).
  eexists _, _. split; [reflexivity|]. by apply format_figure_layout.
Qed.

(** X13 (update_graph, lines 252-294). The traces of a rebuilt chart of a
    numeric metric, the dataset having the resolved time column and a
    'samp_num' column, in order: the normal rows of the metric over the
    time column, as 'lines+markers' under the metric's name; then, only if
    some row is not normal, the other rows as 'markers' named 'Outliers';
    last, on the secondary axis, 'Sample Number': the whole time column
    against the 'samp_num' column, one point per row of the dataset. *)
Theorem rebuilt_chart_traces (n : Z) (m : string) (cur : option Figure)
    (relay stored : option dict) (du : option DataUpdate) (w w1 : World) (f : File)
    (df : DataFrame) (meta : Metadata) (v : list (option Q)) (x ys : Series) :
  files w !! FILE_PATH = Some f ->
  cur = None \/ need_data_update du (f_mtime f) (Some m) = true ->
  read_csv_data L FILE_PATH w = (Ok (Some (df, meta)), w1) ->
  df_wf df = true ->
  df_get m df = Some (Numeric v) ->
  df_get (time_col meta) df = Some x ->
  df_get "samp_num" df = Some ys ->
  exists (fig : Figure) (st : string) (du' : option DataUpdate) (w' : World),
    update_graph L n (Some m) cur relay stored du w =
      (Ok (fig, st, du', Some (capture_view relay stored)), w')
    /\ data fig = chart_traces df x (Numeric v) ys m (quartile_mask L df v)
    /\ series_len x = df_len df
    /\ series_len ys = df_len df.
Proof.
  intros Hf Hpath Hread Hwf Hget Hx Hys.
  rewrite (update_graph_rebuild L n (Some m) cur relay stored du w f Hf Hpath).
  rewrite (rebuild_plot_eq L m ("Last updated: " ++ now w)%string (f_mtime f)
             (capture_view relay stored) w w1 df meta v x ys Hread Hget Hx Hys).
  eexists _, _, _, _. split; [reflexivity|].
  rewrite format_figure_data. simpl. split; [done|]. split.
  - by apply (df_get_wf df (time_col meta)).
  - by apply (df_get_wf df "samp_num").
Qed.

(** X21 (update_graph, lines 284-294). A rebuild that charts a numeric
    metric of a dataset without a 'samp_num' column does not return: the
    quartiles are taken, and then go.Scatter refuses range(len(df)) as the
    values of the third trace, a ValueError that leaves update_graph. *)
Theorem tick_raises_without_samp_num (n : Z) (m : string) (cur : option Figure)
    (relay stored : option dict) (du : option DataUpdate) (w w1 : World) (f : File)
    (df : DataFrame) (meta : Metadata) (v : list (option Q)) (x : Series) :
  files w !! FILE_PATH = Some f ->
  cur = None \/ need_data_update du (f_mtime f) (Some m) = true ->
  read_csv_data L FILE_PATH w = (Ok (Some (df, meta)), w1) ->
  df_get m df = Some (Numeric v) ->
  df_get (time_col meta) df = Some x ->
  has_col df "samp_num" = false ->
  update_graph L n (Some m) cur relay stored du w =
    (Raise (Exception "ValueError" (range_rejected L (df_len df))),
     extend w1 [] [CallQuantile (1 # 4); CallQuantile (3 # 4)]).
Proof.
  intros Hf Hpath Hread Hget Hx Hs.
  rewrite (update_graph_rebuild L n (Some m) cur relay stored du w f Hf Hpath).
  by apply (rebuild_without_samp_num L m _ _ _ w w1 df meta v x).
Qed.

(* --------------------------------------------------------------------- *)
(*  The dropdown between refreshes                                       *)
(* --------------------------------------------------------------------- *)

Lemma update_dropdown_steady (n : Z) (current_value : option string) (w : World)
    (f : File) :
  files w !! FILE_PATH = Some f ->
  last_modified_time w = Some (f_mtime f) ->
  dropdown_options w <> [] ->
  update_dropdown L n current_value w =
    (Ok (dropdown_options w, Py.or_str (dropdown_value w) current_value), w).
Proof.
  intros Hf Hm Ho.
  unfold update_dropdown, bind, os_path_exists, os_path_getmtime, get_globals, ret.
  rewrite Hf. cbn -[read_csv_data]. rewrite Hf. cbn -[read_csv_data].
  by rewrite (bool_decide_eq_true_2 _ Hm), (bool_decide_eq_false_2 _ Ho).
Qed.

(** X14 (update_dropdown, lines 131-134 and 159). While the file keeps the
    modification time the callback recorded and options are cached, the
    callback reads nothing and changes nothing: it returns the cached
    options, and as value the cached one unless that is None or empty, in
    which case the current selection. A current selection that differs
    from a cached value is not kept. *)
Theorem dropdown_unmodified_file_returns_cache (n : Z) (current_value : option string)
    (w : World) (f : File) :
  files w !! FILE_PATH = Some f ->
  last_modified_time w = Some (f_mtime f) ->
  dropdown_options w <> [] ->
  exists value : option string,
    update_dropdown L n current_value w = (Ok (dropdown_options w, value), w)
    /\ (forall c, dropdown_value w = Some c -> c <> "" -> value = Some c)
    /\ (dropdown_value w = None \/ dropdown_value w = Some "" -> value = current_value).
Proof.
  intros Hf Hm Ho. rewrite (update_dropdown_steady n current_value w f Hf Hm Ho).
  eexists. split; [reflexivity|]. unfold Py.or_str. split.
  - intros c -> Hc. by destruct c.
  - by intros [-> | ->].
Qed.

Lemma chosen_value_in (current_value : option string) (l : list string) :
  l <> [] -> exists v, chosen_value current_value l = Some v /\ v ∈ l.
Proof.
  intros Hl. unfold chosen_value, needs_default, in_list.
  assert (Hdef : exists v,
            (if bool_decide ("ph_total" ∈ l) then Some "ph_total"
             else if bool_decide ("pH_free" ∈ l) then Some "pH_free" else head l)
            = Some v /\ v ∈ l).
  { destruct (bool_decide ("ph_total" ∈ l)) eqn:Ht;
      [apply bool_decide_eq_true in Ht; eauto|].
    destruct (bool_decide ("pH_free" ∈ l)) eqn:Hp;
      [apply bool_decide_eq_true in Hp; eauto|].
    destruct l as [|c l]; [done|]. exists c. split; [done | apply list_elem_of_here]. }
  destruct current_value as [c|]; [|done].
  destruct (bool_decide (c ∈ l)) eqn:Hc; [|done].
  apply bool_decide_eq_true in Hc. simpl. eauto.
Qed.

Lemma update_dropdown_refresh (n : Z) (current_value : option string)
    (w w1 : World) (f : File) (df : DataFrame) (meta : Metadata) :
  files w !! FILE_PATH = Some f ->
  last_modified_time w <> Some (f_mtime f) \/ dropdown_options w = [] ->
  read_csv_data L FILE_PATH w = (Ok (Some (df, meta)), w1) ->
  update_dropdown L n current_value w =
    (Ok (map (fun c => (c, c)) (ph_cols meta), chosen_value current_value (ph_cols meta)),
     mkWorld (files w1) (now w1) (stdout w1) (calls w1) (Some (f_mtime f))
             (map (fun c => (c, c)) (ph_cols meta))
             (chosen_value current_value (ph_cols meta))).
Proof.
  intros Hf Hmod Hread.
  pose proof (read_csv_data_ph_cols L _ _ _ _ _ Hread) as Hne.
  unfold update_dropdown, bind, os_path_exists, os_path_getmtime, get_globals, ret.
  rewrite Hf. cbn -[read_csv_data needs_default in_list]. rewrite Hf.
  cbn -[read_csv_data needs_default in_list].
  assert (Hgo : negb (bool_decide (last_modified_time w = Some (f_mtime f)))
                || bool_decide (dropdown_options w = []) = true).
  { destruct Hmod as [Hm | Ho].
    - by rewrite (bool_decide_eq_false_2 _ Hm).
    - rewrite (bool_decide_eq_true_2 _ Ho). apply orb_true_r. }
  rewrite Hgo, Hread. cbn -[needs_default in_list]. unfold chosen_value.
  destruct (ph_cols meta) as [|c0 l] eqn:Hcols; [done|].
  by destruct (needs_default current_value (c0 :: l)),
    (in_list "ph_total" (c0 :: l)), (in_list "pH_free" (c0 :: l)).
Qed.

Lemma contains_ph_nonempty (c : string) :
  Py.contains "ph" (Py.lower c) = true -> c <> "".
Proof. by intros H ->. Qed.

(** X15 (update_dropdown). A refresh that resolves the pH columns returns
    one of them as the value, one option per column, and records both with
    the modification time: from then on, as long as the file is unmodified,
    every call returns these options and this value, whatever the current
    selection of the caller is. *)
Theorem dropdown_refresh_then_steady (n : Z) (current_value : option string)
    (w w1 : World) (f : File) (df : DataFrame) (meta : Metadata) :
  files w !! FILE_PATH = Some f ->
  last_modified_time w <> Some (f_mtime f) \/ dropdown_options w = [] ->
  read_csv_data L FILE_PATH w = (Ok (Some (df, meta)), w1) ->
  exists (v : string) (w' : World),
    update_dropdown L n current_value w =
      (Ok (map (fun c => (c, c)) (ph_cols meta), Some v), w')
    /\ v ∈ ph_cols meta
    /\ last_modified_time w' = Some (f_mtime f)
    /\ forall (n' : Z) (current_value' : option string),
         update_dropdown L n' current_value' w' =
           (Ok (map (fun c => (c, c)) (ph_cols meta), Some v), w').
Proof.
  intros Hf Hmod Hread.
  pose proof (read_csv_data_ph_cols L _ _ _ _ _ Hread) as Hne.
  destruct (chosen_value_in current_value (ph_cols meta) Hne) as (v & Hv & Hin).
  rewrite (update_dropdown_refresh n current_value w w1 f df meta Hf Hmod Hread), Hv.
  eexists v, _. split; [reflexivity|]. split; [done|]. split; [done|].
  intros n' cv'.
  assert (Hf1 : files w1 !! FILE_PATH = Some f).
  { pose proof Hread as Ha. apply appends_read_csv_data in Ha as (out & cl & ->).
    done. }
  rewrite (update_dropdown_steady n' cv' _ f); [| done | done |].
  - simpl. f_equal. f_equal. unfold Py.or_str.
    assert (v <> "") as Hv0.
    { destruct (read_csv_data_inv FILE_PATH w w1 f df meta Hf Hread)
        as (_ & _ & _ & _ & _ & Hph & _).
      rewrite Hph in Hin. apply find_ph_cols_sound_aux in Hin.
      by apply contains_ph_nonempty. }
    by destruct v.
  - simpl. by destruct (ph_cols meta).
Qed.

(** X16 (update_dropdown, lines 134-137 and 159). A refresh whose read gives
    no dataset returns what is cached, as between refreshes, and records
    nothing: the modification time, the options and the value of the
    callback stay, so the next call reads the file again. *)
Theorem dropdown_failed_refresh_keeps_cache (n : Z) (current_value : option string)
    (w w1 : World) (f : File) :
  files w !! FILE_PATH = Some f ->
  last_modified_time w <> Some (f_mtime f) \/ dropdown_options w = [] ->
  read_csv_data L FILE_PATH w = (Ok None, w1) ->
  update_dropdown L n current_value w =
    (Ok (dropdown_options w, Py.or_str (dropdown_value w) current_value), w1)
  /\ last_modified_time w1 = last_modified_time w
  /\ dropdown_options w1 = dropdown_options w
  /\ dropdown_value w1 = dropdown_value w.
Proof.
  intros Hf Hmod Hread. split.
  - unfold update_dropdown, bind, os_path_exists, os_path_getmtime, get_globals, ret.
    rewrite Hf. cbn -[read_csv_data]. rewrite Hf. cbn -[read_csv_data].
    assert (Hgo : negb (bool_decide (last_modified_time w = Some (f_mtime f)))
                  || bool_decide (dropdown_options w = []) = true).
    { destruct Hmod as [Hm | Ho].
      - by rewrite (bool_decide_eq_false_2 _ Hm).
      - rewrite (bool_decide_eq_true_2 _ Ho). apply orb_true_r. }
    by rewrite Hgo, Hread.
  - by apply appends_read_csv_data in Hread as (out & cl & ->).
Qed.

End Further.

(* --------------------------------------------------------------------- *)
(*  The captured view                                                    *)
(* --------------------------------------------------------------------- *)

(** X17 (update_graph, lines 194-201). From a non-empty payload the captured
    view takes the entries whose key contains one of the seven view keys as
    a substring, and nothing else: not the other entries of the payload,
    and nothing of the stored view. *)
Theorem capture_view_filters_payload (rd : dict) (stored : option dict) (k : string) :
  rd <> ∅ ->
  capture_view (Some rd) stored !! k = if is_view_key k then rd !! k else None.
Proof.
  intros Hrd. unfold capture_view.
  destruct (truthy_dict (Some rd)) eqn:E; [|by apply truthy_dict_false in E].
  simpl. destruct (is_view_key k) eqn:Hk.
  - destruct (rd !! k) as [x|] eqn:Hx.
    + by apply map_lookup_filter_Some_2.
    + apply map_lookup_filter_None_2. by left.
  - apply map_lookup_filter_None_2. right. intros x _. simpl. congruence.
Qed.

(* --------------------------------------------------------------------- *)
(*  The fence at work                                                    *)
(* --------------------------------------------------------------------- *)

(** X18 (update_graph, lines 239-254). When at least five rows of a numeric
    metric lie inside the fence, bounds and comparisons being those of
    float arithmetic, the normal series holds exactly the cells of the
    metric that lie inside it, in their order, and the outlier series
    exactly the other cells, the missing ones among them. *)
Theorem classify_by_fence (L : Library) (df : DataFrame) (m : string) (col : Series)
    (v : list (option Q)) (w : World) :
  df_get m df = Some col ->
  col = Numeric v ->
  5 <= mask_sum (fence_mask (quantile L (1 # 4) v) (quantile L (3 # 4) v) v) ->
  let lower := fst (fence (quantile L (1 # 4) v) (quantile L (3 # 4) v)) in
  let upper := snd (fence (quantile L (1 # 4) v) (quantile L (3 # 4) v)) in
  exists (df_normal df_outliers : DataFrame) (w' : World),
    classify L df m w = (Ok (df_normal, df_outliers), w')
    /\ df_get m df_normal = Some (Numeric (List.filter (in_fence lower upper) v))
    /\ df_get m df_outliers
       = Some (Numeric (List.filter (fun c => negb (in_fence lower upper c)) v)).
Proof.
  intros Hget -> Hmany lower upper.
  assert (Hmask : quartile_mask L df v = map (in_fence lower upper) v).
  { unfold quartile_mask, normal_mask, at_least_five.
    destruct (Nat.ltb_spec
                (mask_sum (fence_mask (quantile L (1 # 4) v) (quantile L (3 # 4) v) v)) 5);
      [lia | done]. }
  eexists _, _, _. split; [by apply classify_ok|].
  rewrite !df_get_filter, Hget, Hmask. simpl.
  by rewrite select_map_filter, select_map_negb_filter.
Qed.

(** X19 (update_graph, lines 239-250). A row whose value lies between the
    two quartiles is always among the normal rows, whether the fence, as
    float arithmetic makes it, decides or the guard of the five rows takes
    over. *)
Theorem interquartile_rows_are_normal (df : DataFrame) (v : list (option Q))
    (q1 q3 x : Q) (i : nat) :
  length v = df_len df ->
  v !! i = Some (Some x) ->
  (q1 <= q3)%Q -> (q1 <= x)%Q -> (x <= q3)%Q ->
  normal_mask df v (Fin q1) (Fin q3) !! i = Some true.
Proof.
  intros Hlen Hv H13 H1 H3. unfold normal_mask, at_least_five.
  destruct (_ <? 5)%nat.
  - apply lookup_repeat_true. rewrite <- Hlen. by apply lookup_lt_Some in Hv.
  - unfold fence_mask.
    change (map ?f v) with (f <$> v). rewrite list_lookup_fmap, Hv.
    cbn [fmap option_fmap option_map]. f_equal. by apply in_fence_interquartile.
Qed.

(** X20 (update_graph, lines 241-246). When the two quartiles coincide, in
    a binary64 number q, the fence is that one value: a cell is inside
    exactly when, as a float64, it is q. *)
Theorem zero_iqr_fence_is_one_value (q x : Q) :
  is_float64 q ->
  in_fence (fst (fence (Fin q) (Fin q))) (snd (fence (Fin q) (Fin q))) (Some x) = true
  <-> float_is (round64 x) q.
Proof.
  intros Hq. destruct (fence_zero_iqr q Hq) as [(lo & -> & Hlo) (hi & -> & Hhi)].
  unfold in_fence. rewrite andb_true_iff.
  destruct (round64 x) as [r| | |]; simpl.
  - rewrite !Qle_bool_iff, Hlo, Hhi. split.
    + intros [H1 H2]. exists r. split; [done|]. by apply Qle_antisym.
    + intros (r' & [= <-] & Hr). rewrite Hr. split; apply Qle_refl.
  - split; [intros [_ H]; discriminate | intros (r' & H & _); discriminate].
  - split; [intros [H _]; discriminate | intros (r' & H & _); discriminate].
  - split; [intros [H _]; discriminate | intros (r' & H & _); discriminate].
Qed.

(* --------------------------------------------------------------------- *)
(*  The further properties at concrete inputs                            *)
(* --------------------------------------------------------------------- *)

Lemma read_csv_data_keeps_columns_witness :
  columns Case.timed_dataset = columns Case.timed_table
  /\ (forall name, name <> "pc_time" -> name <> "ph_time" ->
        df_get name Case.timed_dataset = df_get name Case.timed_table)
  /\ (has_col Case.timed_table "pc_time" = true ->
      df_get "ph_time" Case.timed_dataset = df_get "ph_time" Case.timed_table)
  /\ ["pH_free"] = find_ph_cols Case.timed_table.
Proof.
  exact (read_csv_data_keeps_columns Sample.library FILE_PATH
           (Sample.world Case.timed_table) (Case.after_read Case.timed_table)
           (mkFile 100 (Ok Case.timed_table))
           Case.timed_table Case.timed_dataset (mkMetadata "pc_time" ["pH_free"])
           eq_refl eq_refl eq_refl).
Defined.

Lemma resolved_time_col_is_a_column_or_absent_samp_num_witness :
  has_col Sample.table "samp_num" = true
  \/ ("samp_num" = "samp_num"
      /\ has_col Sample.table "pc_time" = false
      /\ has_col Sample.table "ph_time" = false
      /\ has_col Sample.table "samp_num" = false).
Proof.
  exact (resolved_time_col_is_a_column_or_absent_samp_num Sample.library FILE_PATH
           (Sample.world Sample.table) (Case.after_read Sample.table)
           (mkFile 100 (Ok Sample.table))
           Sample.table (mkMetadata "samp_num" ["pH_free"]) eq_refl eq_refl).
Defined.

Lemma read_without_ph_columns_gives_nothing_witness :
  exists w' : World,
    read_csv_data Sample.library FILE_PATH (Sample.world Case.no_ph_table)
    = (Ok None, w').
Proof.
  exact (read_without_ph_columns_gives_nothing Sample.library FILE_PATH
           (Sample.world Case.no_ph_table) (mkFile 100 (Ok Case.no_ph_table))
           Case.no_ph_table eq_refl eq_refl eq_refl).
Defined.

Lemma find_ph_cols_sound_witness :
  "pH_free" ∈ columns Sample.table
  /\ Py.contains "ph" (Py.lower "pH_free") = true
  /\ Py.contains "time" (Py.lower "pH_free") = false
  /\ (has_col Sample.table "pH_free" || has_col Sample.table "ph_total" = true ->
      "pH_free" = "pH_free" \/ "pH_free" = "ph_total").
Proof.
  apply (find_ph_cols_sound Sample.table "pH_free").
  vm_compute. apply list_elem_of_here.
Defined.

Lemma missing_file_tick_drops_cache_and_view_witness :
  exists fig : Figure,
    update_graph Sample.library 0 (Some "pH_free") (Some Sample.cached_figure)
                 None (Some Sample.zoom) (Some (mkDataUpdate 100 (Some "pH_free")))
                 Case.no_file =
      (Ok (fig, "Waiting for file to be created...", None, None), Case.no_file)
    /\ data fig = []
    /\ title (layout fig) = Some "Waiting for data file..."
    /\ xaxis (layout fig) = None /\ yaxis (layout fig) = None.
Proof.
  exact (missing_file_tick_drops_cache_and_view Sample.library 0 (Some "pH_free")
           (Some Sample.cached_figure) None (Some Sample.zoom)
           (Some (mkDataUpdate 100 (Some "pH_free"))) Case.no_file eq_refl).
Defined.

Lemma parse_error_tick_witness :
  update_graph Sample.library 0 (Some "pH_free") None None (Some Sample.zoom) None
               Case.broken_file =
    (Ok (set_title "Error reading data file" go_Figure, "Error reading data",
         None, Some (capture_view None (Some Sample.zoom))),
     extend Case.broken_file ["Error reading CSV: No columns to parse from file"]
            [CallReadCsv FILE_PATH]).
Proof.
  exact (parse_error_tick Sample.library 0 (Some "pH_free") None None
           (Some Sample.zoom) None Case.broken_file
           (mkFile 100 (Raise Case.empty_data_error)) Case.empty_data_error
           eq_refl eq_refl (or_introl eq_refl)).
Defined.

Lemma tick_returns_when_columns_fit_witness :
  exists (r : Figure * string * option DataUpdate * option dict) (w' : World),
    update_graph Sample.library 0 (Some "pH_free") None None None None
                 (Sample.world Sample.table) = (Ok r, w').
Proof.
  apply (tick_returns_when_columns_fit Sample.library 0 (Some "pH_free") None
           None None None (Sample.world Sample.table)).
  - intros c H. discriminate H.
  - intros df meta w1 m col Hread Hsel Hget.
    vm_compute in Hread. injection Hread as <- <- <-.
    injection Hsel as <-. vm_compute in Hget. injection Hget as <-.
    split; [eexists; reflexivity|]. split; [eexists; reflexivity | reflexivity].
Defined.

Lemma stale_cache_forces_read_witness :
  exists (r : Res (Figure * string * option DataUpdate * option dict))
         (out : list string) (cl : list Call),
    update_graph Sample.library 0 (Some "pH_free") (Some Sample.cached_figure)
                 None None (Some (mkDataUpdate 100 (Some "ph_total")))
                 (Sample.world Sample.table) =
      (r, extend (Sample.world Sample.table) out (CallReadCsv FILE_PATH :: cl))
    /\ forall fig st d v, r = Ok (fig, st, Some d, v) ->
         d = mkDataUpdate 100 (Some "pH_free").
Proof.
  apply (stale_cache_forces_read Sample.library 0 (Some "pH_free")
           (Some Sample.cached_figure) None None
           (Some (mkDataUpdate 100 (Some "ph_total"))) (Sample.world Sample.table)
           (mkFile 100 (Ok Sample.table)) eq_refl).
  right. right. eexists. split; [reflexivity|]. right. discriminate.
Defined.

Lemma tick_after_tick_is_cache_hit_witness :
  exists fig' : Figure,
    update_graph Sample.library 1 (Some "pH_free") (Some Case.tick_figure)
                 (Some Sample.zoom) Case.tick_view
                 (Some (mkDataUpdate 100 (Some "pH_free"))) Case.tick_world =
      (Ok (fig', "Last updated: 2024-01-01 00:00:00 (no changes)",
           Some (mkDataUpdate 100 (Some "pH_free")), Case.tick_view), Case.tick_world)
    /\ data fig' = data Case.tick_figure
    /\ title (layout fig') = title (layout Case.tick_figure).
Proof.
  apply (tick_after_tick_is_cache_hit Sample.library 0 1 (Some "pH_free") None
           (Some Sample.zoom) None None (Sample.world Sample.table) Case.tick_world
           (mkFile 100 (Ok Sample.table)) Case.tick_figure
           "Last updated: 2024-01-01 00:00:00" (mkDataUpdate 100 (Some "pH_free"))
           Case.tick_view eq_refl).
  - intros c H. discriminate H.
  - vm_compute. reflexivity.
Defined.

Lemma cache_hit_without_range_keeps_axis_witness :
  exists fig : Figure,
    update_graph Sample.library 0 (Some "pH_free") (Some Case.zoomed_figure)
                 (Some Case.autorange) (Some Sample.zoom)
                 (Some (mkDataUpdate 100 (Some "pH_free"))) (Sample.world Sample.table) =
      (Ok (fig, "Last updated: 2024-01-01 00:00:00 (no changes)",
           Some (mkDataUpdate 100 (Some "pH_free")),
           Some (capture_view (Some Case.autorange) (Some Sample.zoom))),
       Sample.world Sample.table)
    /\ (capture_view (Some Case.autorange) (Some Sample.zoom) !! "xaxis.range[0]" = None
        \/ capture_view (Some Case.autorange) (Some Sample.zoom) !! "xaxis.range[1]" = None ->
        xaxis (layout fig) = xaxis (layout Case.zoomed_figure))
    /\ (capture_view (Some Case.autorange) (Some Sample.zoom) !! "yaxis.range[0]" = None
        \/ capture_view (Some Case.autorange) (Some Sample.zoom) !! "yaxis.range[1]" = None ->
        yaxis (layout fig) = yaxis (layout Case.zoomed_figure)).
Proof.
  exact (cache_hit_without_range_keeps_axis Sample.library 0 (Some "pH_free")
           Case.zoomed_figure (Some Case.autorange) (Some Sample.zoom)
           (mkDataUpdate 100 (Some "pH_free")) (Sample.world Sample.table)
           (mkFile 100 (Ok Sample.table))
           (axis_set_range (JNum 2, JNum 5) (axis_set_title "samp_num" empty_axis))
           (axis_set_title "pH_free" empty_axis)
           eq_refl eq_refl eq_refl eq_refl eq_refl).
Defined.

Lemma rebuilt_chart_layout_witness :
  exists (fig : Figure) (w' : World),
    update_graph Sample.library 0 (Some "pH_free") None (Some Sample.zoom) None None
                 (Sample.world Sample.table) =
      (Ok (fig, "Last updated: 2024-01-01 00:00:00",
           Some (mkDataUpdate 100 (Some "pH_free")),
           Some (capture_view (Some Sample.zoom) None)), w')
    /\ layout fig =
         mkLayout (Some "pH_free vs samp_num")
           (Some (mkAxis (Some "samp_num")
                    (x_range_of (capture_view (Some Sample.zoom) None)) None None))
           (Some (mkAxis (Some "pH_free")
                    (y_range_of (capture_view (Some Sample.zoom) None)) None None))
           (Some (mkAxis (Some "Sample Number") None None None))
           (Some "closest") (Some 300%Z).
Proof.
  exact (rebuilt_chart_layout Sample.library 0 "pH_free" None (Some Sample.zoom)
           None None (Sample.world Sample.table) (Case.after_read Sample.table)
           (mkFile 100 (Ok Sample.table)) Sample.table
           (mkMetadata "samp_num" ["pH_free"])
           (Sample.nums [1; 2; 3; 4; 5; 6; 7; 8; 9; 100]%Z)
           (Numeric (Sample.nums [1; 2; 3; 4; 5; 6; 7; 8; 9; 10]%Z))
           eq_refl (or_introl eq_refl) eq_refl eq_refl eq_refl eq_refl).
Defined.

Lemma rebuilt_chart_traces_witness :
  exists (fig : Figure) (st : string) (du' : option DataUpdate) (w' : World),
    update_graph Sample.library 0 (Some "pH_free") None None None None
                 (Sample.world Sample.table) =
      (Ok (fig, st, du', Some (capture_view None None)), w')
    /\ data fig =
         chart_traces Sample.table
           (Numeric (Sample.nums [1; 2; 3; 4; 5; 6; 7; 8; 9; 10]%Z))
           (Numeric (Sample.nums [1; 2; 3; 4; 5; 6; 7; 8; 9; 100]%Z))
           (Numeric (Sample.nums [1; 2; 3; 4; 5; 6; 7; 8; 9; 10]%Z)) "pH_free"
           (quartile_mask Sample.library Sample.table
                          (Sample.nums [1; 2; 3; 4; 5; 6; 7; 8; 9; 100]%Z))
    /\ 10 = 10
    /\ 10 = 10.
Proof.
  exact (rebuilt_chart_traces Sample.library 0 "pH_free" None None None None
           (Sample.world Sample.table) (Case.after_read Sample.table)
           (mkFile 100 (Ok Sample.table)) Sample.table
           (mkMetadata "samp_num" ["pH_free"])
           (Sample.nums [1; 2; 3; 4; 5; 6; 7; 8; 9; 100]%Z)
           (Numeric (Sample.nums [1; 2; 3; 4; 5; 6; 7; 8; 9; 10]%Z))
           (Numeric (Sample.nums [1; 2; 3; 4; 5; 6; 7; 8; 9; 10]%Z))
           eq_refl (or_introl eq_refl) eq_refl eq_refl eq_refl eq_refl eq_refl).
Defined.

(* the file of Case.no_samp_table, charted for 'pH_free' *)
Lemma tick_raises_without_samp_num_witness :
  update_graph Sample.library 0 (Some "pH_free") None None None None
               (Sample.world Case.no_samp_table) =
    (Raise (Exception "ValueError" (Sample.range_rejected 3)),
     extend (Case.after_read Case.no_samp_table) []
            [CallQuantile (1 # 4); CallQuantile (3 # 4)]).
Proof.
  exact (tick_raises_without_samp_num Sample.library 0 "pH_free" None None None None
           (Sample.world Case.no_samp_table) (Case.after_read Case.no_samp_table)
           (mkFile 100 (Ok Case.no_samp_table)) Case.no_samp_dataset
           (mkMetadata "pc_time" ["pH_free"])
           (Sample.nums [7; 8; 7]%Z)
           (Datetime64 [Some 1700000000%Z; Some 1700000005%Z; Some 1700000010%Z])
           eq_refl (or_introl eq_refl) eq_refl eq_refl eq_refl eq_refl).
Defined.

Lemma dropdown_unmodified_file_returns_cache_witness :
  exists value : option string,
    update_dropdown Sample.library 7 (Some "ph_total") Case.steady
    = (Ok ([("pH_free", "pH_free")], value), Case.steady)
    /\ (forall c, Some "pH_free" = Some c -> c <> "" -> value = Some c)
    /\ (Some "pH_free" = None \/ Some "pH_free" = Some "" -> value = Some "ph_total").
Proof.
  apply (dropdown_unmodified_file_returns_cache Sample.library 7 (Some "ph_total")
           Case.steady (mkFile 100 (Ok Sample.table)));
    [reflexivity | reflexivity | discriminate].
Defined.

Lemma dropdown_refresh_then_steady_witness :
  exists (v : string) (w' : World),
    update_dropdown Sample.library 0 None (Sample.world Sample.table) =
      (Ok ([("pH_free", "pH_free")], Some v), w')
    /\ v ∈ ["pH_free"]
    /\ last_modified_time w' = Some 100%Z
    /\ forall (n' : Z) (current_value' : option string),
         update_dropdown Sample.library n' current_value' w' =
           (Ok ([("pH_free", "pH_free")], Some v), w').
Proof.
  apply (dropdown_refresh_then_steady Sample.library 0 None
           (Sample.world Sample.table) (Case.after_read Sample.table)
           (mkFile 100 (Ok Sample.table)) Sample.table
           (mkMetadata "samp_num" ["pH_free"]));
    [reflexivity | left; discriminate | reflexivity].
Defined.

Lemma dropdown_failed_refresh_keeps_cache_witness :
  update_dropdown Sample.library 0 (Some "pH_free") Case.broken_file =
    (Ok ([], Some "pH_free"),
     extend Case.broken_file ["Error reading CSV: No columns to parse from file"]
            [CallReadCsv FILE_PATH])
  /\ None = last_modified_time Case.broken_file
  /\ [] = dropdown_options Case.broken_file
  /\ None = dropdown_value Case.broken_file.
Proof.
  apply (dropdown_failed_refresh_keeps_cache Sample.library 0 (Some "pH_free")
           Case.broken_file
           (extend Case.broken_file ["Error reading CSV: No columns to parse from file"]
                   [CallReadCsv FILE_PATH])
           (mkFile 100 (Raise Case.empty_data_error)));
    [reflexivity | left; discriminate | reflexivity].
Defined.

Lemma capture_view_filters_payload_witness :
  capture_view (Some Case.mixed_payload) (Some Sample.zoom) !! "dragmode"
  = if is_view_key "dragmode" then Case.mixed_payload !! "dragmode" else None.
Proof.
  apply (capture_view_filters_payload Case.mixed_payload (Some Sample.zoom) "dragmode").
  intros E. apply (f_equal (fun view : dict => view !! "dragmode")) in E.
  vm_compute in E. discriminate E.
Defined.

Lemma classify_by_fence_witness :
  let v := Sample.nums [1; 2; 3; 4; 5; 6; 7; 8; 9; 100]%Z in
  let lower := fst (fence (Sample.quantile (1 # 4) v) (Sample.quantile (3 # 4) v)) in
  let upper := snd (fence (Sample.quantile (1 # 4) v) (Sample.quantile (3 # 4) v)) in
  exists (df_normal df_outliers : DataFrame) (w' : World),
    classify Sample.library Sample.table "pH_free" (Sample.world Sample.table)
      = (Ok (df_normal, df_outliers), w')
    /\ df_get "pH_free" df_normal = Some (Numeric (List.filter (in_fence lower upper) v))
    /\ df_get "pH_free" df_outliers
       = Some (Numeric (List.filter (fun c => negb (in_fence lower upper c)) v)).
Proof.
  apply (classify_by_fence Sample.library Sample.table "pH_free"
           (Numeric (Sample.nums [1; 2; 3; 4; 5; 6; 7; 8; 9; 100]%Z))
           (Sample.nums [1; 2; 3; 4; 5; 6; 7; 8; 9; 100]%Z)
           (Sample.world Sample.table) eq_refl eq_refl).
  vm_compute. lia.
Defined.

Lemma interquartile_rows_are_normal_witness :
  normal_mask Sample.table (Sample.nums [1; 2; 3; 4; 5; 6; 7; 8; 9; 100]%Z)
              (Fin (13 # 4)) (Fin (31 # 4)) !! 4 = Some true.
Proof.
  apply (interquartile_rows_are_normal Sample.table
           (Sample.nums [1; 2; 3; 4; 5; 6; 7; 8; 9; 100]%Z)
           (13 # 4)%Q (31 # 4)%Q (inject_Z 5) 4 eq_refl eq_refl);
    vm_compute; discriminate.
Defined.

(* with both quartiles 2^53, the int64 cell 2^53 + 1, which as a float64 is
   2^53, is inside the fence *)
Lemma zero_iqr_fence_is_one_value_witness :
  round64 (inject_Z (2 ^ 53 + 1)) = Fin (inject_Z (2 ^ 53))
  /\ (in_fence (fst (fence (Fin (inject_Z (2 ^ 53))) (Fin (inject_Z (2 ^ 53)))))
               (snd (fence (Fin (inject_Z (2 ^ 53))) (Fin (inject_Z (2 ^ 53)))))
               (Some (inject_Z (2 ^ 53 + 1))) = true
      <-> float_is (round64 (inject_Z (2 ^ 53 + 1))) (inject_Z (2 ^ 53))).
Proof.
  split; [vm_compute; reflexivity|].
  apply (zero_iqr_fence_is_one_value (inject_Z (2 ^ 53)) (inject_Z (2 ^ 53 + 1))).
  eexists. split; vm_compute; reflexivity.
Defined.
